(** * Steam trend analysis: the ETL loader and the regression guardrails

    A shallow embedding of [src/data_loader.py] (class [SteamDataLoader]),
    [src/analytics.py] (class [SteamAnalytics]) and the helper
    [process_tags_safely] of [app.py].

    Python values that can sit in a DataFrame cell are the inductive type
    [pyval]; a DataFrame is an index plus an ordered list of named columns;
    logging, the calls into pandas' JSON reader and into statsmodels are
    recorded as a trace of events, and exceptions are an explicit outcome.

    The library calls (pandas, statsmodels, [ast.literal_eval]) follow their
    documented behaviour.  What the repository does not fix (how a numeric
    string or a date is parsed, which labels pandas gives the rows, what a
    sum outside the range of int64 comes to, how a column with mixed UTC
    offsets is converted, what the OLS fit returns or raises, what
    [ast.literal_eval] makes of a string) is a parameter, so every theorem
    holds for all such behaviours.

    A number is an exact rational or one of the IEEE specials.  Rounding is
    abstracted away; sums and quotients outside the range of int64, where
    an int64 column wraps around and a float64 column rounds or overflows,
    are left to the parameter [pandas]. *)

From Stdlib Require Import QArith Qminmax Lia Lqa.
From stdpp Require Import base tactics option list strings pretty.

Open Scope string_scope.
Open Scope list_scope.

(** ** Floating-point numbers *)

Inductive float64 :=
| Fin (q : Q)
| PInf
| NInf
| NaN.

Definition fzero : float64 := Fin 0.
Definition fone : float64 := Fin 1.

Definition is_zero (x : float64) : bool :=
  match x with
  | Fin q => Qeq_bool q 0
  | _ => false
  end.

Definition Qneg_bool (q : Q) : bool := negb (Qle_bool 0 q).

Definition fneg (x : float64) : float64 :=
  match x with
  | Fin q => Fin (- q)
  | PInf => NInf
  | NInf => PInf
  | NaN => NaN
  end.

(** IEEE addition. *)
Definition fadd (x y : float64) : float64 :=
  match x, y with
  | NaN, _ | _, NaN => NaN
  | Fin a, Fin b => Fin (a + b)
  | PInf, NInf | NInf, PInf => NaN
  | PInf, _ | _, PInf => PInf
  | NInf, _ | _, NInf => NInf
  end.

(** IEEE division, as numpy's [true_divide] performs it: a finite non-zero
    value over zero is an infinity, zero over zero is NaN. *)
Definition fdiv (x y : float64) : float64 :=
  match x, y with
  | NaN, _ | _, NaN => NaN
  | Fin a, Fin b =>
      if Qeq_bool b 0 then
        (if Qeq_bool a 0 then NaN else if Qneg_bool a then NInf else PInf)
      else Fin (a / b)
  | Fin _, (PInf | NInf) => Fin 0
  | (PInf | NInf), (PInf | NInf) => NaN
  | PInf, Fin b => if Qneg_bool b then NInf else PInf
  | NInf, Fin b => if Qneg_bool b then PInf else NInf
  end.

(** ** Python values *)

(** [PyNum] stands for both [int] and [float]; [PyOther] for any object of
    a type the code never tests for (tuple, set, bytes, ...). *)
#[warnings="-register-all"]
Inductive pyval :=
| PyNone
| PyBool (b : bool)
| PyNum (x : float64)
| PyStr (s : string)
| PyList (l : list pyval)
| PyDict (d : list (pyval * pyval))
| PyTimestamp (t : Z)
| PyNaT
| PyOther (type_name : string).

Definition py_nan : pyval := PyNum NaN.
Definition py_int (z : Z) : pyval := PyNum (Fin (inject_Z z)).

(** [isinstance(x, dict)], [isinstance(x, list)], [isinstance(x, str)]. *)
Definition is_dict (x : pyval) : bool :=
  match x with PyDict _ => true | _ => false end.
Definition is_list (x : pyval) : bool :=
  match x with PyList _ => true | _ => false end.
Definition is_str (x : pyval) : bool :=
  match x with PyStr _ => true | _ => false end.

(** [list(d.keys())]. *)
Definition dict_keys (d : list (pyval * pyval)) : list pyval := d.*1.

(** [pd.isna] on a scalar: [None], NaN and NaT are missing; an infinity is
    not ([mode.use_inf_as_na] is off by default). *)
Definition isna (x : pyval) : bool :=
  match x with
  | PyNone | PyNaT | PyNum NaN => true
  | _ => false
  end.

Definition notna (x : pyval) : bool := negb (isna x).

(** ** Exceptions, events and the effect monad *)

Inductive exn_class :=
| FileNotFoundError
| ValueError
| SyntaxError
| KeyError
| TypeError
| MemoryError
| RecursionError
| MissingDataError
| AttributeError
| NotImplementedError
| KeyboardInterrupt
| SystemExit.

Global Instance exn_class_eq_dec : EqDecision exn_class.
Proof. solve_decision. Defined.

Record exn := Exn { exn_cls : exn_class; exn_msg : string }.

(** [str(e)]. *)
Definition exn_str (e : exn) : string := exn_msg e.

(** What an [except] clause names. *)
Inductive except_clause :=
| ExceptException
| ExceptClasses (cs : list exn_class).

(** [KeyboardInterrupt] and [SystemExit] derive from [BaseException]
    only; all other classes above derive from [Exception] and none of them
    derives from another one of the list ([MissingDataError] is the one
    statsmodels raises on data it cannot fit). *)
Definition is_Exception (c : exn_class) : bool :=
  match c with
  | KeyboardInterrupt | SystemExit => false
  | _ => true
  end.

Definition handles (cl : except_clause) (e : exn) : bool :=
  match cl with
  | ExceptException => is_Exception (exn_cls e)
  | ExceptClasses cs => bool_decide (exn_cls e ∈ cs)
  end.

Inductive outcome (A : Type) :=
| Return (a : A)
| Raise (e : exn).
Arguments Return {A} a.
Arguments Raise {A} e.

Inductive log_level := INFO | WARNING | ERROR.

Inductive json_orient := OrientIndex | OrientDefault.

Record DataFrame := mkDataFrame {
  index : list pyval;
  columns : list (string * list pyval)
}.

Inductive event :=
| Log (lvl : log_level) (msg : string)
| ReadJson (path : string) (orient : json_orient)
| OLSFit (y : list pyval) (X : DataFrame).

(** A computation produces the events it performed and either returns or
    raises. *)
Definition M (A : Type) : Type := list event * outcome A.

Definition trace {A} (m : M A) : list event := m.1.
Definition result {A} (m : M A) : outcome A := m.2.

Global Instance M_ret : MRet M := λ A a, ([], Return a).

Global Instance M_bind : MBind M := λ A B f m,
  match m with
  | (t, Return a) => let '(t', r) := f a in (t ++ t', r)
  | (t, Raise e) => (t, Raise e)
  end.

Definition raise {A} (e : exn) : M A := ([], Raise e).
Definition emit (ev : event) : M unit := ([ev], Return tt).

(** Lift the outcome of a library call into a computation. *)
Definition lift {A} (o : outcome A) : M A := ([], o).

(** [try: body except cl as e: handler e]. *)
Definition try_except {A} (body : M A) (cl : except_clause)
    (handler : exn → M A) : M A :=
  match body with
  | (t, Return a) => (t, Return a)
  | (t, Raise e) =>
      if handles cl e then let '(t', r) := handler e in (t ++ t', r)
      else (t, Raise e)
  end.

Definition logger_info (msg : string) : M unit := emit (Log INFO msg).
Definition logger_warning (msg : string) : M unit := emit (Log WARNING msg).
Definition logger_error (msg : string) : M unit := emit (Log ERROR msg).

(** ** DataFrames *)

(** [len(df)]. *)
Definition len (df : DataFrame) : nat := length (index df).


Definition shape (df : DataFrame) : nat * nat :=
  (len df, length (columns df)).

Definition shape_str (df : DataFrame) : string :=
  "(" +:+ pretty (shape df).1 +:+ ", " +:+ pretty (shape df).2 +:+ ")".

Fixpoint lookup_col (c : string) (cols : list (string * list pyval))
    : option (list pyval) :=
  match cols with
  | [] => None
  | (k, s) :: rest => if String.eqb k c then Some s else lookup_col c rest
  end.

(** The series stored under label [c], and its cell in row [i]. *)
Definition column (df : DataFrame) (c : string) : option (list pyval) :=
  lookup_col c (columns df).

Definition cell (df : DataFrame) (c : string) (i : nat) : option pyval :=
  column df c ≫= λ s, s !! i.

(** [c in df.columns]. *)
Definition has_column (df : DataFrame) (c : string) : bool :=
  match column df c with Some _ => true | None => false end.

(** [df[c]]: a missing label raises [KeyError]. *)
Definition getitem (df : DataFrame) (c : string) : M (list pyval) :=
  match column df c with
  | Some s => mret s
  | None => raise (Exn KeyError c)
  end.

Fixpoint assign_col (c : string) (s : list pyval)
    (cols : list (string * list pyval)) : list (string * list pyval) :=
  match cols with
  | [] => [(c, s)]
  | (k, v) :: rest =>
      if String.eqb k c then (k, s) :: rest else (k, v) :: assign_col c s rest
  end.

(** [df[c] = s]: an existing column is replaced in place, a new one is
    appended. *)
Definition setitem (df : DataFrame) (c : string) (s : list pyval)
    : DataFrame :=
  mkDataFrame (index df) (assign_col c s (columns df)).

(** [df[cs]] for a list of labels: the first missing one raises. *)
Fixpoint select_cols (cols : list (string * list pyval)) (cs : list string)
    : M (list (string * list pyval)) :=
  match cs with
  | [] => mret []
  | c :: cs' =>
      match lookup_col c cols with
      | Some s => rest ← select_cols cols cs'; mret ((c, s) :: rest)
      | None => raise (Exn KeyError c)
      end
  end.

Definition getitems (df : DataFrame) (cs : list string) : M DataFrame :=
  sel ← select_cols (columns df) cs;
  mret (mkDataFrame (index df) sel).

(** A frame is well formed when every column has one cell per index
    label. *)
Definition wf_frame (df : DataFrame) : Prop :=
  Forall (λ kv, length kv.2 = len df) (columns df).

(** ** What pandas decides

    The behaviour of pandas that depends on the dtype of a column or on the
    version of the library: the label [read_json] gives row [i] of an
    object whose keys are [keys] (with [convert_axes] numeric identifiers
    become integers); the value of a sum or a quotient that lies outside
    the range of int64 (an int64 column wraps around, a float64 column
    rounds or overflows to an infinity); the message of the [ValueError]
    with which [pd.to_datetime] refuses a column, if it does (time stamps
    with different UTC offsets, in the versions that refuse them); and
    whether it finds such time stamps and returns them as Python
    [datetime] objects in a column of dtype object. *)
Record pandas := mkPandas {
  row_label : list string → nat → pyval;
  sum_beyond : Q → Q → float64;
  quotient_beyond : Q → Q → float64;
  datetime_error : list pyval → option string;
  mixed_offsets : list pyval → bool
}.

(** Strictly between -2^63 and 2^63. *)
Definition int64_bound : Q := 9223372036854775808.

Definition in_range (q : Q) : bool :=
  negb (Qle_bool int64_bound q) && negb (Qle_bool q (- int64_bound)).

(** Addition and division of two numbers as pandas performs them. *)
Definition add64 (lib : pandas) (x y : float64) : float64 :=
  match x, y with
  | Fin a, Fin b => if in_range (a + b) then Fin (a + b) else sum_beyond lib a b
  | _, _ => fadd x y
  end.

Definition div64 (lib : pandas) (x y : float64) : float64 :=
  match x, y with
  | Fin a, Fin b =>
      if Qeq_bool b 0 then fdiv x y
      else if in_range (a / b) then Fin (a / b)
      else quotient_beyond lib a b
  | _, _ => fdiv x y
  end.

(** A column of dtype bool: every record has a boolean there. *)
Definition is_bool (x : pyval) : bool :=
  match x with PyBool _ => true | _ => false end.

Definition bool_dtype (s : list pyval) : bool :=
  match s with
  | [] => false
  | _ => forallb is_bool s
  end.

(** The number a cell of a numeric or boolean column stands for. *)
Definition bool_to_float (b : bool) : float64 := Fin (if b then 1 else 0).

Definition num_of (v : pyval) : option float64 :=
  match v with
  | PyNum x => Some x
  | PyBool b => Some (bool_to_float b)
  | _ => None
  end.

(** Element-wise binary operator on two series that share their index. *)
Fixpoint series_binop (op : pyval → pyval → outcome pyval)
    (a b : list pyval) : M (list pyval) :=
  match a, b with
  | x :: a', y :: b' =>
      match op x y with
      | Return v => rest ← series_binop op a' b'; mret (v :: rest)
      | Raise e => raise e
      end
  | _, _ => mret []
  end.

(** [+] and [/] on two cells.  In the loader a column holds numbers or,
    when every record has a boolean there, booleans: two booleans add up
    to their disjunction and cannot be divided; a boolean next to a number
    counts as 0 or 1; other operands are reported as a [TypeError]. *)
Definition py_add (lib : pandas) (a b : pyval) : outcome pyval :=
  match a, b with
  | PyBool x, PyBool y => Return (PyBool (x || y))
  | _, _ =>
      match num_of a, num_of b with
      | Some x, Some y => Return (PyNum (add64 lib x y))
      | _, _ => Raise (Exn TypeError "unsupported operand type(s) for +")
      end
  end.

Definition py_truediv (lib : pandas) (a b : pyval) : outcome pyval :=
  match a, b with
  | PyBool _, PyBool _ =>
      Raise (Exn NotImplementedError
               "operator 'truediv' not implemented for bool dtypes")
  | _, _ =>
      match num_of a, num_of b with
      | Some x, Some y => Return (PyNum (div64 lib x y))
      | _, _ => Raise (Exn TypeError "unsupported operand type(s) for /")
      end
  end.

(** [s.replace(0, 1)]; a boolean column cannot hold 0 and stays as it
    is. *)
Definition replace_0_1 (s : list pyval) : list pyval :=
  map (λ v, match v with
            | PyNum x => if is_zero x then PyNum fone else v
            | _ => v
            end) s.

(** [s.fillna(0)]. *)
Definition fillna_0 (s : list pyval) : list pyval :=
  map (λ v, if isna v then PyNum fzero else v) s.

(** ** The raw source *)

(** One raw record: a JSON object, field name to value. *)
Definition record := list (string * pyval).

(** What the source file holds once parsed: a mapping from identifiers to
    records (in file order; the keys of a parsed JSON object are distinct),
    an array of records, or nothing a JSON parser can read. *)
Inductive source :=
| KeyedMapping (recs : list (string * record))
| ArrayOfRecords (recs : list record)
| Malformed.

Fixpoint field (c : string) (r : record) : option pyval :=
  match r with
  | [] => None
  | (k, v) :: rest => if String.eqb k c then Some v else field c rest
  end.

(** The cell pandas builds for field [c] of record [r]: NaN when the record
    has no such field. *)
Definition raw_cell (c : string) (r : record) : pyval :=
  default py_nan (field c r).

(** The column labels: every field name of every record, first occurrence
    first. *)
Definition field_names (recs : list record) : list string :=
  reverse (remove_dups (reverse (concat (map (λ r : record, r.*1) recs)))).

(** The frame with columns [cols] whose rows are [recs]. *)
Definition frame_of (cols : list string) (idx : list pyval)
    (recs : list record) : DataFrame :=
  mkDataFrame idx (map (λ c, (c, map (raw_cell c) recs)) cols).

Definition frame_of_records (idx : list pyval) (recs : list record)
    : DataFrame :=
  frame_of (field_names recs) idx recs.

Definition range_index (n : nat) : list pyval :=
  map (λ i, py_int (Z.of_nat i)) (seq 0 n).

(** [record] has field [c]. *)
Definition has_field (c : string) (r : record) : bool :=
  bool_decide (is_Some (field c r)).

(** The rows of [DataFrame.from_dict(data, orient='index')].  pandas turns
    the mapping of records into one mapping per column, from identifier to
    value, and takes as row labels the identifiers of the first column in
    file order, then those of the second column that are new, and so on: a
    record comes after every record that has an earlier column than its
    own first one, and a record without any field gets no row. *)
Fixpoint rows_by (cols : list string) (keyed : list (string * record))
    : list (string * record) :=
  match cols with
  | [] => []
  | c :: cols' =>
      filter (λ kr, has_field c kr.2 = true) keyed ++
      rows_by cols' (filter (λ kr, has_field c kr.2 = false) keyed)
  end.

Definition row_order (keyed : list (string * record))
    : list (string * record) :=
  rows_by (field_names (keyed.*2)) keyed.

(** The labels of the rows. *)
Definition row_labels (lib : pandas) (keys : list string) : list pyval :=
  map (row_label lib keys) (seq 0 (length keys)).

Definition frame_of_keyed (lib : pandas) (keyed : list (string * record))
    : DataFrame :=
  frame_of (field_names (keyed.*2))
    (row_labels lib ((row_order keyed).*1)) ((row_order keyed).*2).

(** The records behind the rows of the frame pandas reads, row by row. *)
Definition source_records (src : source) : option (list record) :=
  match src with
  | KeyedMapping keyed => Some ((row_order keyed).*2)
  | ArrayOfRecords recs => Some recs
  | Malformed => None
  end.

(** ** The loader: [SteamDataLoader] *)

Section Loader.

(** The file system: what is stored under a path, if anything. *)
Variable fs : string → option source.

Variable lib : pandas.

(** [float(s)] as [pd.to_numeric] parses a string, [None] when it does not
    parse. *)
Variable parse_float : string → option float64.

(** The time stamp [pd.to_datetime] reads from a cell, [None] when it reads
    none. *)
Variable parse_datetime : pyval → option Z.

(** [os.path.exists]. *)
Definition os_path_exists (path : string) : bool :=
  match fs path with Some _ => true | None => false end.

(** [pd.read_json(path, orient=...)].  Content that is not JSON is a
    [ValueError].  With [orient='index'] pandas hands the parsed value to
    [DataFrame.from_dict], which asks a non-empty value for its [values()]:
    on an array that is an [AttributeError], and an empty array gives the
    empty frame.  The default orientation reads an array of records row by
    row, and a mapping of records column by column (the texts of the
    messages play no role). *)
Definition read_json (path : string) (orient : json_orient) : M DataFrame :=
  emit (ReadJson path orient);;
  match fs path, orient with
  | None, _ => raise (Exn FileNotFoundError path)
  | Some Malformed, _ => raise (Exn ValueError "Expected object or value")
  | Some (KeyedMapping keyed), OrientIndex => mret (frame_of_keyed lib keyed)
  | Some (ArrayOfRecords []), OrientIndex => mret (mkDataFrame [] [])
  | Some (ArrayOfRecords (_ :: _)), OrientIndex =>
      raise (Exn AttributeError "'list' object has no attribute 'values'")
  | Some (ArrayOfRecords recs), OrientDefault =>
      mret (frame_of_records (range_index (length recs)) recs)
  | Some (KeyedMapping recs), OrientDefault =>
      mret (mkDataFrame (map PyStr (field_names (recs.*2)))
              (map (λ kr : string * record,
                      (kr.1, map (λ c, raw_cell c kr.2) (field_names (recs.*2))))
                   recs))
  end.

(** The column of time stamps [pd.to_datetime(s, errors='coerce')] makes:
    what does not parse is NaT. *)
Definition to_datetime (s : list pyval) : list pyval :=
  map (λ v, match parse_datetime v with
            | Some t => PyTimestamp t
            | None => PyNaT
            end) s.

(** The column of dtype object it makes of time stamps with different UTC
    offsets: Python [datetime] objects, which are no pandas time stamps. *)
Definition as_objects (s : list pyval) : list pyval :=
  map (λ v, match parse_datetime v with
            | Some _ => PyOther "datetime"
            | None => PyNaT
            end) s.

Definition datetime_column (s : list pyval) : list pyval :=
  if mixed_offsets lib s then as_objects s else to_datetime s.

(** [pd.to_datetime(s, errors='coerce')]: a column of booleans is a
    [TypeError] even so. *)
Definition pd_to_datetime (s : list pyval) : outcome (list pyval) :=
  if bool_dtype s then
    Raise (Exn TypeError "dtype bool cannot be converted to datetime64[ns]")
  else
    match datetime_error lib s with
    | Some msg => Raise (Exn ValueError msg)
    | None => Return (datetime_column s)
    end.

(** [pd.to_numeric(s, errors='coerce')]: a column of booleans stays as it
    is; in any other column numbers stay, booleans count as 0 and 1,
    strings are parsed, and whatever is left is NaN. *)
Definition to_numeric_cell (v : pyval) : pyval :=
  match v with
  | PyNum x => PyNum x
  | PyBool b => PyNum (bool_to_float b)
  | PyStr s => PyNum (default NaN (parse_float s))
  | _ => PyNum NaN
  end.

Definition to_numeric (s : list pyval) : list pyval :=
  if bool_dtype s then s else map to_numeric_cell s.

Definition _validate_source (file_path : string) : M bool :=
  if negb (os_path_exists file_path) then
    let error_msg :=
      "ETL-Error: Quelldatei " +:+ file_path +:+ " nicht gefunden." in
    logger_error error_msg;;
    raise (Exn FileNotFoundError error_msg)
  else mret true.

Definition important_columns : list string :=
  ["name"; "release_date"; "positive"; "negative"; "price";
   "average_playtime_forever"; "genres"; "tags"].

Definition cols_to_numeric : list string :=
  ["price"; "positive"; "negative"; "average_playtime_forever"].

(** One turn of the loop over [cols_to_numeric]. *)
Definition numeric_step (df : DataFrame) (col : string) : DataFrame :=
  match column df col with
  | Some s => setitem df col (fillna_0 (to_numeric s))
  | None => df
  end.

(** [lambda x: x if isinstance(x, (dict, list)) else {}]. *)
Definition tags_lambda (x : pyval) : pyval :=
  if is_dict x || is_list x then x else PyDict [].

Definition normalize_tags (df : DataFrame) : DataFrame :=
  match column df "tags" with
  | Some s => setitem df "tags" (map tags_lambda s)
  | None => setitem df "tags" (replicate (len df) (PyDict []))
  end.

Definition ensure_genres (df : DataFrame) : DataFrame :=
  if negb (has_column df "genres") then
    setitem df "genres" (replicate (len df) (PyList []))
  else df.

(** 1. Ingestion: the keyed reading first, the default reading when that
    one raises a [ValueError]. *)
Definition ingestion (file_path : string) : M DataFrame :=
  try_except (read_json file_path OrientIndex)
    (ExceptClasses [ValueError])
    (λ _,
       logger_warning
         "JSON-Struktur weicht ab (Array statt Index). Nutze Fallback-Parser.";;
       read_json file_path OrientDefault).

(** 2. Projection on the allow-listed columns the source has. *)
Definition projection (temp_df : DataFrame) : M DataFrame :=
  let existing_cols :=
    filter (λ c, has_column temp_df c = true) important_columns in
  getitems temp_df existing_cols.

(** 3. Cleaning and type casting, then the shape of tags and genres. *)
Definition cleaning (df : DataFrame) : M DataFrame :=
  release_date ← getitem df "release_date";
  release_date ← lift (pd_to_datetime release_date);
  let df := setitem df "release_date" release_date in
  let df := foldl numeric_step df cols_to_numeric in
  let df := normalize_tags df in
  let df := ensure_genres df in
  mret df.

(** 4. Feature engineering: [total_reviews] and [score_ratio]. *)
Definition feature_engineering (df : DataFrame) : M DataFrame :=
  positive ← getitem df "positive";
  negative ← getitem df "negative";
  total ← series_binop (py_add lib) positive negative;
  let df := setitem df "total_reviews" total in
  positive ← getitem df "positive";
  total_reviews ← getitem df "total_reviews";
  ratio ← series_binop (py_truediv lib) positive (replace_0_1 total_reviews);
  let df := setitem df "score_ratio" ratio in
  mret df.

Definition prepare_dataframe (file_path : string) : M DataFrame :=
  _validate_source file_path;;
  logger_info ("Starte Daten-Ingestierung von: " +:+ file_path);;
  temp_df ← ingestion file_path;
  df ← projection temp_df;
  df ← cleaning df;
  df ← feature_engineering df;
  logger_info
    ("ETL erfolgreich abgeschlossen. Datensatzgröße: " +:+ shape_str df);;
  mret df.

End Loader.

(** ** The regression engine: [SteamAnalytics] *)


(** The rows that survive a boolean mask. *)
Fixpoint keep {A} (mask : list bool) (l : list A) : list A :=
  match mask, l with
  | b :: mask', x :: l' => if b then x :: keep mask' l' else keep mask' l'
  | _, _ => []
  end.

(** One flag per row: no cell of the row is missing. *)
Definition row_mask (cols : list (string * list pyval)) (n : nat)
    : list bool :=
  foldr (λ kv acc, zip_with andb (map notna kv.2) acc) (replicate n true) cols.

(** [df.dropna()]: listwise deletion. *)
Definition dropna (df : DataFrame) : DataFrame :=
  let mask := row_mask (columns df) (len df) in
  mkDataFrame (keep mask (index df))
    (map (λ kv, (kv.1, keep mask kv.2)) (columns df)).

Definition required_cols : list string :=
  ["score_ratio"; "price"; "average_playtime_forever"].

Definition schema_error_msg : string :=
  "Fehler: Datensatz fehlen erforderliche Spalten für die Regression.".

Definition sample_too_small_msg : string :=
  "Datensatz zu klein für eine statistisch valide Inferenzanalyse (n < 30).".

Section Analytics.

(** The fitted model object of statsmodels. *)
Variable fitted : Type.

(** [sm.OLS(y, sm.add_constant(X)).fit()]. *)
Variable sm_OLS_fit : list pyval → DataFrame → outcome fitted.

(** [f"{model.rsquared:.4f}"]. *)
Variable rsquared_4f : fitted → outcome string.

(** [model.summary().as_text()]. *)
Variable summary_as_text : fitted → outcome string.

(** The body of the [try] block. *)
Definition fit_and_report (model_df : DataFrame) : M string :=
  y ← getitem model_df "score_ratio";
  X ← getitems model_df ["price"; "average_playtime_forever"];
  emit (OLSFit y X);;
  model ← lift (sm_OLS_fit y X);
  r2 ← lift (rsquared_4f model);
  logger_info ("Regressionsmodell erfolgreich berechnet. R²: " +:+ r2);;
  lift (summary_as_text model).

Definition perform_linear_regression (df : DataFrame) : M string :=
  if negb (forallb (has_column df) required_cols) then
    let error_msg := schema_error_msg in
    logger_error error_msg;;
    mret error_msg
  else
    sub ← getitems df required_cols;
    let model_df := dropna sub in
    if (len model_df <? 30)%nat then
      logger_warning ("Regression abgebrochen: Zu wenige Datenpunkte ("
                      +:+ pretty (len model_df) +:+ ").");;
      mret sample_too_small_msg
    else
      try_except (fit_and_report model_df) ExceptException
        (λ e,
           logger_error ("Mathematischer Fehler während der Regression: "
                         +:+ exn_str e);;
           mret ("Berechnungsfehler im OLS-Modell: " +:+ exn_str e)).

End Analytics.

(** ** The dashboard's tag helper: [process_tags_safely] *)

Section Tags.

(** [ast.literal_eval]: the value of a literal, or the exception raised. *)
Variable literal_eval : string → outcome pyval.

Definition process_tags_safely (tag_data : pyval) : M pyval :=
  match tag_data with
  | PyDict d => mret (PyList (dict_keys d))
  | PyList _ => mret tag_data
  | PyStr s =>
      try_except
        (parsed ← lift (literal_eval s);
         match parsed with
         | PyDict d => mret (PyList (dict_keys d))
         | PyList _ => mret parsed
         | _ => mret (PyList [])
         end)
        (ExceptClasses [ValueError; SyntaxError])
        (λ _, mret (PyList []))
  | _ => mret (PyList [])
  end.

End Tags.

(** ** Sample data

    The fixture of [tests/test_data_loader.py], the frames of
    [tests/test_analytics.py], and sample behaviours of the library calls
    on which the models are run. *)

Definition game_a : record :=
  [("name", PyStr "Test Game A (Reference)");
   ("release_date", PyStr "2020-01-01");
   ("price", PyStr "19.99");
   ("positive", py_int 100);
   ("negative", py_int 0);
   ("average_playtime_forever", py_int 60);
   ("tags", PyDict [(PyStr "Action", py_int 100); (PyStr "Indie", py_int 50)]);
   ("genres", PyList [PyStr "Action"; PyStr "Indie"])].

Definition game_b : record :=
  [("name", PyStr "Test Game B (Corrupt)");
   ("release_date", PyStr "invalid-date");
   ("price", py_int 0);
   ("positive", py_int 0);
   ("negative", py_int 0);
   ("tags", PyList []);
   ("genres", PyList [])].

Definition game_c : record :=
  [("name", PyStr "Test Game C (Edge Case)");
   ("release_date", PyStr "2030-01-01");
   ("price", PyStr "-5.00");
   ("positive", py_int 1);
   ("negative", py_int 1);
   ("average_playtime_forever", py_int 0);
   ("tags", PyNone);
   ("genres", PyNone)].

Definition test_data : source :=
  KeyedMapping [("10", game_a); ("20", game_b); ("30", game_c)].

(** A file system holding [files] and nothing else. *)
Definition fs_of (files : list (string * source)) (path : string)
    : option source :=
  (list_find (λ kv, kv.1 = path) files) ≫= λ hit, Some hit.2.2.

Definition sample_parse_float (s : string) : option float64 :=
  if String.eqb s "19.99" then Some (Fin (1999 # 100))
  else if String.eqb s "-5.00" then Some (Fin (-5))
  else if String.eqb s "inf" then Some PInf
  else None.

(** Days since 1970-01-01. *)
Definition sample_parse_datetime (v : pyval) : option Z :=
  match v with
  | PyStr s =>
      if String.eqb s "2020-01-01" then Some 18262%Z
      else if String.eqb s "2030-01-01" then Some 21915%Z
      else None
  | _ => None
  end.

(** The frames of [tests/test_analytics.py]. *)
Definition py_range (a n : nat) : list pyval :=
  map (λ i, py_int (Z.of_nat i)) (seq a n).

Definition perfect_df : DataFrame :=
  mkDataFrame (range_index 50)
    [("score_ratio", replicate 50 (PyNum (Fin (1 # 2))));
     ("price", py_range 0 50);
     ("average_playtime_forever", py_range 100 50)].

Definition tiny_df : DataFrame :=
  mkDataFrame (range_index 2)
    [("score_ratio", [PyNum (Fin (5 # 10)); PyNum (Fin (6 # 10))]);
     ("price", [py_int 10; py_int 20]);
     ("average_playtime_forever", [py_int 100; py_int 200])].

(** Thirty-one rows: the first has an infinite price, the second has no
    score, the others are complete and finite. *)
Definition inf_df : DataFrame :=
  mkDataFrame (range_index 31)
    [("name", replicate 31 (PyStr "game"));
     ("score_ratio",
      PyNum (Fin (1 # 2)) :: PyNum NaN :: replicate 29 (PyNum (Fin (1 # 2))));
     ("price", PyNum PInf :: py_range 1 30);
     ("average_playtime_forever", py_range 100 31)].

(** A fit that refuses non-finite data, as statsmodels does, and reports
    a fixed text otherwise. *)
Definition has_nonfinite (s : list pyval) : bool :=
  existsb (λ v, match v with PyNum (Fin _) => false | _ => true end) s.

Definition sample_OLS_fit (y : list pyval) (X : DataFrame) : outcome string :=
  if has_nonfinite y || existsb (λ kv, has_nonfinite kv.2) (columns X)
  then Raise (Exn MissingDataError "exog contains inf or nans")
  else Return "OLS Regression Results".

Definition sample_rsquared_4f (model : string) : outcome string :=
  Return "1.0000".

Definition sample_summary_as_text (model : string) : outcome string :=
  Return model.

(** A sample [ast.literal_eval]: two literals it evaluates, one on which
    it raises [TypeError] (a list as a key), and a syntax error on the
    rest. *)
Definition sample_literal_eval (s : string) : outcome pyval :=
  if String.eqb s "{'Action': 100, 'Indie': 50}" then
    Return (PyDict [(PyStr "Action", py_int 100); (PyStr "Indie", py_int 50)])
  else if String.eqb s "['Action', 'Indie']" then
    Return (PyList [PyStr "Action"; PyStr "Indie"])
  else if String.eqb s "{[]: 1}" then
    Raise (Exn TypeError "unhashable type: 'list'")
  else Raise (Exn SyntaxError "invalid syntax").

(** The test fixture stored as [games.json]. *)
Definition test_fs : string → option source :=
  fs_of [("games.json", test_data)].

(** A decimal numeral read as a number. *)
Definition digit_of (a : Ascii.ascii) : option nat :=
  let n := Ascii.nat_of_ascii a in
  if (48 <=? n)%nat && (n <=? 57)%nat then Some (n - 48)%nat else None.

Fixpoint digits_from (acc : nat) (s : string) : option nat :=
  match s with
  | EmptyString => Some acc
  | String a s' =>
      match digit_of a with
      | Some d => digits_from (10 * acc + d) s'
      | None => None
      end
  end.

Definition parse_nat (s : string) : option nat :=
  match s with
  | EmptyString => None
  | _ => digits_from 0 s
  end.

(** A sample of what pandas decides: identifiers that are all numerals
    become integers and stay strings otherwise; a sum beyond the range of
    int64 wraps around, as in a column of dtype int64; no column is
    refused by [pd.to_datetime], and none has mixed UTC offsets. *)
Definition sample_row_label (keys : list string) (i : nat) : pyval :=
  if forallb (λ k, bool_decide (is_Some (parse_nat k))) keys
  then py_int (Z.of_nat (default 0%nat (keys !! i ≫= parse_nat)))
  else PyStr (default "" (keys !! i)).

Definition two_to_64 : Q := 18446744073709551616.

Definition sample_sum_beyond (a b : Q) : float64 :=
  if Qle_bool 0 (a + b) then Fin (a + b - two_to_64)
  else Fin (a + b + two_to_64).

Definition sample_pandas : pandas :=
  mkPandas sample_row_label sample_sum_beyond (λ a b, Fin (a / b))
    (λ _, None) (λ _, false).

(** A keyed source whose records have nothing but a date and the two
    counts; the counts of the first record are integers, one of them
    negative, and the second record has a fractional count. *)
Definition odd_counts : source :=
  KeyedMapping
    [("1", [("release_date", PyStr "2020-01-01");
            ("positive", py_int 3);
            ("negative", py_int (-1))]);
     ("2", [("release_date", PyStr "2020-01-01");
            ("positive", PyNum (Fin (1 # 2)));
            ("negative", py_int 0)])].




(** A keyed source whose only record has no release date. *)
Definition undated : source :=
  KeyedMapping [("1", [("positive", py_int 1); ("negative", py_int 1)])].

Definition undated_fs : string → option source :=
  fs_of [("undated.json", undated)].



(** The records of the fixture as an array. *)
Definition array_fs : string → option source :=
  fs_of [("array.json", ArrayOfRecords [game_a; game_b; game_c])].

(** A keyed source whose only record stores its tags as the text of a
    mapping. *)
Definition text_tags : source :=
  KeyedMapping
    [("40", [("name", PyStr "Test Game D");
             ("release_date", PyStr "2020-01-01");
             ("positive", py_int 7);
             ("negative", py_int 3);
             ("tags", PyStr "{'Action': 100, 'Indie': 50}")])].

Definition text_tags_fs : string → option source :=
  fs_of [("text_tags.json", text_tags)].

(** ** Vocabulary of the statements *)

(** The column pandas builds for field [c]. *)
Definition raw_column (c : string) (recs : list record) : list pyval :=
  map (raw_cell c) recs.

(** Some record of the source has field [c]. *)
Definition supplies (recs : list record) (c : string) : bool :=
  existsb (λ r, bool_decide (is_Some (field c r))) recs.




Definition is_num (v : pyval) : bool :=
  match v with PyNum _ => true | _ => false end.

(** The float in a numeric or boolean cell. *)
Definition fval (v : pyval) : float64 :=
  default NaN (num_of v).

(** The two derived columns, cell by cell. *)
Definition add_cell (lib : pandas) (a b : pyval) : pyval :=
  match a, b with
  | PyBool x, PyBool y => PyBool (x || y)
  | _, _ => PyNum (add64 lib (fval a) (fval b))
  end.

Definition total_of (lib : pandas) (positive negative : list pyval)
    : list pyval :=
  zip_with (add_cell lib) positive negative.

Definition ratio_of (lib : pandas) (positive total : list pyval)
    : list pyval :=
  zip_with (λ a b, PyNum (div64 lib (fval a) (fval b)))
    positive (replace_0_1 total).



(** A numeric cell after imputation: a float that is not NaN. *)
Definition is_imputed (v : pyval) : Prop :=
  ∃ x, v = PyNum x ∧ x ≠ NaN.

(** A column after [pd.to_numeric(...).fillna(0)]: imputed numbers, or the
    booleans of a column of booleans. *)
Definition is_numeric_column (s : list pyval) : Prop :=
  Forall is_imputed s ∨ bool_dtype s = true.

(** What [pd.to_numeric(...).fillna(0)] makes of a column. *)
Definition numeric_column (parse_float : string → option float64)
    (s : list pyval) : list pyval :=
  fillna_0 (to_numeric parse_float s).

(** [df] is the table of the records [recs]: its length and its columns,
    each written from the raw columns of the source. *)
Record table_of (lib : pandas) (parse_float : string → option float64)
    (parse_datetime : pyval → option Z)
    (recs : list record) (df : DataFrame) : Prop := {
  table_len : len df = length recs;
  table_release_date :
    column df "release_date" =
    Some (datetime_column lib parse_datetime (raw_column "release_date" recs));
  table_numeric c :
    c ∈ cols_to_numeric →
    column df c =
    if supplies recs c
    then Some (numeric_column parse_float (raw_column c recs))
    else None;
  table_tags :
    column df "tags" =
    Some (if supplies recs "tags"
          then map tags_lambda (raw_column "tags" recs)
          else replicate (length recs) (PyDict []));
  table_genres :
    column df "genres" =
    Some (if supplies recs "genres"
          then raw_column "genres" recs
          else replicate (length recs) (PyList []));
  table_name :
    column df "name" =
    if supplies recs "name" then Some (raw_column "name" recs) else None;
  table_total_reviews :
    column df "total_reviews" =
    Some (total_of lib
            (numeric_column parse_float (raw_column "positive" recs))
            (numeric_column parse_float (raw_column "negative" recs)));
  table_score_ratio :
    column df "score_ratio" =
    Some (ratio_of lib
            (numeric_column parse_float (raw_column "positive" recs))
            (total_of lib
               (numeric_column parse_float (raw_column "positive" recs))
               (numeric_column parse_float (raw_column "negative" recs))))
}.

(** The projection computed without effects. *)
Definition project (cols : list (string * list pyval)) (cs : list string)
    : list (string * list pyval) :=
  omap (λ c, (λ s, (c, s)) <$> lookup_col c cols) cs.

(** [df[required_cols].dropna()] computed without effects. *)
Definition model_df_of (df : DataFrame) : DataFrame :=
  dropna (mkDataFrame (index df) (project (columns df) required_cols)).

(** The rows of the three required columns, and the rows none of whose
    three cells is missing. *)
Definition required_rows (df : DataFrame) : list (pyval * (pyval * pyval)) :=
  zip (default [] (column df "score_ratio"))
    (zip (default [] (column df "price"))
       (default [] (column df "average_playtime_forever"))).

Definition complete_row (r : pyval * (pyval * pyval)) : bool :=
  notna r.1 && (notna r.2.1 && notna r.2.2).

(** The endogenous series and the exogenous frame cut out of the cleaned
    frame for the fit. *)
Definition fit_inputs (model_df : DataFrame) : list pyval * DataFrame :=
  (default [] (column model_df "score_ratio"),
   mkDataFrame (index model_df)
     (project (columns model_df) ["price"; "average_playtime_forever"])).

(** The message of the [except] branch of the regression, and the branch
    itself. *)
Definition computation_error_msg (e : exn) : string :=
  "Berechnungsfehler im OLS-Modell: " +:+ exn_str e.

Definition on_error (e : exn) : M string :=
  logger_error ("Mathematischer Fehler während der Regression: "
                +:+ exn_str e);;
  mret (computation_error_msg e).

Definition too_few_rows_warning (n : nat) : string :=
  "Regression abgebrochen: Zu wenige Datenpunkte (" +:+ pretty n +:+ ").".

(** The frame the ingestion step hands on, when it hands one on, and the
    exception it raises otherwise: a non-empty array is an
    [AttributeError], which the [except ValueError] of the loader does not
    catch; content that is not JSON is a [ValueError] in both readings. *)
Definition ingested (lib : pandas) (src : source) : option DataFrame :=
  match src with
  | KeyedMapping keyed => Some (frame_of_keyed lib keyed)
  | ArrayOfRecords [] => Some (mkDataFrame [] [])
  | ArrayOfRecords (_ :: _) => None
  | Malformed => None
  end.

Definition ingestion_error (src : source) : exn :=
  match src with
  | ArrayOfRecords _ =>
      Exn AttributeError "'list' object has no attribute 'values'"
  | _ => Exn ValueError "Expected object or value"
  end.

(** The frame after cleaning, and the frame the loader returns, as
    functions of the ingested frame. *)
Definition cleaned_frame (lib : pandas) (parse_float : string → option float64)
    (parse_datetime : pyval → option Z) (temp_df : DataFrame) : DataFrame :=
  let df := mkDataFrame (index temp_df)
              (project (columns temp_df) important_columns) in
  let release_date := default [] (column df "release_date") in
  let df := setitem df "release_date"
              (datetime_column lib parse_datetime release_date) in
  let df := foldl (numeric_step parse_float) df cols_to_numeric in
  ensure_genres (normalize_tags df).

Definition final_frame (lib : pandas) (parse_float : string → option float64)
    (parse_datetime : pyval → option Z) (temp_df : DataFrame) : DataFrame :=
  let df := cleaned_frame lib parse_float parse_datetime temp_df in
  let positive := default [] (column df "positive") in
  let negative := default [] (column df "negative") in
  let total := total_of lib positive negative in
  setitem (setitem df "total_reviews" total)
    "score_ratio" (ratio_of lib positive total).

(** ** The outcome of the loader as a function of the source *)

(** What is left of [prepare_dataframe] after the ingestion of [temp_df]:
    the columns read without a guard are looked up in the order of the
    code, the conversion of the dates can be refused, and two columns of
    booleans cannot be divided. *)
Definition outcome_of_frame (lib : pandas)
    (parse_float : string → option float64)
    (parse_datetime : pyval → option Z) (temp_df : DataFrame)
    : outcome DataFrame :=
  match column temp_df "release_date" with
  | None => Raise (Exn KeyError "release_date")
  | Some release_date =>
      match pd_to_datetime lib parse_datetime release_date with
      | Raise e => Raise e
      | Return _ =>
          match column temp_df "positive", column temp_df "negative" with
          | None, _ => Raise (Exn KeyError "positive")
          | Some _, None => Raise (Exn KeyError "negative")
          | Some positive, Some negative =>
              if bool_dtype positive && bool_dtype negative
              then Raise (Exn NotImplementedError
                            "operator 'truediv' not implemented for bool dtypes")
              else Return (final_frame lib parse_float parse_datetime temp_df)
          end
      end
  end.

(** What [prepare_dataframe] returns or raises once the file is known to
    hold [src]. *)
Definition outcome_of_source (lib : pandas)
    (parse_float : string → option float64)
    (parse_datetime : pyval → option Z) (src : source) : outcome DataFrame :=
  match ingested lib src with
  | None => Raise (ingestion_error src)
  | Some temp_df => outcome_of_frame lib parse_float parse_datetime temp_df
  end.

(** The events of the ingestion step: the fallback runs on content that is
    not JSON, and on nothing else. *)
Definition ingestion_events (path : string) (src : source) : list event :=
  match src with
  | Malformed =>
      [ReadJson path OrientIndex;
       Log WARNING
         "JSON-Struktur weicht ab (Array statt Index). Nutze Fallback-Parser.";
       ReadJson path OrientDefault]
  | _ => [ReadJson path OrientIndex]
  end.

(** What [pd.to_numeric(...).fillna(0)] makes of one cell. *)
Definition numeric_cell (parse_float : string → option float64)
    (v : pyval) : pyval :=
  let w := to_numeric_cell parse_float v in
  if isna w then PyNum fzero else w.

(** ** The dashboard's loading step: [load_and_clean_data] of [app.py] *)

(** [s.apply(f)] for a function that may raise. *)
Fixpoint series_apply (f : pyval → M pyval) (s : list pyval)
    : M (list pyval) :=
  match s with
  | [] => mret []
  | x :: s' => y ← f x; rest ← series_apply f s'; mret (y :: rest)
  end.

(** A series the [.dt] accessor accepts: time stamps and NaT only. *)
Definition is_datetimelike (s : list pyval) : bool :=
  forallb (λ v, match v with PyTimestamp _ | PyNaT => true | _ => false end) s.

Definition DATA_PATH : string := "data/games.json".

Section Dashboard.

Variable fs : string → option source.
Variable lib : pandas.
Variable parse_float : string → option float64.
Variable parse_datetime : pyval → option Z.
Variable literal_eval : string → outcome pyval.

(** The calendar year of a time stamp. *)
Variable year_of : Z → Z.

(** The [AttributeError] pandas raises when [.dt] is used on a series that
    is not datetime-like. *)
Variable dt_accessor_error : exn.

(** [s.dt.year]: the year of a time stamp, NaN for NaT. *)
Definition dt_year (s : list pyval) : M (list pyval) :=
  if is_datetimelike s then
    mret (map (λ v, match v with
                    | PyTimestamp t => py_int (year_of t)
                    | _ => py_nan
                    end) s)
  else raise dt_accessor_error.

(** The body of the cached function (the first call; later calls return
    the cached table). *)
Definition load_and_clean_data : M DataFrame :=
  dataframe ← prepare_dataframe fs lib parse_float parse_datetime DATA_PATH;
  let dataframe :=
    if negb (has_column dataframe "tags")
    then setitem dataframe "tags" (replicate (len dataframe) (PyDict []))
    else dataframe in
  let dataframe :=
    if negb (has_column dataframe "genres")
    then setitem dataframe "genres" (replicate (len dataframe) (PyList []))
    else dataframe in
  tags ← getitem dataframe "tags";
  tags_list ← series_apply (process_tags_safely literal_eval) tags;
  let dataframe := setitem dataframe "tags_list" tags_list in
  release_date ← getitem dataframe "release_date";
  year ← dt_year release_date;
  let dataframe := setitem dataframe "year" year in
  mret dataframe.

End Dashboard.

(** The list the dashboard stores in [tags_list] for a raw tags value. *)
Definition tags_list_of (v : pyval) : pyval :=
  match v with
  | PyDict d => PyList (dict_keys d)
  | PyList l => PyList l
  | _ => PyList []
  end.

(** The year the dashboard stores for a raw release date. *)
Definition year_cell (parse_datetime : pyval → option Z) (year_of : Z → Z)
    (v : pyval) : pyval :=
  match parse_datetime v with
  | Some t => py_int (year_of t)
  | None => py_nan
  end.

(** The table of the dashboard, from the table of the loader. *)
Definition dashboard_frame (year_of : Z → Z) (df : DataFrame) : DataFrame :=
  setitem
    (setitem df "tags_list" (map tags_list_of (default [] (column df "tags"))))
    "year"
    (map (λ v, match v with
               | PyTimestamp t => py_int (year_of t)
               | _ => py_nan
               end) (default [] (column df "release_date"))).

(** ** The download step: [KaggleDataIngestion] of [download_data.py] *)

(** [name.endswith(suffix)]. *)
Fixpoint ends_with (suffix s : string) : bool :=
  String.eqb suffix s ||
  match s with
  | EmptyString => false
  | String _ s' => ends_with suffix s'
  end.

(** [os.path.basename]: what follows the last slash. *)
Fixpoint basename_from (acc s : string) : string :=
  match s with
  | EmptyString => acc
  | String c s' =>
      if String.eqb (String c "") "/" then basename_from "" s'
      else basename_from (acc +:+ String c "") s'
  end.

Definition basename (s : string) : string := basename_from "" s.

(** An entry of [os.scandir]. *)
Record dir_entry := mkEntry {
  entry_name : string;
  entry_path : string;
  entry_is_file : bool
}.

(** The file system the download step works on: the content of the
    regular files (the first binding of a path counts), the directories,
    and what the operating system answers at the moment the step asks:
    what [os.scandir] lists, and the exception with which it refuses to
    make a directory or to copy a file (a missing permission, a parent
    that is not a directory, source and destination being one file), if
    it does. *)
Record world := mkWorld {
  files : list (string * source);
  dirs : list string;
  scandir : string → outcome (list dir_entry);
  mkdir_error : string → option exn;
  copy_error : string → string → option exn
}.

Inductive kaggle_level := K_INFO | K_WARNING | K_ERROR | K_CRITICAL.

Inductive kaggle_event :=
| KLog (lvl : kaggle_level) (msg : string)
| KDownload (handle : string)
| KMkdir (path : string)
| KCopy (src dst : string).

(** A step of the download: it changes the file system, performs events,
    and returns or raises. *)
Definition K (A : Type) : Type := world → world * list kaggle_event * outcome A.

Global Instance K_ret : MRet K := λ A a w, (w, [], Return a).

Global Instance K_bind : MBind K := λ A B f m w,
  match m w with
  | (w1, t1, Return a) => let '(w2, t2, r) := f a w1 in (w2, t1 ++ t2, r)
  | (w1, t1, Raise e) => (w1, t1, Raise e)
  end.

Definition k_raise {A} (e : exn) : K A := λ w, (w, [], Raise e).
Definition k_emit (ev : kaggle_event) : K unit := λ w, (w, [ev], Return tt).
Definition k_log (lvl : kaggle_level) (msg : string) : K unit :=
  k_emit (KLog lvl msg).

(** [try: body except Exception as e: handler e]. *)
Definition k_try_except {A} (body : K A) (handler : exn → K A) : K A := λ w,
  match body w with
  | (w1, t1, Return a) => (w1, t1, Return a)
  | (w1, t1, Raise e) =>
      if is_Exception (exn_cls e)
      then let '(w2, t2, r) := handler e w1 in (w2, t1 ++ t2, r)
      else (w1, t1, Raise e)
  end.

(** [Path.exists()]. *)
Definition path_exists (p : string) (w : world) : bool :=
  bool_decide (p ∈ dirs w) ||
  match fs_of (files w) p with Some _ => true | None => false end.

(** [Path.mkdir(parents=True, exist_ok=True)], called on a path that does
    not exist; its parent, the project root, holds the folder of the
    script. *)
Definition mkdir (p : string) : K unit := λ w,
  match mkdir_error w p with
  | Some e => (w, [], Raise e)
  | None =>
      (mkWorld (files w) (p :: dirs w) (scandir w)
         (mkdir_error w) (copy_error w),
       [KMkdir p], Return tt)
  end.

(** [shutil.copy2(src, dst)]: a source that is not there is a
    [FileNotFoundError]; a destination that is a directory stands for the
    file of the source's name inside it; the content of the source becomes
    the content of the destination. *)
Definition copy2 (src dst : string) : K unit := λ w,
  match fs_of (files w) src with
  | None => (w, [], Raise (Exn FileNotFoundError src))
  | Some content =>
      match copy_error w src dst with
      | Some e => (w, [], Raise e)
      | None =>
          let dst' :=
            if bool_decide (dst ∈ dirs w)
            then dst +:+ "/" +:+ basename src else dst in
          (mkWorld ((dst', content) :: files w) (dirs w) (scandir w)
             (mkdir_error w) (copy_error w),
           [KCopy src dst], Return tt)
      end
  end.

(** [os.scandir(path)]. *)
Definition os_scandir (path : string) : K (list dir_entry) := λ w,
  (w, [], scandir w path).

Definition dataset_handle : string := "fronkongames/steam-games-dataset".

Section Kaggle.

(** [kagglehub.dataset_download], or [None] when the module could not be
    imported: the download changes the file system and returns the path of
    the cache directory, or raises. *)
Variable kagglehub : option (string → world → world * outcome string).

(** [Path(__file__).resolve().parent.parent]. *)
Variable project_root : string.

Definition target_folder : string := project_root +:+ "/data".
Definition target_path : string := target_folder +:+ "/games.json".

(** The [for] loop over the entries, up to its [break]; the result is
    [file_moved]. *)
Fixpoint place_first_json (entries : list dir_entry) : K bool :=
  match entries with
  | [] => mret false
  | entry :: rest =>
      if ends_with ".json" (entry_name entry) && entry_is_file entry then
        copy2 (entry_path entry) target_path;;
        k_log K_INFO
          ("ETL-Abschluss: Datei bereitgestellt unter: " +:+ target_path);;
        mret true
      else place_first_json rest
  end.

Definition fetch_and_place_data : K unit :=
  match kagglehub with
  | None =>
      k_log K_ERROR
        "Modul 'kagglehub' fehlt. Bitte `pip install kagglehub` ausführen."
  | Some dataset_download =>
      k_log K_INFO ("Initialisiere API-Download für: " +:+ dataset_handle);;
      k_try_except
        (path ← (λ w, let '(w', r) := dataset_download dataset_handle w in
                      (w', [KDownload dataset_handle], r));
         k_log K_INFO
           ("Rohdaten erfolgreich im Cache zwischengespeichert: " +:+ path);;
         target_exists ← (λ w, (w, [], Return (path_exists target_folder w)));
         (if negb target_exists then
            k_log K_INFO ("Erstelle Zielverzeichnis: " +:+ target_folder);;
            mkdir target_folder
          else mret tt);;
         entries ← os_scandir path;
         file_moved ← place_first_json entries;
         if negb file_moved then
           k_log K_WARNING
             "Keine JSON-Datei im heruntergeladenen Paket gefunden."
         else mret tt)
        (λ e,
           k_log K_CRITICAL
             ("Kritischer Fehler bei der Datenbeschaffung: " +:+ exn_str e);;
           k_raise e)
  end.

End Kaggle.

(** An entry the loop copies: a regular file whose name ends in .json. *)
Definition is_json_file (entry : dir_entry) : bool :=
  ends_with ".json" (entry_name entry) && entry_is_file entry.

(** The log of the download step up to the listing of the package. *)
Definition download_log (root path : string) (target_exists : bool)
    : list kaggle_event :=
  [KLog K_INFO ("Initialisiere API-Download für: " +:+ dataset_handle);
   KDownload dataset_handle;
   KLog K_INFO
     ("Rohdaten erfolgreich im Cache zwischengespeichert: " +:+ path)] ++
  (if target_exists then []
   else [KLog K_INFO ("Erstelle Zielverzeichnis: " +:+ target_folder root);
         KMkdir (target_folder root)]).

(** The events that are copies. *)
Definition copies (t : list kaggle_event) : list (string * string) :=
  omap (λ ev, match ev with KCopy src dst => Some (src, dst) | _ => None end) t.

(** The messages logged at CRITICAL. *)
Definition criticals (t : list kaggle_event) : list string :=
  omap (λ ev, match ev with KLog K_CRITICAL msg => Some msg | _ => None end) t.

(** ** More sample data *)

(** A downloaded package: a note, a directory whose name ends in .json,
    and two JSON files. *)
Definition sample_listing : list dir_entry :=
  [mkEntry "README.md" "/cache/README.md" true;
   mkEntry "old.json" "/cache/old.json" false;
   mkEntry "games.json" "/cache/games.json" true;
   mkEntry "games_may2024.json" "/cache/games_may2024.json" true].

Definition sample_world : world :=
  mkWorld
    [("/cache/README.md", Malformed);
     ("/cache/games.json", test_data);
     ("/cache/games_may2024.json", odd_counts);
     ("/project/src/download_data.py", Malformed)]
    ["/cache"; "/cache/old.json"; "/project"; "/project/src"]
    (λ p, if String.eqb p "/cache" then Return sample_listing
          else Raise (Exn FileNotFoundError p))
    (λ _, None) (λ _ _, None).

Definition sample_download (handle : string) (w : world)
    : world * outcome string :=
  (w, Return "/cache").

Definition failing_download (handle : string) (w : world)
    : world * outcome string :=
  (w, Raise (Exn ValueError "401 - Unauthorized")).

(** Years counted from days since 1970-01-01, 365 days each: good enough
    to tell sample years apart. *)
Definition sample_year_of (t : Z) : Z := (1970 + t / 365)%Z.

Definition sample_dt_error : exn :=
  Exn AttributeError "Can only use .dt accessor with datetimelike values".

(** The test fixture stored where the dashboard looks for it. *)
Definition dashboard_fs : string → option source :=
  fs_of [("data/games.json", test_data)].

(** The source with textual tags stored where the dashboard looks. *)
Definition text_tags_fs_dashboard : string → option source :=
  fs_of [("data/games.json", text_tags)].

(** The thirty-one rows of [inf_df] without the name column. *)
Definition inf_df_bare : DataFrame :=
  mkDataFrame (index inf_df)
    [("price", PyNum PInf :: py_range 1 30);
     ("average_playtime_forever", py_range 100 31);
     ("score_ratio",
      PyNum (Fin (1 # 2)) :: PyNum NaN :: replicate 29 (PyNum (Fin (1 # 2))))].

(** The message of the [except] branch of the download step. *)
Definition critical_msg (e : exn) : string :=
  "Kritischer Fehler bei der Datenbeschaffung: " +:+ exn_str e.

(** The exception that stops the step at the target folder, if any, and
    the file system once the folder is there. *)
Definition folder_error (root : string) (w : world) : option exn :=
  if path_exists (target_folder root) w then None
  else mkdir_error w (target_folder root).

Definition made_ready (root : string) (w : world) : world :=
  if path_exists (target_folder root) w then w
  else mkWorld (files w) (target_folder root :: dirs w) (scandir w)
         (mkdir_error w) (copy_error w).

(** The file system the download leaves, before anything is placed. *)
Definition downloaded
    (kagglehub : option (string → world → world * outcome string))
    (w : world) : world :=
  match kagglehub with
  | Some dataset_download => (dataset_download dataset_handle w).1
  | None => w
  end.



(** Closed decidable goals (membership in a literal list, absence of
    duplicates) are settled by evaluation. *)
Ltac by_computation := apply (bool_decide_unpack _); vm_compute; exact I.

(** ** Lemmas on the effect monad *)

Lemma bind_Return {A B} (t : list event) (a : A) (f : A → M B) :
  (t, Return a) ≫= f = (t ++ (f a).1, (f a).2).
Proof. unfold mbind, M_bind. destruct (f a); reflexivity. Qed.

Lemma bind_mret {A B} (a : A) (f : A → M B) : mret a ≫= f = f a.
Proof. unfold mret, M_ret. rewrite bind_Return. destruct (f a); reflexivity. Qed.

Lemma bind_Raise {A B} (t : list event) (e : exn) (f : A → M B) :
  (t, Raise e) ≫= f = (t, Raise e).
Proof. reflexivity. Qed.

Lemma bind_raise {A B} (e : exn) (f : A → M B) : raise e ≫= f = raise e.
Proof. reflexivity. Qed.

Lemma bind_result_Return {A B} (m : M A) (f : A → M B) (b : B) :
  result (m ≫= f) = Return b →
  ∃ a, result m = Return a ∧ result (f a) = Return b.
Proof.
  destruct m as [t [a|e]]; [rewrite bind_Return | rewrite bind_Raise].
  - intros H. exists a. split; [reflexivity | exact H].
  - discriminate.
Qed.

Lemma bind_trace_result {A B} (m : M A) (f : A → M B) (a : A) :
  result m = Return a →
  m ≫= f = (trace m ++ trace (f a), result (f a)).
Proof.
  destruct m as [t o]. simpl. intros ->. apply bind_Return.
Qed.

(** ** Lemmas on columns *)

Lemma lookup_col_assign_eq c s cols :
  lookup_col c (assign_col c s cols) = Some s.
Proof.
  induction cols as [|[k v] rest IH]; simpl.
  - rewrite String.eqb_refl. reflexivity.
  - destruct (String.eqb_spec k c) as [->|Hne]; simpl.
    + rewrite String.eqb_refl. reflexivity.
    + destruct (String.eqb_spec k c); [contradiction | exact IH].
Qed.

Lemma lookup_col_assign_ne c c' s cols :
  c ≠ c' → lookup_col c' (assign_col c s cols) = lookup_col c' cols.
Proof.
  intros Hne. induction cols as [|[k v] rest IH]; simpl.
  - destruct (String.eqb_spec c c'); [contradiction | reflexivity].
  - destruct (String.eqb_spec k c) as [->|Hkc]; simpl.
    + destruct (String.eqb_spec c c'); [contradiction | reflexivity].
    + destruct (String.eqb_spec k c'); [reflexivity | exact IH].
Qed.

Lemma column_setitem_eq df c s : column (setitem df c s) c = Some s.
Proof. apply lookup_col_assign_eq. Qed.

Lemma column_setitem_ne df c c' s :
  c ≠ c' → column (setitem df c s) c' = column df c'.
Proof. apply lookup_col_assign_ne. Qed.

Lemma column_setitem df c c' s :
  column (setitem df c s) c' =
  if decide (c = c') then Some s else column df c'.
Proof.
  destruct (decide (c = c')) as [->|Hne].
  - apply column_setitem_eq.
  - apply column_setitem_ne, Hne.
Qed.

Lemma bool_decide_elem_cons_ne (c k : string) (l : list string) :
  k ≠ c → bool_decide (c ∈ k :: l) = bool_decide (c ∈ l).
Proof.
  intros Hne. apply bool_decide_ext. rewrite elem_of_cons.
  split; [intros [Heq|Hin]; [congruence | exact Hin] | intros Hin; right; exact Hin].
Qed.

Lemma lookup_col_map_key (f : string → list pyval) keys c :
  lookup_col c (map (λ k, (k, f k)) keys) =
  if bool_decide (c ∈ keys) then Some (f c) else None.
Proof.
  induction keys as [|k keys IH]; simpl.
  - reflexivity.
  - destruct (String.eqb_spec k c) as [->|Hne].
    + rewrite bool_decide_eq_true_2 by left. reflexivity.
    + rewrite bool_decide_elem_cons_ne by exact Hne. exact IH.
Qed.

Lemma project_cons cols c cs :
  project cols (c :: cs) =
  match lookup_col c cols with
  | Some s => (c, s) :: project cols cs
  | None => project cols cs
  end.
Proof. unfold project. simpl. destruct (lookup_col c cols); reflexivity. Qed.

Lemma lookup_col_project cols cs c :
  lookup_col c (project cols cs) =
  if bool_decide (c ∈ cs) then lookup_col c cols else None.
Proof.
  induction cs as [|c0 cs IH]; [reflexivity|].
  rewrite project_cons.
  destruct (lookup_col c0 cols) as [s0|] eqn:H0; simpl.
  - destruct (String.eqb_spec c0 c) as [->|Hne].
    + rewrite bool_decide_eq_true_2 by left. symmetry. exact H0.
    + rewrite bool_decide_elem_cons_ne by exact Hne. exact IH.
  - rewrite IH. destruct (decide (c0 = c)) as [->|Hne].
    + rewrite H0. repeat case_bool_decide; reflexivity.
    + rewrite bool_decide_elem_cons_ne by exact Hne. reflexivity.
Qed.

Lemma select_cols_existing (df : DataFrame) cs :
  select_cols (columns df) (filter (λ c, has_column df c = true) cs) =
  mret (project (columns df) cs).
Proof.
  induction cs as [|c cs IH]; [reflexivity|].
  rewrite project_cons, filter_cons.
  case_decide as Hc; unfold has_column, column in Hc;
    destruct (lookup_col c (columns df)) as [s|] eqn:E.
  - simpl. rewrite E, IH, bind_mret. reflexivity.
  - discriminate.
  - exfalso. apply Hc. reflexivity.
  - exact IH.
Qed.

Lemma bool_decide_elem_cons_eq (c : string) (l : list string) :
  bool_decide (c ∈ c :: l) = true.
Proof. apply bool_decide_eq_true_2. left. Qed.

Section ColumnLemmas.

Variable parse_float : string → option float64.

Lemma index_setitem df c s : index (setitem df c s) = index df.
Proof. reflexivity. Qed.

Lemma column_numeric_step df col c :
  column (numeric_step parse_float df col) c =
  if decide (col = c) then numeric_column parse_float <$> column df c else column df c.
Proof.
  unfold numeric_step.
  destruct (column df col) as [s|] eqn:E.
  - rewrite column_setitem. case_decide as Hc; [subst; rewrite E|]; reflexivity.
  - case_decide as Hc; [subst; rewrite E|]; reflexivity.
Qed.

Lemma index_numeric_step df col :
  index (numeric_step parse_float df col) = index df.
Proof. unfold numeric_step. destruct (column df col); reflexivity. Qed.

Lemma index_foldl_numeric_step cs df :
  index (foldl (numeric_step parse_float) df cs) = index df.
Proof.
  revert df. induction cs as [|c0 cs IH]; intros df; simpl.
  - reflexivity.
  - rewrite IH. apply index_numeric_step.
Qed.

Lemma column_foldl_numeric_step cs df c :
  NoDup cs →
  column (foldl (numeric_step parse_float) df cs) c =
  if bool_decide (c ∈ cs) then numeric_column parse_float <$> column df c else column df c.
Proof.
  intros Hnd. revert df.
  induction Hnd as [|c0 cs Hnotin Hnd IH]; intros df; simpl.
  - reflexivity.
  - rewrite IH, column_numeric_step.
    destruct (decide (c0 = c)) as [->|Hne].
    + rewrite bool_decide_elem_cons_eq.
      rewrite bool_decide_eq_false_2 by exact Hnotin. reflexivity.
    + rewrite bool_decide_elem_cons_ne by exact Hne. reflexivity.
Qed.

Lemma column_normalize_tags df c :
  column (normalize_tags df) c =
  if decide ("tags" = c)
  then Some (match column df "tags" with
             | Some s => map tags_lambda s
             | None => replicate (len df) (PyDict [])
             end)
  else column df c.
Proof.
  unfold normalize_tags.
  destruct (column df "tags"); rewrite column_setitem; reflexivity.
Qed.

Lemma index_normalize_tags df : index (normalize_tags df) = index df.
Proof. unfold normalize_tags. destruct (column df "tags"); reflexivity. Qed.

Lemma column_ensure_genres df c :
  column (ensure_genres df) c =
  if decide ("genres" = c)
  then Some (default (replicate (len df) (PyList [])) (column df "genres"))
  else column df c.
Proof.
  unfold ensure_genres, has_column.
  destruct (column df "genres") as [s|] eqn:E; simpl.
  - case_decide as Hc; [subst; exact E | reflexivity].
  - apply column_setitem.
Qed.

Lemma index_ensure_genres df : index (ensure_genres df) = index df.
Proof. unfold ensure_genres. destruct (negb _); reflexivity. Qed.

End ColumnLemmas.

(** ** Lemmas on the raw source *)

Lemma field_is_Some c (r : record) : is_Some (field c r) ↔ c ∈ r.*1.
Proof.
  induction r as [|[k v] r IH]; simpl.
  - split; [intros [? ?]; discriminate | intros H; inversion H].
  - destruct (String.eqb_spec k c) as [->|Hne].
    + split; [intros _; left | intros _; eexists; reflexivity].
    + rewrite IH, elem_of_cons. simpl.
      split; [tauto | intros [?|?]; [congruence | assumption]].
Qed.

Lemma elem_of_field_names recs c :
  c ∈ field_names recs ↔ ∃ r, r ∈ recs ∧ is_Some (field c r).
Proof.
  unfold field_names.
  rewrite elem_of_reverse, elem_of_remove_dups, elem_of_reverse.
  rewrite list_elem_of_In, in_concat. split.
  - intros (l & Hl & Hc). apply in_map_iff in Hl as (r & <- & Hr).
    exists r. split; [apply list_elem_of_In, Hr|].
    apply field_is_Some, list_elem_of_In, Hc.
  - intros (r & Hr & Hc). exists (r.*1). split.
    + apply in_map_iff. exists r. split; [reflexivity|].
      apply list_elem_of_In, Hr.
    + apply list_elem_of_In, field_is_Some, Hc.
Qed.

Lemma supplies_true recs c :
  supplies recs c = true ↔ ∃ r, r ∈ recs ∧ is_Some (field c r).
Proof.
  unfold supplies. rewrite existsb_exists. split.
  - intros (r & Hr & Hc). exists r. split; [apply list_elem_of_In, Hr|].
    apply bool_decide_eq_true_1 in Hc. exact Hc.
  - intros (r & Hr & Hc). exists r. split; [apply list_elem_of_In, Hr|].
    apply bool_decide_eq_true_2, Hc.
Qed.

Lemma supplies_field_names recs c :
  supplies recs c = bool_decide (c ∈ field_names recs).
Proof.
  destruct (supplies recs c) eqn:E; symmetry.
  - apply bool_decide_eq_true_2, elem_of_field_names, supplies_true, E.
  - apply bool_decide_eq_false_2. intros H.
    apply elem_of_field_names, supplies_true in H. congruence.
Qed.

Lemma has_field_true c r : has_field c r = true ↔ is_Some (field c r).
Proof.
  unfold has_field.
  split; [apply bool_decide_eq_true_1 | apply bool_decide_eq_true_2].
Qed.

Lemma column_frame_of cols idx recs c :
  column (frame_of cols idx recs) c =
  if bool_decide (c ∈ cols) then Some (raw_column c recs) else None.
Proof.
  unfold column, frame_of. simpl.
  apply (lookup_col_map_key (λ k, map (raw_cell k) recs)).
Qed.

Lemma column_frame_of_records idx recs c :
  column (frame_of_records idx recs) c =
  if supplies recs c then Some (raw_column c recs) else None.
Proof.
  unfold frame_of_records. rewrite column_frame_of, supplies_field_names.
  reflexivity.
Qed.

(** The rows pandas builds are the records that have one of the columns. *)
Lemma elem_of_rows_by cols keyed kr :
  kr ∈ rows_by cols keyed ↔
  kr ∈ keyed ∧ ∃ c, c ∈ cols ∧ has_field c kr.2 = true.
Proof.
  revert keyed. induction cols as [|c cols IH]; intros keyed; simpl.
  - split; [intros H; inversion H | intros (_ & c & H & _); inversion H].
  - rewrite elem_of_app, !list_elem_of_filter, IH, list_elem_of_filter. split.
    + intros [[Hc Hin] | [[Hc Hin] (c' & Hc' & Hf)]].
      * split; [exact Hin|]. exists c. split; [left | exact Hc].
      * split; [exact Hin|]. exists c'. split; [right; exact Hc' | exact Hf].
    + intros (Hin & c' & Hc' & Hf).
      destruct (has_field c kr.2) eqn:Hc;
        [left; split; [reflexivity | exact Hin]|].
      right. split; [split; [reflexivity | exact Hin]|].
      exists c'. split; [|exact Hf].
      apply elem_of_cons in Hc' as [->|Hc']; [congruence | exact Hc'].
Qed.

Lemma supplies_row_order keyed c :
  supplies ((row_order keyed).*2) c = supplies (keyed.*2) c.
Proof.
  apply eq_true_iff_eq. rewrite !supplies_true. unfold row_order. split.
  - intros (r & Hr & Hc). apply list_elem_of_fmap in Hr as (kr & -> & Hkr).
    apply elem_of_rows_by in Hkr as [Hin _].
    exists kr.2. split; [|exact Hc].
    apply list_elem_of_fmap. exists kr. split; [reflexivity | exact Hin].
  - intros (r & Hr & Hc). apply list_elem_of_fmap in Hr as (kr & -> & Hkr).
    exists kr.2. split; [|exact Hc].
    apply list_elem_of_fmap. exists kr. split; [reflexivity|].
    apply elem_of_rows_by. split; [exact Hkr|].
    exists c. split; [|apply has_field_true, Hc].
    apply elem_of_field_names. exists kr.2. split; [|exact Hc].
    apply list_elem_of_fmap. exists kr. split; [reflexivity | exact Hkr].
Qed.







Lemma length_range_index n : length (range_index n) = n.
Proof. unfold range_index. rewrite length_map, length_seq. reflexivity. Qed.

Lemma length_row_labels lib keys : length (row_labels lib keys) = length keys.
Proof. unfold row_labels. rewrite length_map, length_seq. reflexivity. Qed.

Lemma ingested_records lib src temp_df :
  ingested lib src = Some temp_df →
  ∃ recs, source_records src = Some recs ∧
          len temp_df = length recs ∧
          ∀ c, column temp_df c =
               if supplies recs c then Some (raw_column c recs) else None.
Proof.
  destruct src as [keyed|[|r recs]|]; simpl; intros H; inversion H; subst.
  - exists ((row_order keyed).*2). split; [reflexivity|]. split.
    + unfold len, frame_of_keyed. simpl.
      rewrite length_row_labels, !length_map. reflexivity.
    + intros c. unfold frame_of_keyed.
      rewrite column_frame_of, supplies_row_order, supplies_field_names.
      reflexivity.
  - exists []. repeat split.
Qed.

(** ** Numeric columns *)

Lemma result_bind {A B} (m : M A) (f : A → M B) (a : A) :
  result m = Return a → result (m ≫= f) = result (f a).
Proof.
  intros H. rewrite (bind_trace_result m f a H). reflexivity.
Qed.

Lemma result_mret_inv {A} (a b : A) :
  result (mret a : M A) = Return b → a = b.
Proof. intros H. injection H as ->. reflexivity. Qed.

Lemma NoDup_cols_to_numeric : NoDup cols_to_numeric.
Proof. by_computation. Qed.

Lemma bool_dtype_Forall s :
  bool_dtype s = true → Forall (λ v, is_bool v = true) s.
Proof.
  destruct s as [|v s]; [discriminate|]. unfold bool_dtype.
  intros H. apply Forall_forall. intros x Hx.
  apply (proj1 (forallb_forall _ _) H), list_elem_of_In, Hx.
Qed.

Lemma bool_dtype_num x s : bool_dtype (PyNum x :: s) = false.
Proof. reflexivity. Qed.

Lemma fillna_0_bool s :
  Forall (λ v, is_bool v = true) s → fillna_0 s = s.
Proof.
  induction 1 as [|v s Hv _ IH]; [reflexivity|].
  unfold fillna_0 in *. simpl. rewrite IH.
  destruct v; try discriminate. reflexivity.
Qed.

Lemma numeric_column_bool pf s :
  bool_dtype s = true → numeric_column pf s = s.
Proof.
  intros H. unfold numeric_column, to_numeric. rewrite H.
  apply fillna_0_bool, bool_dtype_Forall, H.
Qed.

Lemma numeric_column_other pf s :
  bool_dtype s = false → numeric_column pf s = map (numeric_cell pf) s.
Proof.
  intros H. unfold numeric_column, to_numeric, fillna_0. rewrite H.
  rewrite map_map. reflexivity.
Qed.

Lemma is_imputed_numeric_cell pf v : is_imputed (numeric_cell pf v).
Proof.
  unfold numeric_cell.
  destruct v as [|b|x|s| | | | |]; simpl;
    try (eexists; split; [reflexivity | discriminate]).
  - destruct x; simpl; eexists; (split; [reflexivity | discriminate]).
  - destruct (default NaN (pf s)); simpl;
      eexists; (split; [reflexivity | discriminate]).
Qed.

Lemma is_imputed_numeric_column pf s :
  bool_dtype s = false → Forall is_imputed (numeric_column pf s).
Proof.
  intros H. rewrite (numeric_column_other _ _ H).
  apply Forall_fmap, Forall_true. intros v. apply is_imputed_numeric_cell.
Qed.

Lemma numeric_column_cases pf s : is_numeric_column (numeric_column pf s).
Proof.
  destruct (bool_dtype s) eqn:E.
  - right. rewrite (numeric_column_bool _ _ E). exact E.
  - left. apply is_imputed_numeric_column, E.
Qed.

Lemma bool_dtype_numeric_column pf s :
  bool_dtype (numeric_column pf s) = bool_dtype s.
Proof.
  destruct (bool_dtype s) eqn:E.
  - rewrite (numeric_column_bool _ _ E). exact E.
  - rewrite (numeric_column_other _ _ E).
    destruct s as [|v s]; [reflexivity|]. simpl.
    destruct (is_imputed_numeric_cell pf v) as (x & -> & _). reflexivity.
Qed.

Lemma is_imputed_not_bool_dtype s :
  Forall is_imputed s → bool_dtype s = false.
Proof.
  intros [|v s' (x & -> & _) _]; reflexivity.
Qed.

Lemma notna_is_imputed v : is_imputed v → notna v = true.
Proof. intros (x & -> & Hx). destruct x; try reflexivity. contradiction. Qed.

Lemma notna_numeric_column pf s :
  Forall (λ v, notna v = true) (numeric_column pf s).
Proof.
  destruct (numeric_column_cases pf s) as [H|H].
  - eapply Forall_impl; [exact H|]. apply notna_is_imputed.
  - eapply Forall_impl; [apply bool_dtype_Forall, H|].
    intros v Hv. destruct v; try discriminate. reflexivity.
Qed.

Lemma is_imputed_is_num s :
  Forall is_imputed s → Forall (λ v, is_num v = true) s.
Proof.
  intros H. eapply Forall_impl; [exact H|].
  intros v (x & -> & _). reflexivity.
Qed.

Lemma is_numeric_column_num_of s :
  is_numeric_column s → Forall (λ v, is_Some (num_of v)) s.
Proof.
  intros [H|H].
  - eapply Forall_impl; [exact H|]. intros v (x & -> & _). eexists. reflexivity.
  - eapply Forall_impl; [apply bool_dtype_Forall, H|].
    intros v Hv. destruct v; try discriminate. eexists. reflexivity.
Qed.

Lemma is_num_replace_0_1 s :
  Forall (λ v, is_num v = true) s →
  Forall (λ v, is_num v = true) (replace_0_1 s).
Proof.
  intros H. unfold replace_0_1. apply Forall_fmap.
  eapply Forall_impl; [exact H|]. intros v Hv. simpl.
  destruct v as [| |x| | | | | |]; try discriminate.
  destruct (is_zero x); reflexivity.
Qed.

Lemma num_of_replace_0_1 s :
  Forall (λ v, is_Some (num_of v)) s →
  Forall (λ v, is_Some (num_of v)) (replace_0_1 s).
Proof.
  intros H. unfold replace_0_1. apply Forall_fmap.
  eapply Forall_impl; [exact H|]. intros v Hv. simpl.
  destruct v as [| |x| | | | | |]; try exact Hv.
  destruct (is_zero x); eexists; reflexivity.
Qed.

Lemma num_of_total_of lib p n :
  Forall (λ v, is_Some (num_of v)) (total_of lib p n).
Proof.
  unfold total_of. revert n.
  induction p as [|a p IH]; intros [|b n]; simpl; constructor; auto.
  unfold add_cell. destruct a, b; eexists; reflexivity.
Qed.

Lemma is_num_total_of_r lib p n :
  Forall (λ v, is_num v = true) n →
  Forall (λ v, is_num v = true) (total_of lib p n).
Proof.
  unfold total_of. intros Hn. revert p.
  induction Hn as [|b n Hb _ IH]; intros [|a p]; simpl; constructor; auto.
  destruct b; try discriminate. destruct a; reflexivity.
Qed.

Lemma is_num_total_of_l lib p n :
  Forall (λ v, is_num v = true) p →
  Forall (λ v, is_num v = true) (total_of lib p n).
Proof.
  unfold total_of. intros Hp. revert n.
  induction Hp as [|a p Ha _ IH]; intros [|b n]; simpl; constructor; auto.
  destruct a; try discriminate. reflexivity.
Qed.

Lemma series_add_run lib a b :
  Forall (λ v, is_Some (num_of v)) a →
  Forall (λ v, is_Some (num_of v)) b →
  series_binop (py_add lib) a b = mret (total_of lib a b).
Proof.
  intros Ha. revert b.
  induction Ha as [|x a [fx Hx] Ha IH]; intros b Hb; [reflexivity|].
  destruct Hb as [|y b [fy Hy] Hb]; [reflexivity|].
  cbn [series_binop].
  assert (Hop : py_add lib x y = Return (add_cell lib x y)).
  { unfold py_add, add_cell, fval. rewrite Hx, Hy.
    destruct x; try discriminate; destruct y; try discriminate; reflexivity. }
  rewrite Hop, (IH b Hb), bind_mret. reflexivity.
Qed.

Lemma series_div_run lib a b :
  Forall (λ v, is_Some (num_of v)) a →
  Forall (λ v, is_Some (num_of v)) b →
  Forall (λ v, is_num v = true) a ∨ Forall (λ v, is_num v = true) b →
  series_binop (py_truediv lib) a b =
  mret (zip_with (λ v w, PyNum (div64 lib (fval v) (fval w))) a b).
Proof.
  intros Ha. revert b.
  induction Ha as [|x a [fx Hx] Ha IH]; intros b Hb Hnum; [reflexivity|].
  destruct Hb as [|y b [fy Hy] Hb]; [reflexivity|].
  cbn [series_binop].
  assert (Hop : py_truediv lib x y =
                Return (PyNum (div64 lib (fval x) (fval y)))).
  { unfold py_truediv, fval. rewrite Hx, Hy.
    destruct x; try discriminate; destruct y; try discriminate;
      try reflexivity.
    destruct Hnum as [H|H]; apply Forall_cons in H as [H _]; discriminate. }
  rewrite Hop, (IH b Hb), bind_mret; [reflexivity|].
  destruct Hnum as [H|H]; apply Forall_cons in H as [_ H]; auto.
Qed.

Lemma series_div_bools lib x a y b :
  series_binop (py_truediv lib) (PyBool x :: a) (PyBool y :: b) =
  raise (Exn NotImplementedError
           "operator 'truediv' not implemented for bool dtypes").
Proof. reflexivity. Qed.

Lemma feature_engineering_run lib df p n :
  column df "positive" = Some p →
  column df "negative" = Some n →
  is_numeric_column p → is_numeric_column n →
  bool_dtype p && bool_dtype n = false →
  feature_engineering lib df =
  mret (setitem (setitem df "total_reviews" (total_of lib p n))
          "score_ratio" (ratio_of lib p (total_of lib p n))).
Proof.
  intros Hp Hn Np Nn Hb. unfold feature_engineering, getitem.
  rewrite Hp, bind_mret, Hn, bind_mret.
  rewrite series_add_run by (apply is_numeric_column_num_of; assumption).
  rewrite bind_mret.
  rewrite (column_setitem_ne _ "total_reviews" "positive")
    by (intros ?; discriminate).
  rewrite Hp, bind_mret, column_setitem_eq, bind_mret.
  rewrite series_div_run; [rewrite bind_mret; reflexivity | | |].
  - apply is_numeric_column_num_of, Np.
  - apply num_of_replace_0_1, num_of_total_of.
  - destruct Np as [Np|Np]; [left; apply is_imputed_is_num, Np|].
    right. apply is_num_replace_0_1, is_num_total_of_r.
    rewrite Np in Hb. simpl in Hb.
    destruct Nn as [Nn|Nn]; [apply is_imputed_is_num, Nn | congruence].
Qed.

Lemma feature_engineering_bools lib df p n :
  column df "positive" = Some p →
  column df "negative" = Some n →
  bool_dtype p = true → bool_dtype n = true →
  feature_engineering lib df =
  raise (Exn NotImplementedError
           "operator 'truediv' not implemented for bool dtypes").
Proof.
  intros Hp Hn Bp Bn. unfold feature_engineering, getitem.
  rewrite Hp, bind_mret, Hn, bind_mret.
  rewrite series_add_run
    by (apply is_numeric_column_num_of; right; assumption).
  rewrite bind_mret.
  rewrite (column_setitem_ne _ "total_reviews" "positive")
    by (intros ?; discriminate).
  rewrite Hp, bind_mret, column_setitem_eq, bind_mret.
  pose proof (bool_dtype_Forall _ Bp) as Fp.
  pose proof (bool_dtype_Forall _ Bn) as Fn.
  destruct Fp as [|x p Hx _]; [discriminate|].
  destruct Fn as [|y n Hy _]; [discriminate|].
  destruct x; try discriminate. destruct y; try discriminate.
  reflexivity.
Qed.

Lemma feature_engineering_needs lib df df' :
  result (feature_engineering lib df) = Return df' →
  is_Some (column df "positive") ∧ is_Some (column df "negative").
Proof.
  unfold feature_engineering, getitem.
  destruct (column df "positive") as [p|]; [|discriminate].
  rewrite bind_mret.
  destruct (column df "negative") as [n|]; [|discriminate].
  intros _. split; eexists; reflexivity.
Qed.

Lemma feature_engineering_no_positive lib df :
  column df "positive" = None →
  feature_engineering lib df = raise (Exn KeyError "positive").
Proof.
  intros H. unfold feature_engineering, getitem. rewrite H. reflexivity.
Qed.

Lemma feature_engineering_no_negative lib df p :
  column df "positive" = Some p → column df "negative" = None →
  feature_engineering lib df = raise (Exn KeyError "negative").
Proof.
  intros Hp Hn. unfold feature_engineering, getitem.
  rewrite Hp, bind_mret, Hn. reflexivity.
Qed.

(** ** The steps of the loader *)

Lemma result_bind_Raise {A B} (m : M A) (f : A → M B) (e : exn) :
  result m = Raise e → result (m ≫= f) = Raise e.
Proof. destruct m as [t o]. simpl. intros ->. reflexivity. Qed.

Lemma trace_bind {A B} (m : M A) (f : A → M B) :
  ∃ rest, trace (m ≫= f) = trace m ++ rest.
Proof.
  destruct m as [t [a|e]].
  - rewrite bind_Return. eexists. reflexivity.
  - exists []. simpl. rewrite app_nil_r. reflexivity.
Qed.

Lemma emit_bind {B} (ev : event) (f : unit → M B) :
  emit ev ≫= f = (ev :: trace (f tt), result (f tt)).
Proof. unfold emit. rewrite bind_Return. reflexivity. Qed.

Lemma logger_info_bind {B} (msg : string) (f : unit → M B) :
  logger_info msg ≫= f = (Log INFO msg :: trace (f tt), result (f tt)).
Proof. apply emit_bind. Qed.

Lemma column_None_of_has_column df c :
  has_column df c = false → column df c = None.
Proof. unfold has_column. destruct (column df c); [discriminate | reflexivity]. Qed.

Lemma has_column_of_column df c s : column df c = Some s → has_column df c = true.
Proof. intros H. unfold has_column. rewrite H. reflexivity. Qed.

Section LoaderLemmas.

Variable fs : string → option source.
Variable lib : pandas.
Variable parse_float : string → option float64.
Variable parse_datetime : pyval → option Z.

Lemma validate_source_missing path :
  fs path = None →
  _validate_source fs path =
  ([Log ERROR ("ETL-Error: Quelldatei " +:+ path +:+ " nicht gefunden.")],
   Raise (Exn FileNotFoundError
            ("ETL-Error: Quelldatei " +:+ path +:+ " nicht gefunden."))).
Proof.
  intros H. unfold _validate_source, os_path_exists. rewrite H. reflexivity.
Qed.

Lemma validate_source_present path src :
  fs path = Some src → _validate_source fs path = mret true.
Proof.
  intros H. unfold _validate_source, os_path_exists. rewrite H. reflexivity.
Qed.

(** The ingestion step, events and result: one keyed reading; the second
    reading runs when the content is not JSON, and fails as the first. *)
Lemma ingestion_run path src :
  fs path = Some src →
  ingestion fs lib path =
  (ingestion_events path src,
   match ingested lib src with
   | Some temp_df => Return temp_df
   | None => Raise (ingestion_error src)
   end).
Proof.
  intros H. unfold ingestion, read_json. rewrite H.
  destruct src as [keyed|[|r recs]|]; reflexivity.
Qed.

Lemma ingestion_result path src :
  fs path = Some src →
  result (ingestion fs lib path) =
  match ingested lib src with
  | Some temp_df => Return temp_df
  | None => Raise (ingestion_error src)
  end.
Proof. intros H. rewrite (ingestion_run _ _ H). reflexivity. Qed.

Lemma ingestion_trace_reads path :
  ∃ rest, trace (ingestion fs lib path) = ReadJson path OrientIndex :: rest.
Proof.
  unfold ingestion, read_json.
  destruct (fs path) as [[recs|[|r recs]|]|]; eexists; reflexivity.
Qed.

Lemma projection_run temp_df :
  projection temp_df =
  mret (mkDataFrame (index temp_df)
          (project (columns temp_df) important_columns)).
Proof.
  unfold projection, getitems.
  rewrite select_cols_existing, bind_mret. reflexivity.
Qed.

Lemma pd_to_datetime_Return s r :
  pd_to_datetime lib parse_datetime s = Return r →
  r = datetime_column lib parse_datetime s.
Proof.
  unfold pd_to_datetime. destruct (bool_dtype s); [discriminate|].
  destruct (datetime_error lib s); [discriminate|].
  intros H. injection H as <-. reflexivity.
Qed.

Lemma cleaning_run df :
  cleaning lib parse_float parse_datetime df =
  match column df "release_date" with
  | Some s =>
      match pd_to_datetime lib parse_datetime s with
      | Return r =>
          mret (ensure_genres (normalize_tags
                  (foldl (numeric_step parse_float)
                     (setitem df "release_date" r) cols_to_numeric)))
      | Raise e => raise e
      end
  | None => raise (Exn KeyError "release_date")
  end.
Proof.
  unfold cleaning, getitem.
  destruct (column df "release_date") as [s|]; [|reflexivity].
  rewrite bind_mret. destruct (pd_to_datetime lib parse_datetime s); reflexivity.
Qed.

Lemma column_projected temp_df c :
  column (mkDataFrame (index temp_df)
            (project (columns temp_df) important_columns)) c =
  if bool_decide (c ∈ important_columns) then column temp_df c else None.
Proof. apply lookup_col_project. Qed.

Lemma index_cleaned_frame temp_df :
  index (cleaned_frame lib parse_float parse_datetime temp_df) = index temp_df.
Proof.
  unfold cleaned_frame.
  rewrite index_ensure_genres, index_normalize_tags,
    index_foldl_numeric_step.
  reflexivity.
Qed.

Lemma column_cleaned_frame temp_df c :
  column (cleaned_frame lib parse_float parse_datetime temp_df) c =
  if decide ("genres" = c) then
    Some (default (replicate (len temp_df) (PyList [])) (column temp_df "genres"))
  else if decide ("tags" = c) then
    Some (match column temp_df "tags" with
          | Some s => map tags_lambda s
          | None => replicate (len temp_df) (PyDict [])
          end)
  else if bool_decide (c ∈ cols_to_numeric) then
    numeric_column parse_float <$> column temp_df c
  else if decide ("release_date" = c) then
    Some (datetime_column lib parse_datetime
            (default [] (column temp_df "release_date")))
  else if decide ("name" = c) then column temp_df "name"
  else None.
Proof.
  unfold cleaned_frame.
  rewrite column_ensure_genres, !column_normalize_tags.
  rewrite !(column_foldl_numeric_step _ _ _ _ NoDup_cols_to_numeric).
  rewrite !column_setitem, !column_projected.
  unfold len.
  rewrite index_normalize_tags, index_foldl_numeric_step.
  simpl.
  do 2 (case_decide; [reflexivity|]).
  case_bool_decide as Hnum.
  - unfold cols_to_numeric in Hnum.
    repeat (apply elem_of_cons in Hnum as [->|Hnum]); try reflexivity.
    inversion Hnum.
  - case_decide; [reflexivity|].
    case_decide as Hname; [subst; reflexivity|].
    rewrite bool_decide_eq_false_2; [reflexivity|].
    unfold important_columns. intros Hin.
    repeat (apply elem_of_cons in Hin as [->|Hin]); try congruence;
      try (apply Hnum; by_computation).
    inversion Hin.
Qed.

Lemma has_column_Some df c :
  has_column df c = true ↔ is_Some (column df c).
Proof.
  unfold has_column. destruct (column df c).
  - split; [intros _; eexists; reflexivity | reflexivity].
  - split; [discriminate | intros [? ?]; discriminate].
Qed.

Lemma has_column_None df c :
  has_column df c = false ↔ column df c = None.
Proof.
  unfold has_column. destruct (column df c); split; congruence.
Qed.

Lemma cleaning_projected temp_df s r :
  column temp_df "release_date" = Some s →
  pd_to_datetime lib parse_datetime s = Return r →
  cleaning lib parse_float parse_datetime
    (mkDataFrame (index temp_df)
       (project (columns temp_df) important_columns)) =
  mret (cleaned_frame lib parse_float parse_datetime temp_df).
Proof.
  intros Hs Hr.
  rewrite cleaning_run. unfold cleaned_frame.
  rewrite column_projected. simpl. rewrite Hs, Hr.
  rewrite (pd_to_datetime_Return _ _ Hr). reflexivity.
Qed.

Lemma cleaning_projected_refused temp_df s e :
  column temp_df "release_date" = Some s →
  pd_to_datetime lib parse_datetime s = Raise e →
  cleaning lib parse_float parse_datetime
    (mkDataFrame (index temp_df)
       (project (columns temp_df) important_columns)) = raise e.
Proof.
  intros Hs He. rewrite cleaning_run, column_projected. simpl.
  rewrite Hs, He. reflexivity.
Qed.

Lemma cleaning_projected_undated temp_df :
  column temp_df "release_date" = None →
  cleaning lib parse_float parse_datetime
    (mkDataFrame (index temp_df)
       (project (columns temp_df) important_columns)) =
  raise (Exn KeyError "release_date").
Proof.
  intros Hs. rewrite cleaning_run, column_projected. simpl.
  rewrite Hs. reflexivity.
Qed.

Lemma column_cleaned_numeric temp_df c :
  c ∈ cols_to_numeric →
  column (cleaned_frame lib parse_float parse_datetime temp_df) c =
  numeric_column parse_float <$> column temp_df c.
Proof.
  intros Hc. rewrite column_cleaned_frame.
  unfold cols_to_numeric in Hc.
  repeat (apply elem_of_cons in Hc as [->|Hc]); try reflexivity.
  inversion Hc.
Qed.

Lemma feature_engineering_cleaned temp_df p n :
  column temp_df "positive" = Some p →
  column temp_df "negative" = Some n →
  bool_dtype p && bool_dtype n = false →
  feature_engineering lib
    (cleaned_frame lib parse_float parse_datetime temp_df) =
  mret (final_frame lib parse_float parse_datetime temp_df).
Proof.
  intros Hp Hn Hb.
  assert (Hcp : column (cleaned_frame lib parse_float parse_datetime temp_df)
                  "positive" = Some (numeric_column parse_float p)).
  { rewrite column_cleaned_numeric by by_computation. rewrite Hp. reflexivity. }
  assert (Hcn : column (cleaned_frame lib parse_float parse_datetime temp_df)
                  "negative" = Some (numeric_column parse_float n)).
  { rewrite column_cleaned_numeric by by_computation. rewrite Hn. reflexivity. }
  rewrite (feature_engineering_run _ _ _ _ Hcp Hcn);
    try apply numeric_column_cases.
  - unfold final_frame. rewrite Hcp, Hcn. reflexivity.
  - rewrite !bool_dtype_numeric_column. exact Hb.
Qed.

Lemma feature_engineering_cleaned_bools temp_df p n :
  column temp_df "positive" = Some p →
  column temp_df "negative" = Some n →
  bool_dtype p && bool_dtype n = true →
  feature_engineering lib
    (cleaned_frame lib parse_float parse_datetime temp_df) =
  raise (Exn NotImplementedError
           "operator 'truediv' not implemented for bool dtypes").
Proof.
  intros Hp Hn [Bp Bn]%andb_prop.
  apply (feature_engineering_bools _ _
           (numeric_column parse_float p) (numeric_column parse_float n)).
  - rewrite column_cleaned_numeric by by_computation. rewrite Hp. reflexivity.
  - rewrite column_cleaned_numeric by by_computation. rewrite Hn. reflexivity.
  - rewrite bool_dtype_numeric_column. exact Bp.
  - rewrite bool_dtype_numeric_column. exact Bn.
Qed.

Lemma feature_engineering_cleaned_no_positive temp_df :
  column temp_df "positive" = None →
  feature_engineering lib
    (cleaned_frame lib parse_float parse_datetime temp_df) =
  raise (Exn KeyError "positive").
Proof.
  intros H. apply feature_engineering_no_positive.
  rewrite column_cleaned_numeric by by_computation. rewrite H. reflexivity.
Qed.

Lemma feature_engineering_cleaned_no_negative temp_df p :
  column temp_df "positive" = Some p →
  column temp_df "negative" = None →
  feature_engineering lib
    (cleaned_frame lib parse_float parse_datetime temp_df) =
  raise (Exn KeyError "negative").
Proof.
  intros Hp Hn.
  apply (feature_engineering_no_negative _ _ (numeric_column parse_float p)).
  - rewrite column_cleaned_numeric by by_computation. rewrite Hp. reflexivity.
  - rewrite column_cleaned_numeric by by_computation. rewrite Hn. reflexivity.
Qed.

(** What is left of the run after the ingestion step is silent up to its
    last step [k], and runs [k] on the table of [outcome_of_frame]. *)
Lemma after_ingestion {A} temp_df (k : DataFrame → M A) :
  (df ← projection temp_df;
   df ← cleaning lib parse_float parse_datetime df;
   df ← feature_engineering lib df;
   k df) =
  match outcome_of_frame lib parse_float parse_datetime temp_df with
  | Return df => k df
  | Raise e => raise e
  end.
Proof.
  unfold outcome_of_frame.
  rewrite projection_run, bind_mret.
  destruct (column temp_df "release_date") as [s|] eqn:Hd;
    [|rewrite (cleaning_projected_undated _ Hd); reflexivity].
  destruct (pd_to_datetime lib parse_datetime s) as [r|e] eqn:Hr;
    [|rewrite (cleaning_projected_refused _ _ _ Hd Hr); reflexivity].
  rewrite (cleaning_projected _ _ _ Hd Hr), bind_mret.
  destruct (column temp_df "positive") as [p|] eqn:Hp;
    [|rewrite (feature_engineering_cleaned_no_positive _ Hp); reflexivity].
  destruct (column temp_df "negative") as [n|] eqn:Hn;
    [|rewrite (feature_engineering_cleaned_no_negative _ _ Hp Hn);
      reflexivity].
  destruct (bool_dtype p && bool_dtype n) eqn:Hb.
  - rewrite (feature_engineering_cleaned_bools _ _ _ Hp Hn Hb). reflexivity.
  - rewrite (feature_engineering_cleaned _ _ _ Hp Hn Hb), bind_mret.
    reflexivity.
Qed.

(** The whole run, for a file that is there. *)
Lemma prepare_dataframe_run path src :
  fs path = Some src →
  prepare_dataframe fs lib parse_float parse_datetime path =
  (Log INFO ("Starte Daten-Ingestierung von: " +:+ path)
     :: ingestion_events path src ++
     match outcome_of_source lib parse_float parse_datetime src with
     | Return df =>
         [Log INFO ("ETL erfolgreich abgeschlossen. Datensatzgröße: "
                    +:+ shape_str df)]
     | Raise _ => []
     end,
   outcome_of_source lib parse_float parse_datetime src).
Proof.
  intros Hfs. unfold prepare_dataframe.
  rewrite (validate_source_present _ _ Hfs), bind_mret, logger_info_bind.
  rewrite (ingestion_run _ _ Hfs). unfold outcome_of_source.
  destruct (ingested lib src) as [temp_df|] eqn:Hing.
  - rewrite bind_Return, after_ingestion. cbn [trace result fst snd].
    destruct (outcome_of_frame lib parse_float parse_datetime temp_df)
      as [df|e].
    + rewrite logger_info_bind. reflexivity.
    + simpl. rewrite app_nil_r. reflexivity.
  - simpl. rewrite app_nil_r. reflexivity.
Qed.

Lemma prepare_dataframe_result path src :
  fs path = Some src →
  result (prepare_dataframe fs lib parse_float parse_datetime path) =
  outcome_of_source lib parse_float parse_datetime src.
Proof. intros Hfs. rewrite (prepare_dataframe_run _ _ Hfs). reflexivity. Qed.

Lemma prepare_dataframe_missing path :
  fs path = None →
  prepare_dataframe fs lib parse_float parse_datetime path =
  ([Log ERROR ("ETL-Error: Quelldatei " +:+ path +:+ " nicht gefunden.")],
   Raise (Exn FileNotFoundError
            ("ETL-Error: Quelldatei " +:+ path +:+ " nicht gefunden."))).
Proof.
  intros Hfs. unfold prepare_dataframe.
  rewrite (validate_source_missing _ Hfs). reflexivity.
Qed.

(** When the ingested frame is handed on and a table comes back: the three
    columns read without a guard are there, the dates were converted, and
    the two counts are not both columns of booleans. *)
Lemma outcome_of_frame_Return temp_df df :
  outcome_of_frame lib parse_float parse_datetime temp_df = Return df →
  ∃ d p n,
    column temp_df "release_date" = Some d ∧
    pd_to_datetime lib parse_datetime d =
      Return (datetime_column lib parse_datetime d) ∧
    column temp_df "positive" = Some p ∧
    column temp_df "negative" = Some n ∧
    bool_dtype p && bool_dtype n = false ∧
    df = final_frame lib parse_float parse_datetime temp_df.
Proof.
  unfold outcome_of_frame.
  destruct (column temp_df "release_date") as [d|]; [|discriminate].
  destruct (pd_to_datetime lib parse_datetime d) as [r|e] eqn:Hr;
    [|discriminate].
  destruct (column temp_df "positive") as [p|]; [|discriminate].
  destruct (column temp_df "negative") as [n|]; [|discriminate].
  destruct (bool_dtype p && bool_dtype n) eqn:Hb; [discriminate|].
  intros H. injection H as <-.
  exists d, p, n. rewrite <- (pd_to_datetime_Return _ _ Hr).
  repeat split; reflexivity || assumption.
Qed.


Lemma prepare_dataframe_Return path df :
  result (prepare_dataframe fs lib parse_float parse_datetime path) =
    Return df →
  ∃ src temp_df,
    fs path = Some src ∧ ingested lib src = Some temp_df ∧
    has_column temp_df "release_date" = true ∧
    has_column temp_df "positive" = true ∧
    has_column temp_df "negative" = true ∧
    df = final_frame lib parse_float parse_datetime temp_df.
Proof.
  intros H.
  destruct (fs path) as [src|] eqn:Hfs;
    [|rewrite (prepare_dataframe_missing _ Hfs) in H; discriminate].
  rewrite (prepare_dataframe_result _ _ Hfs) in H.
  unfold outcome_of_source in H.
  destruct (ingested lib src) as [temp_df|] eqn:Hing; [|discriminate].
  apply outcome_of_frame_Return in H
    as (d & p & n & Hd & _ & Hp & Hn & _ & ->).
  exists src, temp_df.
  split; [reflexivity|]. split; [exact Hing|].
  rewrite (has_column_of_column _ _ _ Hd), (has_column_of_column _ _ _ Hp),
    (has_column_of_column _ _ _ Hn).
  repeat split; reflexivity.
Qed.

(** With the file in place the loader raises what the ingestion raises
    ([ValueError] on content that is not JSON, [AttributeError] on an
    array), a [KeyError] for a column the code reads without a guard, what
    [pd.to_datetime] raises, or the [NotImplementedError] of the
    division. *)
Lemma prepare_dataframe_raises path src e :
  fs path = Some src →
  result (prepare_dataframe fs lib parse_float parse_datetime path) =
    Raise e →
  exn_cls e ∈ [ValueError; AttributeError; KeyError; TypeError;
               NotImplementedError].
Proof.
  intros Hfs H. rewrite (prepare_dataframe_result _ _ Hfs) in H.
  unfold outcome_of_source, outcome_of_frame, pd_to_datetime in H.
  destruct (ingested lib src) as [temp_df|].
  - destruct (column temp_df "release_date") as [d|];
      [|injection H as <-; by_computation].
    destruct (bool_dtype d); [injection H as <-; by_computation|].
    destruct (datetime_error lib d); [injection H as <-; by_computation|].
    destruct (column temp_df "positive") as [p|];
      [|injection H as <-; by_computation].
    destruct (column temp_df "negative") as [n|];
      [|injection H as <-; by_computation].
    destruct (bool_dtype p && bool_dtype n); [|discriminate].
    injection H as <-. by_computation.
  - injection H as <-. destruct src; by_computation.
Qed.

End LoaderLemmas.

(** ** The returned frame, column by column *)

Section FinalFrame.

Variable lib : pandas.
Variable parse_float : string → option float64.
Variable parse_datetime : pyval → option Z.

Lemma index_final_frame temp_df :
  index (final_frame lib parse_float parse_datetime temp_df) = index temp_df.
Proof. apply index_cleaned_frame. Qed.

Lemma column_final_frame temp_df c :
  column (final_frame lib parse_float parse_datetime temp_df) c =
  if decide ("score_ratio" = c) then
    Some (ratio_of lib
            (default [] (column (cleaned_frame lib parse_float parse_datetime
                                   temp_df) "positive"))
            (total_of lib
               (default [] (column (cleaned_frame lib parse_float
                                      parse_datetime temp_df) "positive"))
               (default [] (column (cleaned_frame lib parse_float
                                      parse_datetime temp_df) "negative"))))
  else if decide ("total_reviews" = c) then
    Some (total_of lib
            (default [] (column (cleaned_frame lib parse_float parse_datetime
                                   temp_df) "positive"))
            (default [] (column (cleaned_frame lib parse_float parse_datetime
                                   temp_df) "negative")))
  else column (cleaned_frame lib parse_float parse_datetime temp_df) c.
Proof.
  unfold final_frame. rewrite !column_setitem. reflexivity.
Qed.

Lemma column_final_numeric temp_df c :
  c ∈ cols_to_numeric →
  column (final_frame lib parse_float parse_datetime temp_df) c =
  numeric_column parse_float <$> column temp_df c.
Proof.
  intros Hc. rewrite column_final_frame.
  unfold cols_to_numeric in Hc.
  repeat (apply elem_of_cons in Hc as [->|Hc]);
    try (simpl; apply column_cleaned_numeric; by_computation).
  inversion Hc.
Qed.

End FinalFrame.

(** ** Cells of the derived columns *)



Lemma lookup_is_imputed s i :
  Forall is_imputed s → i < length s →
  ∃ x, s !! i = Some (PyNum x) ∧ x ≠ NaN.
Proof.
  intros Hs Hi. destruct (lookup_lt_is_Some_2 s i Hi) as [v Hv].
  destruct (proj1 (Forall_lookup _ _) Hs i v Hv) as (x & -> & Hx).
  exists x. split; assumption.
Qed.

(** ** Arithmetic of the score ratio *)








(** ** The table of a source *)

Section TableOf.

Variable fs : string → option source.
Variable lib : pandas.
Variable parse_float : string → option float64.
Variable parse_datetime : pyval → option Z.

Lemma has_column_ingested src temp_df recs c :
  ingested lib src = Some temp_df → source_records src = Some recs →
  has_column temp_df c = supplies recs c.
Proof.
  intros Hing Hrecs.
  destruct (ingested_records _ _ _ Hing) as (recs' & Hrecs' & _ & Hcol).
  rewrite Hrecs in Hrecs'. injection Hrecs' as <-.
  unfold has_column. rewrite Hcol. destruct (supplies recs c); reflexivity.
Qed.

Lemma column_ingested src temp_df recs c :
  ingested lib src = Some temp_df → source_records src = Some recs →
  column temp_df c =
  if supplies recs c then Some (raw_column c recs) else None.
Proof.
  intros Hing Hrecs.
  destruct (ingested_records _ _ _ Hing) as (recs' & Hrecs' & _ & Hcol).
  rewrite Hrecs in Hrecs'. injection Hrecs' as <-. apply Hcol.
Qed.

Lemma final_frame_table_of src temp_df recs :
  ingested lib src = Some temp_df → source_records src = Some recs →
  supplies recs "release_date" = true →
  supplies recs "positive" = true →
  supplies recs "negative" = true →
  table_of lib parse_float parse_datetime recs
    (final_frame lib parse_float parse_datetime temp_df).
Proof.
  intros Hing Hrecs Hd Hp Hn.
  destruct (ingested_records _ _ _ Hing) as (recs' & Hrecs' & Hlen & Hcol).
  rewrite Hrecs in Hrecs'. injection Hrecs' as <-.
  assert (Hcp : column (cleaned_frame lib parse_float parse_datetime temp_df)
                  "positive" =
                Some (numeric_column parse_float (raw_column "positive" recs))).
  { rewrite column_cleaned_numeric by by_computation.
    rewrite Hcol, Hp. reflexivity. }
  assert (Hcn : column (cleaned_frame lib parse_float parse_datetime temp_df)
                  "negative" =
                Some (numeric_column parse_float (raw_column "negative" recs))).
  { rewrite column_cleaned_numeric by by_computation.
    rewrite Hcol, Hn. reflexivity. }
  split.
  - unfold len. rewrite index_final_frame. exact Hlen.
  - rewrite column_final_frame. simpl. rewrite column_cleaned_frame. simpl.
    rewrite Hcol, Hd. reflexivity.
  - intros c Hc. rewrite column_final_numeric by exact Hc.
    rewrite Hcol. destruct (supplies recs c); reflexivity.
  - rewrite column_final_frame. simpl. rewrite column_cleaned_frame. simpl.
    rewrite Hcol, Hlen. destruct (supplies recs "tags"); reflexivity.
  - rewrite column_final_frame. simpl. rewrite column_cleaned_frame. simpl.
    rewrite Hcol, Hlen. destruct (supplies recs "genres"); reflexivity.
  - rewrite column_final_frame. simpl. rewrite column_cleaned_frame. simpl.
    rewrite Hcol. reflexivity.
  - rewrite column_final_frame. simpl. rewrite Hcp, Hcn. reflexivity.
  - rewrite column_final_frame. simpl. rewrite Hcp, Hcn. reflexivity.
Qed.

(** Every returned table is the table of the records of the source. *)
Lemma prepare_dataframe_table path df :
  result (prepare_dataframe fs lib parse_float parse_datetime path) =
    Return df →
  ∃ src recs,
    fs path = Some src ∧ source_records src = Some recs ∧
    supplies recs "release_date" = true ∧
    supplies recs "positive" = true ∧
    supplies recs "negative" = true ∧
    table_of lib parse_float parse_datetime recs df.
Proof.
  intros (src & temp_df & Hfs & Hing & Hd & Hp & Hn & ->)%prepare_dataframe_Return.
  destruct (ingested_records _ _ _ Hing) as (recs & Hrecs & _).
  rewrite (has_column_ingested _ _ _ _ Hing Hrecs) in Hd.
  rewrite (has_column_ingested _ _ _ _ Hing Hrecs) in Hp.
  rewrite (has_column_ingested _ _ _ _ Hing Hrecs) in Hn.
  exists src, recs. repeat (split; [assumption|]).
  apply (final_frame_table_of src); assumption.
Qed.

(** In a returned table the dates were converted and the two counts are
    not both columns of booleans. *)
Lemma prepare_dataframe_dtypes path df src recs :
  result (prepare_dataframe fs lib parse_float parse_datetime path) =
    Return df →
  fs path = Some src → source_records src = Some recs →
  bool_dtype (raw_column "release_date" recs) = false ∧
  datetime_error lib (raw_column "release_date" recs) = None ∧
  bool_dtype (raw_column "positive" recs) &&
    bool_dtype (raw_column "negative" recs) = false.
Proof.
  intros H Hfs Hrecs.
  rewrite (prepare_dataframe_result _ _ _ _ _ _ Hfs) in H.
  unfold outcome_of_source in H.
  destruct (ingested lib src) as [temp_df|] eqn:Hing; [|discriminate].
  apply outcome_of_frame_Return in H
    as (d & p & n & Hd & Hr & Hp & Hn & Hb & _).
  rewrite (column_ingested _ _ _ _ Hing Hrecs) in Hd.
  rewrite (column_ingested _ _ _ _ Hing Hrecs) in Hp.
  rewrite (column_ingested _ _ _ _ Hing Hrecs) in Hn.
  destruct (supplies recs "release_date"); [|discriminate].
  destruct (supplies recs "positive"); [|discriminate].
  destruct (supplies recs "negative"); [|discriminate].
  injection Hd as <-. injection Hp as <-. injection Hn as <-.
  unfold pd_to_datetime in Hr.
  destruct (bool_dtype (raw_column "release_date" recs)); [discriminate|].
  destruct (datetime_error lib (raw_column "release_date" recs));
    [discriminate|].
  repeat split; assumption || reflexivity.
Qed.


End TableOf.

(** ** Rows of the table *)

Lemma length_numeric_column pf s : length (numeric_column pf s) = length s.
Proof.
  unfold numeric_column, fillna_0, to_numeric.
  destruct (bool_dtype s); rewrite !length_map; reflexivity.
Qed.

Lemma length_raw_column c recs : length (raw_column c recs) = length recs.
Proof. apply length_map. Qed.

Lemma lookup_numeric_cell pf (s : list pyval) i :
  numeric_column pf s !! i =
  (if bool_dtype s then id else numeric_cell pf) <$> s !! i.
Proof.
  destruct (bool_dtype s) eqn:E.
  - rewrite (numeric_column_bool _ _ E). destruct (s !! i); reflexivity.
  - rewrite (numeric_column_other _ _ E). apply list_lookup_fmap.
Qed.

Lemma lookup_raw_column c recs i r :
  recs !! i = Some r → raw_column c recs !! i = Some (raw_cell c r).
Proof.
  intros H. unfold raw_column. rewrite list_lookup_fmap, H. reflexivity.
Qed.

(** In a column of booleans every record has a boolean. *)
Lemma bool_dtype_raw_cell c recs i r :
  bool_dtype (raw_column c recs) = true → recs !! i = Some r →
  ∃ b, field c r = Some (PyBool b) ∧ raw_cell c r = PyBool b.
Proof.
  intros Hb Hr. apply bool_dtype_Forall in Hb.
  pose proof (proj1 (Forall_lookup _ _) Hb i _ (lookup_raw_column c _ _ _ Hr))
    as Hv.
  unfold raw_cell in *. destruct (field c r) as [v|]; [|discriminate].
  destruct v; try discriminate. eexists. split; reflexivity.
Qed.

Lemma supplies_false_field recs c i r :
  supplies recs c = false → recs !! i = Some r → field c r = None.
Proof.
  unfold supplies. intros Hs Hr.
  destruct (field c r) as [v|] eqn:E; [|reflexivity].
  exfalso. apply not_true_iff_false in Hs. apply Hs.
  apply existsb_exists. exists r. split.
  - apply list_elem_of_In. eapply list_elem_of_lookup_2. exact Hr.
  - apply bool_decide_eq_true_2. rewrite E. eexists. reflexivity.
Qed.


Lemma tags_lambda_other x :
  is_dict x = false → is_list x = false → tags_lambda x = PyDict [].
Proof. intros Hd Hl. unfold tags_lambda. rewrite Hd, Hl. reflexivity. Qed.

Lemma tags_lambda_keeps x :
  is_dict x || is_list x = true → tags_lambda x = x.
Proof. intros H. unfold tags_lambda. rewrite H. reflexivity. Qed.

Section Rows.

Variable lib : pandas.
Variable parse_float : string → option float64.
Variable parse_datetime : pyval → option Z.
Variable recs : list record.
Variable df : DataFrame.
Hypothesis table : table_of lib parse_float parse_datetime recs df.


Lemma row_tags i r :
  recs !! i = Some r →
  cell df "tags" i = Some (tags_lambda (raw_cell "tags" r)).
Proof.
  intros Hr. unfold cell. rewrite (table_tags _ _ _ _ _ table). simpl.
  destruct (supplies recs "tags") eqn:Hs.
  - rewrite list_lookup_fmap, (lookup_raw_column _ _ _ _ Hr). reflexivity.
  - rewrite lookup_replicate_2 by (eapply lookup_lt_Some; exact Hr).
    unfold raw_cell. rewrite (supplies_false_field _ _ _ _ Hs Hr). reflexivity.
Qed.


(** A numeric cell: the boolean of the record in a column of booleans, the
    imputed number otherwise. *)
Lemma cell_numeric c i r :
  c ∈ cols_to_numeric → supplies recs c = true → recs !! i = Some r →
  cell df c i =
  Some (if bool_dtype (raw_column c recs) then raw_cell c r
        else numeric_cell parse_float (raw_cell c r)).
Proof.
  intros Hc Hs Hr. unfold cell.
  rewrite (table_numeric _ _ _ _ _ table c Hc), Hs. simpl.
  rewrite lookup_numeric_cell, (lookup_raw_column _ _ _ _ Hr).
  destruct (bool_dtype (raw_column c recs)); reflexivity.
Qed.

End Rows.

(** ** Score ratio *)




(** ** Row preservation *)

Lemma length_total_of lib p n :
  length (total_of lib p n) = length p `min` length n.
Proof. apply length_zip_with. Qed.

Lemma length_ratio_of lib p t :
  length (ratio_of lib p t) = length p `min` length t.
Proof.
  unfold ratio_of, replace_0_1. rewrite length_zip_with, length_map.
  reflexivity.
Qed.

Lemma length_datetime_column lib pd s :
  length (datetime_column lib pd s) = length s.
Proof.
  unfold datetime_column, as_objects, to_datetime.
  destruct (mixed_offsets lib s); apply length_map.
Qed.








(** ** Columns of the table *)




(** The column [release_date] is read without a guard: a keyed source that
    has none makes the loader raise [KeyError]. *)
Lemma undated_source_raises :
  result (prepare_dataframe undated_fs sample_pandas sample_parse_float
            sample_parse_datetime "undated.json") =
  Raise (Exn KeyError "release_date").
Proof. vm_compute. reflexivity. Qed.

(** ** Shape of tags and genres *)




(** ** Failures of the loader *)

(** C8: for a path under which nothing is stored, the loader logs the
    error and raises [FileNotFoundError], and that is all it does: the JSON
    reader is never called.  When the file is there, the reader is called,
    and whatever the loader raises is not a [FileNotFoundError]. *)
Theorem missing_source_fails_fast
    (fs : string → option source) (lib : pandas)
    (parse_float : string → option float64)
    (parse_datetime : pyval → option Z) (path : string) :
  (fs path = None →
   prepare_dataframe fs lib parse_float parse_datetime path =
   ([Log ERROR ("ETL-Error: Quelldatei " +:+ path +:+ " nicht gefunden.")],
    Raise (Exn FileNotFoundError
             ("ETL-Error: Quelldatei " +:+ path +:+ " nicht gefunden."))) ∧
   ∀ p o, ReadJson p o ∉
          trace (prepare_dataframe fs lib parse_float parse_datetime path)) ∧
  (∀ src, fs path = Some src →
     (∃ rest,
        trace (prepare_dataframe fs lib parse_float parse_datetime path) =
        Log INFO ("Starte Daten-Ingestierung von: " +:+ path)
          :: ReadJson path OrientIndex :: rest) ∧
     ∀ e, result (prepare_dataframe fs lib parse_float parse_datetime path) =
          Raise e →
          exn_cls e ≠ FileNotFoundError).
Proof.
  split.
  - intros Hfs.
    pose proof (prepare_dataframe_missing fs lib parse_float parse_datetime
                  path Hfs) as Hrun.
    split; [exact Hrun|]. intros p o. rewrite Hrun. simpl.
    intros [H|H]%elem_of_cons; [discriminate | inversion H].
  - intros src Hfs. split.
    + unfold prepare_dataframe.
      rewrite (validate_source_present _ _ _ Hfs), bind_mret.
      rewrite logger_info_bind. simpl.
      match goal with
      | |- context [trace (ingestion fs lib path ≫= ?k)] =>
          destruct (trace_bind (ingestion fs lib path) k) as [rest1 Hrest1]
      end.
      destruct (ingestion_trace_reads fs lib path) as [rest2 Hrest2].
      rewrite Hrest1, Hrest2. simpl.
      eexists. reflexivity.
    + intros e He Hcls.
      pose proof (prepare_dataframe_raises _ _ _ _ _ _ _ Hfs He) as Hmem.
      rewrite Hcls in Hmem.
      repeat (apply elem_of_cons in Hmem as [Hmem|Hmem]; [discriminate|]).
      inversion Hmem.
Qed.

Lemma missing_source_fails_fast_witness :
  test_fs "nope.json" = None ∧
  result (prepare_dataframe test_fs sample_pandas sample_parse_float
            sample_parse_datetime "nope.json") =
  Raise (Exn FileNotFoundError
           "ETL-Error: Quelldatei nope.json nicht gefunden.") ∧
  ReadJson "nope.json" OrientIndex ∉
  trace (prepare_dataframe test_fs sample_pandas sample_parse_float
           sample_parse_datetime "nope.json").
Proof.
  assert (Hfs : test_fs "nope.json" = None) by reflexivity.
  destruct (missing_source_fails_fast test_fs sample_pandas
              sample_parse_float sample_parse_datetime "nope.json")
    as [Hmissing _].
  destruct (Hmissing Hfs) as [Hrun Hno].
  split; [exact Hfs|]. split; [rewrite Hrun; reflexivity | apply Hno].
Defined.

(** ** Text-shaped tags *)

(** C9: in a returned table, the tags cell of a record whose tags value is
    neither a mapping nor a list is the empty mapping; so is the cell of a
    record whose tags value is a string, whatever the string says.  A
    mapping or a list is kept as it is. *)
Theorem text_tags_are_dropped
    (fs : string → option source) (lib : pandas)
    (parse_float : string → option float64)
    (parse_datetime : pyval → option Z) (path : string) (df : DataFrame) :
  result (prepare_dataframe fs lib parse_float parse_datetime path) =
    Return df →
  ∃ src recs,
    fs path = Some src ∧ source_records src = Some recs ∧
    (∀ i r, recs !! i = Some r →
            is_dict (raw_cell "tags" r) = false →
            is_list (raw_cell "tags" r) = false →
            cell df "tags" i = Some (PyDict [])) ∧
    (∀ i r text, recs !! i = Some r →
                 field "tags" r = Some (PyStr text) →
                 cell df "tags" i = Some (PyDict [])) ∧
    (∀ i r, recs !! i = Some r →
            is_dict (raw_cell "tags" r) || is_list (raw_cell "tags" r) = true →
            cell df "tags" i = Some (raw_cell "tags" r)).
Proof.
  intros (src & recs & Hfs & Hrecs & _ & _ & _ & Htab)%prepare_dataframe_table.
  exists src, recs. split; [exact Hfs|]. split; [exact Hrecs|].
  split; [|split].
  - intros i r Hr Hd Hl.
    rewrite (row_tags _ _ _ _ _ Htab _ _ Hr), (tags_lambda_other _ Hd Hl).
    reflexivity.
  - intros i r text Hr Hf.
    rewrite (row_tags _ _ _ _ _ Htab _ _ Hr). unfold raw_cell. rewrite Hf.
    reflexivity.
  - intros i r Hr Hshape.
    rewrite (row_tags _ _ _ _ _ Htab _ _ Hr), (tags_lambda_keeps _ Hshape).
    reflexivity.
Qed.

Lemma text_tags_are_dropped_witness :
  ∃ df,
    result (prepare_dataframe text_tags_fs sample_pandas sample_parse_float
              sample_parse_datetime "text_tags.json") = Return df ∧
    cell df "tags" 0 = Some (PyDict []).
Proof.
  eexists. split; [vm_compute; reflexivity|].
  edestruct (text_tags_are_dropped text_tags_fs sample_pandas
               sample_parse_float sample_parse_datetime "text_tags.json")
    as (src & recs & Hfs & Hrecs & _ & Htext & _); [vm_compute; reflexivity|].
  vm_compute in Hfs. injection Hfs as <-.
  vm_compute in Hrecs. injection Hrecs as <-.
  eapply (Htext 0); reflexivity.
Defined.


(** ** Listwise deletion *)

Lemma keep_nil {A} (mask : list bool) : keep mask (@nil A) = [].
Proof. destruct mask; reflexivity. Qed.

Lemma zip_nil_r {A B} (l : list A) : zip l (@nil B) = [].
Proof. destruct l; reflexivity. Qed.

Lemma keep_zip {A B} (mask : list bool) (l : list A) (k : list B) :
  zip (keep mask l) (keep mask k) = keep mask (zip l k).
Proof.
  revert l k. induction mask as [|b mask IH]; intros l k; [reflexivity|].
  destruct l as [|x l]; [rewrite keep_nil; reflexivity|].
  destruct k as [|y k]; [rewrite keep_nil, zip_nil_r; reflexivity|].
  simpl. destruct b; simpl; rewrite IH; reflexivity.
Qed.

Lemma keep_map_filter {A} (f : A → bool) (l : list A) :
  keep (map f l) l = filter (λ x, f x = true) l.
Proof.
  induction l as [|x l IH]; [reflexivity|].
  simpl. rewrite filter_cons, IH.
  destruct (f x); [rewrite decide_True by reflexivity
                  | rewrite decide_False by discriminate]; reflexivity.
Qed.

Lemma length_keep_same {A B} (mask : list bool) (l : list A) (k : list B) :
  length l = length k → length (keep mask l) = length (keep mask k).
Proof.
  revert l k. induction mask as [|b mask IH]; intros l k Hlen; [reflexivity|].
  destruct l as [|x l], k as [|y k]; try discriminate; [reflexivity|].
  simpl. injection Hlen as Hlen. destruct b; simpl; rewrite (IH l k Hlen);
    reflexivity.
Qed.

(** The mask of a frame of three columns flags the complete rows. *)
Lemma row_mask_three c1 c2 c3 (y p a : list pyval) n :
  length y = n → length p = n → length a = n →
  row_mask [(c1, y); (c2, p); (c3, a)] n =
  map complete_row (zip y (zip p a)).
Proof.
  unfold row_mask. simpl. revert y p a.
  induction n as [|n IH]; intros y p a Hy Hp Ha.
  - destruct y; [reflexivity | discriminate].
  - destruct y as [|v1 y], p as [|v2 p], a as [|v3 a]; try discriminate.
    injection Hy as Hy. injection Hp as Hp. injection Ha as Ha.
    simpl. rewrite (IH y p a Hy Hp Ha).
    unfold complete_row at 1. simpl. rewrite andb_true_r. reflexivity.
Qed.

Lemma select_cols_present cols cs :
  Forall (λ c, is_Some (lookup_col c cols)) cs →
  select_cols cols cs = mret (project cols cs).
Proof.
  induction 1 as [|c cs [s Hs] Hcs IH]; [reflexivity|].
  rewrite project_cons. simpl. rewrite Hs, IH, bind_mret. reflexivity.
Qed.

Lemma wf_frame_column df c s :
  wf_frame df → column df c = Some s → length s = len df.
Proof.
  unfold wf_frame, column. intros Hwf.
  induction Hwf as [|[k v] cols Hkv Hwf IH]; simpl; [discriminate|].
  destruct (String.eqb k c); [intros [= <-]; exact Hkv | exact IH].
Qed.

Section Schema.

Variable df : DataFrame.
Hypothesis schema : forallb (has_column df) required_cols = true.

Lemma schema_columns :
  ∃ y p a,
    column df "score_ratio" = Some y ∧ column df "price" = Some p ∧
    column df "average_playtime_forever" = Some a.
Proof.
  simpl in schema. rewrite andb_true_r in schema.
  apply andb_prop in schema as [Hy Hpa]. apply andb_prop in Hpa as [Hp Ha].
  apply has_column_Some in Hy as [y Hy].
  apply has_column_Some in Hp as [p Hp].
  apply has_column_Some in Ha as [a Ha].
  exists y, p, a. repeat split; assumption.
Qed.

Lemma getitems_required :
  getitems df required_cols =
  mret (mkDataFrame (index df) (project (columns df) required_cols)).
Proof.
  unfold getitems. rewrite select_cols_present, bind_mret; [reflexivity|].
  destruct schema_columns as (y & p & a & Hy & Hp & Ha).
  repeat constructor; eexists; eassumption.
Qed.

Lemma project_required y p a :
  column df "score_ratio" = Some y → column df "price" = Some p →
  column df "average_playtime_forever" = Some a →
  project (columns df) required_cols =
  [("score_ratio", y); ("price", p); ("average_playtime_forever", a)].
Proof.
  unfold column. intros Hy Hp Ha. unfold required_cols.
  rewrite !project_cons, Hy, Hp, Ha. reflexivity.
Qed.

Lemma model_df_of_columns y p a :
  column df "score_ratio" = Some y → column df "price" = Some p →
  column df "average_playtime_forever" = Some a →
  model_df_of df =
  let mask := row_mask [("score_ratio", y); ("price", p);
                        ("average_playtime_forever", a)] (len df) in
  mkDataFrame (keep mask (index df))
    [("score_ratio", keep mask y); ("price", keep mask p);
     ("average_playtime_forever", keep mask a)].
Proof.
  intros Hy Hp Ha. unfold model_df_of.
  rewrite (project_required _ _ _ Hy Hp Ha). reflexivity.
Qed.

Hypothesis wf : wf_frame df.

Lemma required_rows_model_df_of :
  required_rows (model_df_of df) =
  filter (λ r, complete_row r = true) (required_rows df).
Proof.
  destruct schema_columns as (y & p & a & Hy & Hp & Ha).
  rewrite (model_df_of_columns _ _ _ Hy Hp Ha).
  rewrite (row_mask_three _ _ _ y p a (len df))
    by (eapply wf_frame_column; eassumption).
  unfold required_rows at 2. rewrite Hy, Hp, Ha. simpl.
  unfold required_rows, column. simpl.
  rewrite !keep_zip. apply keep_map_filter.
Qed.

Lemma len_model_df_of :
  len (model_df_of df) =
  length (filter (λ r, complete_row r = true) (required_rows df)).
Proof.
  destruct schema_columns as (y & p & a & Hy & Hp & Ha).
  rewrite (model_df_of_columns _ _ _ Hy Hp Ha).
  pose proof (wf_frame_column _ _ _ wf Hy) as Ly.
  pose proof (wf_frame_column _ _ _ wf Hp) as Lp.
  pose proof (wf_frame_column _ _ _ wf Ha) as La.
  rewrite (row_mask_three _ _ _ y p a (len df)) by assumption.
  unfold required_rows. rewrite Hy, Hp, Ha. simpl.
  rewrite <- keep_map_filter. unfold len. simpl.
  apply length_keep_same.
  rewrite !length_zip_with. unfold len in *. lia.
Qed.

End Schema.

(** ** The regression call *)

Lemma lift_Return_bind {A B} (a : A) (f : A → M B) :
  lift (Return a) ≫= f = f a.
Proof. apply bind_mret. Qed.

Lemma lift_Raise_bind {A B} (e : exn) (f : A → M B) :
  lift (Raise e) ≫= f = raise e.
Proof. reflexivity. Qed.

Lemma try_except_Return {A} (body : M A) cl (h : exn → M A) a :
  result body = Return a → try_except body cl h = body.
Proof. destruct body as [t o]. simpl. intros ->. reflexivity. Qed.

Lemma try_except_handled {A} (body : M A) cl (h : exn → M A) e :
  result body = Raise e → handles cl e = true →
  try_except body cl h = (trace body ++ trace (h e), result (h e)).
Proof.
  destruct body as [t o]. simpl. intros -> Hh. simpl. rewrite Hh.
  destruct (h e). reflexivity.
Qed.

Lemma try_except_unhandled {A} (body : M A) cl (h : exn → M A) e :
  result body = Raise e → handles cl e = false → try_except body cl h = body.
Proof.
  destruct body as [t o]. simpl. intros -> Hh. simpl. rewrite Hh. reflexivity.
Qed.

Section RegressionLemmas.

Variable fitted : Type.
Variable sm_OLS_fit : list pyval → DataFrame → outcome fitted.
Variable rsquared_4f : fitted → outcome string.
Variable summary_as_text : fitted → outcome string.

Local Abbreviation regression :=
  (perform_linear_regression fitted sm_OLS_fit rsquared_4f summary_as_text).
Local Abbreviation fit :=
  (fit_and_report fitted sm_OLS_fit rsquared_4f summary_as_text).

Lemma regression_run df :
  forallb (has_column df) required_cols = true →
  regression df =
  if (len (model_df_of df) <? 30)%nat
  then ([Log WARNING (too_few_rows_warning (len (model_df_of df)))],
        Return sample_too_small_msg)
  else try_except (fit (model_df_of df)) ExceptException on_error.
Proof.
  intros Hs. unfold perform_linear_regression.
  rewrite Hs. simpl negb. cbv iota.
  rewrite (getitems_required df Hs), bind_mret.
  fold (model_df_of df).
  destruct (len (model_df_of df) <? 30)%nat; reflexivity.
Qed.

Lemma fit_run model_df :
  forallb (has_column model_df) required_cols = true →
  fit model_df =
  (emit (OLSFit (fit_inputs model_df).1 (fit_inputs model_df).2);;
   model ← lift (sm_OLS_fit (fit_inputs model_df).1 (fit_inputs model_df).2);
   r2 ← lift (rsquared_4f model);
   logger_info ("Regressionsmodell erfolgreich berechnet. R²: " +:+ r2);;
   lift (summary_as_text model)).
Proof.
  intros Hs. destruct (schema_columns _ Hs) as (y & p & a & Hy & Hp & Ha).
  unfold fit_and_report, fit_inputs, getitem, getitems.
  rewrite Hy, bind_mret.
  rewrite select_cols_present, !bind_mret; [reflexivity|].
  repeat constructor; eexists; eassumption.
Qed.

Lemma model_df_of_schema df :
  forallb (has_column df) required_cols = true →
  forallb (has_column (model_df_of df)) required_cols = true.
Proof.
  intros Hs. destruct (schema_columns _ Hs) as (y & p & a & Hy & Hp & Ha).
  rewrite (model_df_of_columns _ _ _ _ Hy Hp Ha). reflexivity.
Qed.

(** What the [try] block does, by the outcome of the three library
    calls. *)
Lemma fit_cases model_df :
  forallb (has_column model_df) required_cols = true →
  let y := (fit_inputs model_df).1 in
  let X := (fit_inputs model_df).2 in
  match sm_OLS_fit y X with
  | Raise e => fit model_df = ([OLSFit y X], Raise e)
  | Return model =>
      match rsquared_4f model with
      | Raise e => fit model_df = ([OLSFit y X], Raise e)
      | Return r2 =>
          fit model_df =
          ([OLSFit y X;
            Log INFO ("Regressionsmodell erfolgreich berechnet. R²: " +:+ r2)],
           summary_as_text model)
      end
  end.
Proof.
  intros Hs. simpl. rewrite (fit_run _ Hs), emit_bind.
  destruct (sm_OLS_fit _ _) as [model|e].
  - rewrite lift_Return_bind.
    destruct (rsquared_4f model) as [r2|e].
    + rewrite lift_Return_bind, logger_info_bind. reflexivity.
    + reflexivity.
  - reflexivity.
Qed.

Lemma fit_trace model_df :
  forallb (has_column model_df) required_cols = true →
  ∃ rest,
    trace (fit model_df) =
    OLSFit (fit_inputs model_df).1 (fit_inputs model_df).2 :: rest ∧
    ∀ msg, Log WARNING msg ∉ rest.
Proof.
  intros Hs. pose proof (fit_cases _ Hs) as H. simpl in H.
  destruct (sm_OLS_fit _ _) as [model|e];
    [destruct (rsquared_4f model) as [r2|e]|]; rewrite H;
    eexists; (split; [reflexivity|]); intros msg Hin;
    repeat (apply elem_of_cons in Hin as [Hin|Hin]; [discriminate|]);
    inversion Hin.
Qed.

Lemma on_error_run e :
  on_error e =
  ([Log ERROR ("Mathematischer Fehler während der Regression: "
               +:+ exn_str e)],
   Return (computation_error_msg e)).
Proof. reflexivity. Qed.

Lemma guarded_fit_trace model_df :
  forallb (has_column model_df) required_cols = true →
  ∃ rest,
    trace (try_except (fit model_df) ExceptException on_error) =
    OLSFit (fit_inputs model_df).1 (fit_inputs model_df).2 :: rest ∧
    ∀ msg, Log WARNING msg ∉ rest.
Proof.
  intros Hs. destruct (fit_trace _ Hs) as (rest & Ht & Hrest).
  destruct (fit model_df) as [t [text|e]] eqn:Hfit; simpl in Ht; subst t.
  - exists rest. split; [reflexivity | exact Hrest].
  - simpl. destruct (is_Exception (exn_cls e)).
    + exists (rest ++ [Log ERROR ("Mathematischer Fehler während der Regression: "
                                   +:+ exn_str e)]).
      split; [reflexivity|]. intros msg [Hin|Hin]%elem_of_app.
      * exact (Hrest msg Hin).
      * apply list_elem_of_singleton in Hin. discriminate.
    + exists rest. split; [reflexivity | exact Hrest].
Qed.

Lemma guarded_fit_raises model_df e :
  result (try_except (fit model_df) ExceptException on_error) = Raise e →
  is_Exception (exn_cls e) = false.
Proof.
  destruct (fit model_df) as [t [text|e']]; simpl; [discriminate|].
  destruct (is_Exception (exn_cls e')) eqn:He; simpl.
  - discriminate.
  - intros [= <-]. exact He.
Qed.

End RegressionLemmas.

(** ** The sample-size guardrail *)

(** C5: on a table that has the three required columns, when fewer than 30
    rows are left after the rows with a missing value among them are
    dropped, the regression logs one warning and returns the text that the
    sample is too small; that is all it does, no fit is attempted.  With 30
    rows or more no such warning is logged and the first thing done is the
    OLS fit on the cleaned rows. *)
Theorem sample_size_guardrail
    (fitted : Type) (sm_OLS_fit : list pyval → DataFrame → outcome fitted)
    (rsquared_4f summary_as_text : fitted → outcome string)
    (df : DataFrame) :
  forallb (has_column df) required_cols = true →
  ((len (model_df_of df) < 30)%nat →
   perform_linear_regression fitted sm_OLS_fit rsquared_4f summary_as_text df =
   ([Log WARNING (too_few_rows_warning (len (model_df_of df)))],
    Return sample_too_small_msg) ∧
   ∀ y X, OLSFit y X ∉
          trace (perform_linear_regression fitted sm_OLS_fit rsquared_4f
                   summary_as_text df)) ∧
  ((30 ≤ len (model_df_of df))%nat →
   ∃ rest,
     trace (perform_linear_regression fitted sm_OLS_fit rsquared_4f
              summary_as_text df) =
     OLSFit (fit_inputs (model_df_of df)).1 (fit_inputs (model_df_of df)).2
       :: rest ∧
     ∀ msg, Log WARNING msg ∉ rest).
Proof.
  intros Hs. split.
  - intros Hn.
    assert (Hrun : perform_linear_regression fitted sm_OLS_fit rsquared_4f
                     summary_as_text df =
                   ([Log WARNING (too_few_rows_warning (len (model_df_of df)))],
                    Return sample_too_small_msg)).
    { rewrite (regression_run _ _ _ _ _ Hs).
      apply Nat.ltb_lt in Hn. rewrite Hn. reflexivity. }
    split; [exact Hrun|]. intros y X. rewrite Hrun. simpl.
    intros [H|H]%elem_of_cons; [discriminate | inversion H].
  - intros Hn. rewrite (regression_run _ _ _ _ _ Hs).
    apply Nat.ltb_ge in Hn. rewrite Hn.
    apply guarded_fit_trace, model_df_of_schema, Hs.
Qed.

Lemma sample_size_guardrail_witness :
  perform_linear_regression string sample_OLS_fit sample_rsquared_4f
    sample_summary_as_text tiny_df =
  ([Log WARNING "Regression abgebrochen: Zu wenige Datenpunkte (2)."],
   Return sample_too_small_msg) ∧
  ∃ rest,
    trace (perform_linear_regression string sample_OLS_fit sample_rsquared_4f
             sample_summary_as_text perfect_df) =
    OLSFit (fit_inputs (model_df_of perfect_df)).1
      (fit_inputs (model_df_of perfect_df)).2 :: rest.
Proof.
  split.
  - destruct (sample_size_guardrail string sample_OLS_fit sample_rsquared_4f
                sample_summary_as_text tiny_df) as [Hsmall _];
      [reflexivity|].
    destruct Hsmall as [Hrun _]; [vm_compute; lia|]. exact Hrun.
  - destruct (sample_size_guardrail string sample_OLS_fit sample_rsquared_4f
                sample_summary_as_text perfect_df) as [_ Hlarge];
      [reflexivity|].
    destruct Hlarge as (rest & Hrest & _); [vm_compute; lia|].
    exists rest. exact Hrest.
Defined.

(** ** Failures of the fit *)

(** C6: on a table that passes the schema and the sample-size checks, an
    exception raised in the [try] block (by the OLS fit, by the formatting
    of R², or by the rendering of the summary) that is an instance of
    [Exception] is caught: the regression logs the error and returns the
    text of a computation error.  Nothing that is an instance of
    [Exception] leaves the call. *)
Theorem fitting_failures_are_reported
    (fitted : Type) (sm_OLS_fit : list pyval → DataFrame → outcome fitted)
    (rsquared_4f summary_as_text : fitted → outcome string)
    (df : DataFrame) :
  forallb (has_column df) required_cols = true →
  (30 ≤ len (model_df_of df))%nat →
  (∀ e,
     result (fit_and_report fitted sm_OLS_fit rsquared_4f summary_as_text
               (model_df_of df)) = Raise e →
     is_Exception (exn_cls e) = true →
     result (perform_linear_regression fitted sm_OLS_fit rsquared_4f
               summary_as_text df) = Return (computation_error_msg e) ∧
     Log ERROR ("Mathematischer Fehler während der Regression: "
                +:+ exn_str e) ∈
     trace (perform_linear_regression fitted sm_OLS_fit rsquared_4f
              summary_as_text df)) ∧
  (∀ e,
     result (perform_linear_regression fitted sm_OLS_fit rsquared_4f
               summary_as_text df) = Raise e →
     is_Exception (exn_cls e) = false) ∧
  (∀ e,
     sm_OLS_fit (fit_inputs (model_df_of df)).1
       (fit_inputs (model_df_of df)).2 = Raise e →
     result (fit_and_report fitted sm_OLS_fit rsquared_4f summary_as_text
               (model_df_of df)) = Raise e) ∧
  (∀ model e,
     sm_OLS_fit (fit_inputs (model_df_of df)).1
       (fit_inputs (model_df_of df)).2 = Return model →
     rsquared_4f model = Raise e ∨
     (∃ r2, rsquared_4f model = Return r2) ∧ summary_as_text model = Raise e →
     result (fit_and_report fitted sm_OLS_fit rsquared_4f summary_as_text
               (model_df_of df)) = Raise e).
Proof.
  intros Hs Hn.
  pose proof (model_df_of_schema _ Hs) as Hms.
  pose proof (fit_cases fitted sm_OLS_fit rsquared_4f summary_as_text _ Hms)
    as Hcases. cbv zeta in Hcases.
  rewrite (regression_run _ _ _ _ _ Hs).
  apply Nat.ltb_ge in Hn. rewrite Hn.
  split; [|split; [|split]].
  - intros e He Hexc.
    rewrite (try_except_handled _ ExceptException _ e He Hexc).
    split; [reflexivity|].
    simpl. apply elem_of_app. right. left.
  - intros e. apply guarded_fit_raises.
  - intros e He. rewrite He in Hcases. rewrite Hcases. reflexivity.
  - intros model e Hm Hfail. rewrite Hm in Hcases.
    destruct Hfail as [Hr|[[r2 Hr] Hsum]]; rewrite Hr in Hcases;
      rewrite Hcases; [reflexivity | exact Hsum].
Qed.

Lemma fitting_failures_are_reported_witness :
  result (perform_linear_regression string sample_OLS_fit sample_rsquared_4f
            sample_summary_as_text inf_df) =
  Return "Berechnungsfehler im OLS-Modell: exog contains inf or nans".
Proof.
  destruct (fitting_failures_are_reported string sample_OLS_fit
              sample_rsquared_4f sample_summary_as_text inf_df)
    as [Hcaught _]; [reflexivity | vm_compute; lia |].
  destruct (Hcaught (Exn MissingDataError "exog contains inf or nans"))
    as [Hres _]; [vm_compute; reflexivity | reflexivity |].
  exact Hres.
Defined.

(** ** Infinite values in the regression input *)

Lemma fit_inputs_rows model_df :
  zip (fit_inputs model_df).1
    (zip (default [] (column (fit_inputs model_df).2 "price"))
       (default []
          (column (fit_inputs model_df).2 "average_playtime_forever"))) =
  required_rows model_df.
Proof.
  unfold fit_inputs, required_rows. cbn [fst snd].
  unfold column. cbn [columns]. rewrite !lookup_col_project. reflexivity.
Qed.

(** C10: the cleaning step of the regression keeps exactly the rows whose
    three required cells are all present; an infinite value is not a missing
    value, so a row holding one is kept, is counted in the number of rows
    compared with 30, and is part of the series and the frame handed to the
    OLS fit as they are. *)
Theorem infinite_rows_are_kept
    (fitted : Type) (sm_OLS_fit : list pyval → DataFrame → outcome fitted)
    (rsquared_4f summary_as_text : fitted → outcome string)
    (df : DataFrame) :
  wf_frame df →
  forallb (has_column df) required_cols = true →
  (isna (PyNum PInf) = false ∧ isna (PyNum NInf) = false) ∧
  required_rows (model_df_of df) =
  filter (λ r, complete_row r = true) (required_rows df) ∧
  (∀ r, r ∈ required_rows df → complete_row r = true →
        r ∈ required_rows (model_df_of df)) ∧
  len (model_df_of df) =
  length (filter (λ r, complete_row r = true) (required_rows df)) ∧
  ((30 ≤ len (model_df_of df))%nat →
   ∃ y X rest,
     trace (perform_linear_regression fitted sm_OLS_fit rsquared_4f
              summary_as_text df) = OLSFit y X :: rest ∧
     zip y (zip (default [] (column X "price"))
              (default [] (column X "average_playtime_forever"))) =
     required_rows (model_df_of df)).
Proof.
  intros Hwf Hs.
  pose proof (required_rows_model_df_of _ Hs Hwf) as Hrows.
  split; [split; reflexivity|]. split; [exact Hrows|]. split; [|split].
  - intros r Hin Hc. rewrite Hrows. apply list_elem_of_filter. split; assumption.
  - apply (len_model_df_of _ Hs Hwf).
  - intros Hn. rewrite (regression_run _ _ _ _ _ Hs).
    apply Nat.ltb_ge in Hn. rewrite Hn.
    destruct (guarded_fit_trace fitted sm_OLS_fit rsquared_4f summary_as_text
                _ (model_df_of_schema _ Hs)) as (rest & Hrest & _).
    eexists _, _, rest. split; [exact Hrest | apply fit_inputs_rows].
Qed.

Lemma infinite_rows_are_kept_witness :
  (PyNum (Fin (1 # 2)), (PyNum PInf, py_int 100)) ∈
  required_rows (model_df_of inf_df) ∧
  len (model_df_of inf_df) = 30.
Proof.
  destruct (infinite_rows_are_kept string sample_OLS_fit sample_rsquared_4f
              sample_summary_as_text inf_df)
    as (_ & _ & Hkept & Hlen & _).
  - by_computation.
  - reflexivity.
  - split.
    + apply Hkept; [apply (list_elem_of_lookup_2 _ 0) | ]; reflexivity.
    + rewrite Hlen. vm_compute. reflexivity.
Defined.

(** ** The two tag normalizers *)

Lemma process_tags_safely_text literal_eval s :
  process_tags_safely literal_eval (PyStr s) =
  match literal_eval s with
  | Return (PyDict d) => mret (PyList (dict_keys d))
  | Return (PyList l) => mret (PyList l)
  | Return _ => mret (PyList [])
  | Raise e =>
      if bool_decide (exn_cls e ∈ [ValueError; SyntaxError])
      then mret (PyList [])
      else raise e
  end.
Proof.
  unfold process_tags_safely.
  destruct (literal_eval s) as [v|e].
  - rewrite lift_Return_bind. destruct v; reflexivity.
  - rewrite lift_Raise_bind. unfold try_except, raise, handles.
    destruct (bool_decide (exn_cls e ∈ [ValueError; SyntaxError])); reflexivity.
Qed.

(** C4, as the code has it.  The dashboard's normalizer
    [process_tags_safely] returns the list of the keys of a mapping (not the
    mapping), and a list unchanged; a text goes through the literal parser,
    and a parsed mapping gives the list of its keys, a parsed list gives
    that list, any other parsed value and a [ValueError] or [SyntaxError]
    of the parser give the empty list; any other value, [None] included,
    gives the empty list; whatever it returns is a list.  The loader's
    normalizer returns a mapping or a list unchanged and the empty mapping
    for everything else, a text included. *)
Theorem tag_normalizers_contract (literal_eval : string → outcome pyval) :
  (∀ d, process_tags_safely literal_eval (PyDict d) =
        mret (PyList (dict_keys d))) ∧
  (∀ l, process_tags_safely literal_eval (PyList l) = mret (PyList l)) ∧
  (∀ s d, literal_eval s = Return (PyDict d) →
          process_tags_safely literal_eval (PyStr s) =
          mret (PyList (dict_keys d))) ∧
  (∀ s l, literal_eval s = Return (PyList l) →
          process_tags_safely literal_eval (PyStr s) = mret (PyList l)) ∧
  (∀ s v, literal_eval s = Return v → is_dict v = false → is_list v = false →
          process_tags_safely literal_eval (PyStr s) = mret (PyList [])) ∧
  (∀ s e, literal_eval s = Raise e →
          exn_cls e = ValueError ∨ exn_cls e = SyntaxError →
          process_tags_safely literal_eval (PyStr s) = mret (PyList [])) ∧
  (∀ x, is_dict x = false → is_list x = false → is_str x = false →
        process_tags_safely literal_eval x = mret (PyList [])) ∧
  (∀ x v, result (process_tags_safely literal_eval x) = Return v →
          is_list v = true) ∧
  (∀ x, is_dict x || is_list x = true → tags_lambda x = x) ∧
  (∀ x, is_dict x = false → is_list x = false → tags_lambda x = PyDict []).
Proof.
  repeat split.
  - intros s d H. rewrite process_tags_safely_text, H. reflexivity.
  - intros s l H. rewrite process_tags_safely_text, H. reflexivity.
  - intros s v H Hd Hl. rewrite process_tags_safely_text, H.
    destruct v; try reflexivity; discriminate.
  - intros s e H Hcls. rewrite process_tags_safely_text, H.
    rewrite bool_decide_eq_true_2; [reflexivity|].
    destruct Hcls as [-> | ->]; by_computation.
  - intros x Hd Hl Hs. destruct x; try reflexivity; discriminate.
  - intros x v H. destruct x; try (injection H as <-; reflexivity).
    rewrite process_tags_safely_text in H.
    destruct (literal_eval s) as [w|e].
    + destruct w; injection H as <-; reflexivity.
    + destruct (bool_decide (exn_cls e ∈ [ValueError; SyntaxError]));
        [injection H as <-; reflexivity | discriminate].
  - apply tags_lambda_keeps.
  - apply tags_lambda_other.
Qed.

Lemma tag_normalizers_contract_witness :
  process_tags_safely sample_literal_eval
    (PyStr "{'Action': 100, 'Indie': 50}") =
  mret (PyList [PyStr "Action"; PyStr "Indie"]) ∧
  process_tags_safely sample_literal_eval (PyStr "Action, Indie") =
  mret (PyList []).
Proof.
  destruct (tag_normalizers_contract sample_literal_eval)
    as (_ & _ & Hdict & _ & _ & Herr & _).
  split.
  - apply (Hdict _ [(PyStr "Action", py_int 100); (PyStr "Indie", py_int 50)]).
    reflexivity.
  - apply (Herr _ (Exn SyntaxError "invalid syntax")); [reflexivity|].
    right. reflexivity.
Defined.

(** C4 as stated fails on both normalizers: [process_tags_safely] does not
    return a mapping unchanged, it returns the list of its keys; and the
    loader's normalizer does not parse a text, it returns the empty
    mapping. *)
Lemma tag_normalizer_claim_fails :
  result (process_tags_safely sample_literal_eval
            (PyDict [(PyStr "Action", py_int 100)])) =
  Return (PyList [PyStr "Action"]) ∧
  PyList [PyStr "Action"] ≠ PyDict [(PyStr "Action", py_int 100)] ∧
  tags_lambda (PyStr "['Action', 'Indie']") = PyDict [] ∧
  sample_literal_eval "['Action', 'Indie']" =
  Return (PyList [PyStr "Action"; PyStr "Indie"]).
Proof.
  split; [reflexivity|]. split; [discriminate|]. split; reflexivity.
Qed.

(** An exception of the literal parser that is neither a [ValueError] nor a
    [SyntaxError] leaves [process_tags_safely]. *)
Lemma unhashable_key_raises :
  result (process_tags_safely sample_literal_eval (PyStr "{[]: 1}")) =
  Raise (Exn TypeError "unhashable type: 'list'").
Proof. reflexivity. Qed.


(** * Further properties of the loader *)

(** ** Outcome and log of a run *)



(** X2.  The log of a run on a file that is there: the start message, the
    keyed reading of the file, then - exactly when the content is not
    JSON - the fallback warning and the second reading, and at the end the
    success message with the shape of the table exactly when a table is
    returned.  Nothing else is logged or read. *)
Theorem loader_log
    (fs : string → option source) (lib : pandas)
    (parse_float : string → option float64)
    (parse_datetime : pyval → option Z) (path : string) (src : source) :
  fs path = Some src →
  trace (prepare_dataframe fs lib parse_float parse_datetime path) =
  Log INFO ("Starte Daten-Ingestierung von: " +:+ path)
    :: match src with
       | Malformed =>
           [ReadJson path OrientIndex;
            Log WARNING
              "JSON-Struktur weicht ab (Array statt Index). Nutze Fallback-Parser.";
            ReadJson path OrientDefault]
       | _ => [ReadJson path OrientIndex]
       end ++
    match result (prepare_dataframe fs lib parse_float parse_datetime path)
    with
    | Return df =>
        [Log INFO ("ETL erfolgreich abgeschlossen. Datensatzgröße: ("
                   +:+ pretty (len df) +:+ ", "
                   +:+ pretty (length (columns df)) +:+ ")")]
    | Raise _ => []
    end.
Proof.
  intros Hfs. rewrite (prepare_dataframe_run _ _ _ _ _ _ Hfs). reflexivity.
Qed.

Lemma loader_log_witness :
  test_fs "games.json" = Some test_data ∧
  trace (prepare_dataframe test_fs sample_pandas sample_parse_float
           sample_parse_datetime "games.json") =
  [Log INFO "Starte Daten-Ingestierung von: games.json";
   ReadJson "games.json" OrientIndex;
   Log INFO "ETL erfolgreich abgeschlossen. Datensatzgröße: (3, 10)"].
Proof.
  split; [reflexivity|].
  rewrite (loader_log test_fs sample_pandas sample_parse_float
             sample_parse_datetime "games.json" test_data); [|reflexivity].
  vm_compute. reflexivity.
Defined.

(** ** Array-shaped sources *)

(** X3.  The fallback never reads an array.  On a non-empty array the
    keyed reading raises [AttributeError], which the handler for
    [ValueError] lets through: after the start message and that one
    reading the exception leaves the loader, without the warning and
    without a second reading.  An empty array is read as an empty frame,
    and the run ends with [KeyError] for release_date.  The fallback runs
    on content that is not JSON, and there the second reading fails as the
    first did. *)
Theorem array_source_is_refused
    (fs : string → option source) (lib : pandas)
    (parse_float : string → option float64)
    (parse_datetime : pyval → option Z) (path : string) (src : source) :
  fs path = Some src →
  (∀ r rest, src = ArrayOfRecords (r :: rest) →
     trace (prepare_dataframe fs lib parse_float parse_datetime path) =
     [Log INFO ("Starte Daten-Ingestierung von: " +:+ path);
      ReadJson path OrientIndex] ∧
     ∃ e, result (prepare_dataframe fs lib parse_float parse_datetime path) =
          Raise e ∧ exn_cls e = AttributeError) ∧
  (src = ArrayOfRecords [] →
     prepare_dataframe fs lib parse_float parse_datetime path =
     ([Log INFO ("Starte Daten-Ingestierung von: " +:+ path);
       ReadJson path OrientIndex],
      Raise (Exn KeyError "release_date"))) ∧
  (src = Malformed →
     trace (prepare_dataframe fs lib parse_float parse_datetime path) =
     [Log INFO ("Starte Daten-Ingestierung von: " +:+ path);
      ReadJson path OrientIndex;
      Log WARNING
        "JSON-Struktur weicht ab (Array statt Index). Nutze Fallback-Parser.";
      ReadJson path OrientDefault] ∧
     ∃ e, result (prepare_dataframe fs lib parse_float parse_datetime path) =
          Raise e ∧ exn_cls e = ValueError).
Proof.
  intros Hfs. rewrite (prepare_dataframe_run _ _ _ _ _ _ Hfs).
  split; [|split].
  - intros r rest ->. split; [reflexivity|]. eexists. split; reflexivity.
  - intros ->. reflexivity.
  - intros ->. split; [reflexivity|]. eexists. split; reflexivity.
Qed.

Lemma array_source_is_refused_witness :
  array_fs "array.json" = Some (ArrayOfRecords [game_a; game_b; game_c]) ∧
  trace (prepare_dataframe array_fs sample_pandas sample_parse_float
           sample_parse_datetime "array.json") =
  [Log INFO "Starte Daten-Ingestierung von: array.json";
   ReadJson "array.json" OrientIndex] ∧
  ∃ e, result (prepare_dataframe array_fs sample_pandas sample_parse_float
                 sample_parse_datetime "array.json") = Raise e ∧
       exn_cls e = AttributeError.
Proof.
  split; [reflexivity|].
  destruct (array_source_is_refused array_fs sample_pandas sample_parse_float
              sample_parse_datetime "array.json"
              (ArrayOfRecords [game_a; game_b; game_c]))
    as (Harray & _ & _); [reflexivity|].
  apply (Harray game_a [game_b; game_c]). reflexivity.
Defined.

(** ** Cells of the numeric columns *)

(** X4.  Numeric coercion, cell by cell, in the four numeric columns of a
    returned table: a number of the source that is not NaN is kept as it is
    (a negative price stays negative, an infinity stays infinite); a string
    that parses to such a number becomes that number; and a missing field,
    null, NaN, a string that does not parse, a list or a mapping all become
    0. *)
Theorem numeric_cells_imputed
    (fs : string → option source) (lib : pandas)
    (parse_float : string → option float64)
    (parse_datetime : pyval → option Z) (path : string) (df : DataFrame) :
  result (prepare_dataframe fs lib parse_float parse_datetime path) =
    Return df →
  ∃ src recs,
    fs path = Some src ∧ source_records src = Some recs ∧
    ∀ c i r,
      c ∈ cols_to_numeric → supplies recs c = true → recs !! i = Some r →
      (∀ x, x ≠ NaN → raw_cell c r = PyNum x →
            cell df c i = Some (PyNum x)) ∧
      (∀ s x, raw_cell c r = PyStr s → parse_float s = Some x → x ≠ NaN →
              cell df c i = Some (PyNum x)) ∧
      (field c r = None ∨ raw_cell c r = PyNone ∨ raw_cell c r = PyNum NaN ∨
       (∃ s, raw_cell c r = PyStr s ∧ parse_float s = None) ∨
       is_list (raw_cell c r) = true ∨ is_dict (raw_cell c r) = true →
       cell df c i = Some (PyNum (Fin 0))).
Proof.
  intros (src & recs & Hfs & Hrecs & _ & _ & _ & Htab)%prepare_dataframe_table.
  exists src, recs. split; [exact Hfs|]. split; [exact Hrecs|].
  intros c i r Hc Hs Hr.
  rewrite (cell_numeric _ _ _ _ _ Htab _ _ _ Hc Hs Hr).
  destruct (bool_dtype (raw_column c recs)) eqn:Hb.
  { destruct (bool_dtype_raw_cell _ _ _ _ Hb Hr) as (b & Hf & Hcell).
    rewrite Hcell, Hf. repeat split.
    - intros x _ [=].
    - intros s x [=].
    - intros [H|[H|[H|[(s & H & _)|[H|H]]]]]; discriminate. }
  unfold numeric_cell. repeat split.
  - intros x Hx ->. simpl. destruct x; try reflexivity. contradiction.
  - intros s x -> Hparse Hx. simpl. rewrite Hparse. simpl.
    destruct x; try reflexivity. contradiction.
  - intros [H|[H|[H|[(s & H & Hparse)|[H|H]]]]].
    + unfold raw_cell. rewrite H. reflexivity.
    + rewrite H. reflexivity.
    + rewrite H. reflexivity.
    + rewrite H. simpl. rewrite Hparse. reflexivity.
    + destruct (raw_cell c r); try discriminate. reflexivity.
    + destruct (raw_cell c r); try discriminate. reflexivity.
Qed.

Lemma numeric_cells_imputed_witness :
  ∃ df,
    result (prepare_dataframe test_fs sample_pandas sample_parse_float
              sample_parse_datetime "games.json") = Return df ∧
    cell df "price" 2 = Some (PyNum (Fin (-5))) ∧
    cell df "average_playtime_forever" 1 = Some (PyNum (Fin 0)).
Proof.
  eexists. split; [vm_compute; reflexivity|].
  edestruct (numeric_cells_imputed test_fs sample_pandas sample_parse_float
               sample_parse_datetime "games.json")
    as (src & recs & Hfs & Hrecs & Hcells); [vm_compute; reflexivity|].
  vm_compute in Hfs. injection Hfs as <-.
  vm_compute in Hrecs. injection Hrecs as <-.
  split.
  - destruct (Hcells "price" 2 game_c) as (_ & Hstr & _);
      [by_computation | reflexivity | reflexivity |].
    apply (Hstr "-5.00"); [reflexivity | reflexivity | discriminate].
  - destruct (Hcells "average_playtime_forever" 1 game_b) as (_ & _ & Hzero);
      [by_computation | reflexivity | reflexivity |].
    apply Hzero. left. reflexivity.
Defined.

(** ** Finite counts *)

Lemma cell_lt_length df c i v s :
  column df c = Some s → cell df c i = Some v → i < length s.
Proof.
  unfold cell. intros ->. simpl. apply lookup_lt_Some.
Qed.





(** ** Rows and columns of the table *)




(** X7.  Projection: every column of a returned table is one of the eight
    allow-listed columns or one of the two derived ones; a field of the
    source with any other name never reaches the table. *)
Theorem only_allow_listed_columns
    (fs : string → option source) (lib : pandas)
    (parse_float : string → option float64)
    (parse_datetime : pyval → option Z) (path : string) (df : DataFrame) :
  result (prepare_dataframe fs lib parse_float parse_datetime path) =
    Return df →
  ∀ c, has_column df c = true →
       c ∈ ["name"; "release_date"; "positive"; "negative"; "price";
            "average_playtime_forever"; "genres"; "tags";
            "total_reviews"; "score_ratio"].
Proof.
  intros H c Hc.
  apply prepare_dataframe_Return in H
    as (src & temp_df & _ & _ & _ & _ & _ & ->).
  apply has_column_Some in Hc as [s Hs].
  rewrite column_final_frame in Hs.
  destruct (decide ("score_ratio" = c)) as [<-|H1]; [by_computation|].
  destruct (decide ("total_reviews" = c)) as [<-|H2]; [by_computation|].
  rewrite column_cleaned_frame in Hs.
  destruct (decide ("genres" = c)) as [<-|H3]; [by_computation|].
  destruct (decide ("tags" = c)) as [<-|H4]; [by_computation|].
  destruct (bool_decide_reflect (c ∈ cols_to_numeric)) as [H5|H5].
  { unfold cols_to_numeric in H5.
    repeat (apply elem_of_cons in H5 as [->|H5]); try by_computation.
    inversion H5. }
  destruct (decide ("release_date" = c)) as [<-|H6]; [by_computation|].
  destruct (decide ("name" = c)) as [<-|H7]; [by_computation|].
  discriminate.
Qed.

Lemma only_allow_listed_columns_witness :
  ∃ df,
    result (prepare_dataframe
              (fs_of [("extra.json",
                       KeyedMapping
                         [("10", [("appid", py_int 10);
                                  ("release_date", PyStr "2020-01-01");
                                  ("positive", py_int 1);
                                  ("negative", py_int 1);
                                  ("developer", PyStr "Valve")])])])
              sample_pandas sample_parse_float sample_parse_datetime
              "extra.json") =
    Return df ∧
    has_column df "appid" = false ∧ has_column df "developer" = false.
Proof.
  destruct (result (prepare_dataframe
              (fs_of [("extra.json",
                       KeyedMapping
                         [("10", [("appid", py_int 10);
                                  ("release_date", PyStr "2020-01-01");
                                  ("positive", py_int 1);
                                  ("negative", py_int 1);
                                  ("developer", PyStr "Valve")])])])
              sample_pandas sample_parse_float sample_parse_datetime
              "extra.json"))
    as [df|e] eqn:E; [|vm_compute in E; discriminate].
  pose proof (only_allow_listed_columns _ _ _ _ _ _ E) as Hcols.
  exists df. split; [reflexivity|].
  split; apply not_true_iff_false; intros Hc; apply Hcols in Hc;
    repeat (apply elem_of_cons in Hc as [Hc|Hc]; [discriminate|]);
    inversion Hc.
Defined.

(** * Further properties of the regression *)

Lemma select_cols_ext cols cols' cs :
  (∀ c, c ∈ cs → lookup_col c cols = lookup_col c cols') →
  select_cols cols cs = select_cols cols' cs.
Proof.
  induction cs as [|c cs IH]; intros H; [reflexivity|].
  simpl. rewrite <- (H c) by left.
  rewrite IH by (intros c' Hc'; apply H; right; exact Hc'). reflexivity.
Qed.

Lemma forallb_has_column_ext df df' cs :
  (∀ c, c ∈ cs → column df c = column df' c) →
  forallb (has_column df) cs = forallb (has_column df') cs.
Proof.
  induction cs as [|c cs IH]; intros H; [reflexivity|].
  simpl. unfold has_column at 1 3. rewrite <- (H c) by left.
  rewrite IH by (intros c' Hc'; apply H; right; exact Hc'). reflexivity.
Qed.

Lemma forallb_has_column_missing df cs c :
  c ∈ cs → has_column df c = false → forallb (has_column df) cs = false.
Proof.
  intros Hin Hc. apply not_true_iff_false. intros Hall.
  apply forallb_forall with (x := c) in Hall.
  - congruence.
  - apply list_elem_of_In, Hin.
Qed.

(** X8.  Schema check: on a table that lacks one of the columns
    score_ratio, price and average_playtime_forever, whatever else it holds
    and however many rows it has, the regression logs one error and returns
    the schema message; nothing is dropped, counted or fitted. *)
Theorem schema_check
    (fitted : Type) (sm_OLS_fit : list pyval → DataFrame → outcome fitted)
    (rsquared_4f summary_as_text : fitted → outcome string)
    (df : DataFrame) (c : string) :
  c ∈ required_cols → has_column df c = false →
  perform_linear_regression fitted sm_OLS_fit rsquared_4f summary_as_text df =
  ([Log ERROR schema_error_msg], Return schema_error_msg).
Proof.
  intros Hin Hc. unfold perform_linear_regression.
  rewrite (forallb_has_column_missing _ _ _ Hin Hc). reflexivity.
Qed.

Lemma schema_check_witness :
  perform_linear_regression string sample_OLS_fit sample_rsquared_4f
    sample_summary_as_text
    (mkDataFrame (range_index 2)
       [("score_ratio", [py_int 1; py_int 2]);
        ("playtime", [py_int 10; py_int 20])]) =
  ([Log ERROR schema_error_msg], Return schema_error_msg).
Proof.
  apply (schema_check string sample_OLS_fit sample_rsquared_4f
           sample_summary_as_text _ "price"); [by_computation | reflexivity].
Defined.

(** X9.  The regression answers every table: whatever the columns, the
    rows and the behaviour of statsmodels, the call returns a text, which is
    the schema message, the small-sample message, the message of a
    computation error, or a summary rendered by statsmodels; the only
    exceptions that can leave it are those that are not instances of
    [Exception]. *)
Theorem regression_outcome_kinds
    (fitted : Type) (sm_OLS_fit : list pyval → DataFrame → outcome fitted)
    (rsquared_4f summary_as_text : fitted → outcome string)
    (df : DataFrame) :
  (∃ text,
     result (perform_linear_regression fitted sm_OLS_fit rsquared_4f
               summary_as_text df) = Return text ∧
     (text = schema_error_msg ∨ text = sample_too_small_msg ∨
      (∃ e, is_Exception (exn_cls e) = true ∧ text = computation_error_msg e) ∨
      (∃ model, summary_as_text model = Return text))) ∨
  (∃ e,
     result (perform_linear_regression fitted sm_OLS_fit rsquared_4f
               summary_as_text df) = Raise e ∧
     is_Exception (exn_cls e) = false).
Proof.
  destruct (forallb (has_column df) required_cols) eqn:Hs.
  - rewrite (regression_run _ _ _ _ _ Hs).
    destruct (len (model_df_of df) <? 30)%nat.
    + left. exists sample_too_small_msg. split; [reflexivity|]. auto.
    + pose proof (fit_cases fitted sm_OLS_fit rsquared_4f summary_as_text _
                    (model_df_of_schema _ Hs)) as Hcases.
      cbv zeta in Hcases.
      assert (Hraise : ∀ t e,
                fit_and_report fitted sm_OLS_fit rsquared_4f summary_as_text
                  (model_df_of df) = (t, Raise e) →
                (∃ text,
                   result (try_except
                             (fit_and_report fitted sm_OLS_fit rsquared_4f
                                summary_as_text (model_df_of df))
                             ExceptException on_error) = Return text ∧
                   (text = schema_error_msg ∨ text = sample_too_small_msg ∨
                    (∃ e, is_Exception (exn_cls e) = true ∧
                          text = computation_error_msg e) ∨
                    (∃ model, summary_as_text model = Return text))) ∨
                (∃ e,
                   result (try_except
                             (fit_and_report fitted sm_OLS_fit rsquared_4f
                                summary_as_text (model_df_of df))
                             ExceptException on_error) = Raise e ∧
                   is_Exception (exn_cls e) = false)).
      { intros t e ->. unfold try_except, handles.
        destruct (is_Exception (exn_cls e)) eqn:He.
        - left. exists (computation_error_msg e). split; [reflexivity|].
          right. right. left. exists e. split; [exact He | reflexivity].
        - right. exists e. split; [reflexivity | exact He]. }
      destruct (sm_OLS_fit _ _) as [model|e]; [|exact (Hraise _ _ Hcases)].
      destruct (rsquared_4f model) as [r2|e]; [|exact (Hraise _ _ Hcases)].
      destruct (summary_as_text model) as [text|e] eqn:Hsum;
        [|exact (Hraise _ _ Hcases)].
      left. exists text. rewrite Hcases. split; [reflexivity|].
      right. right. right. exists model. exact Hsum.
  - left. exists schema_error_msg. unfold perform_linear_regression.
    rewrite Hs. split; [reflexivity|]. auto.
Qed.

(** X10.  The success path: on a table with the three columns and at least
    30 complete rows, when the fit, the formatting of R² and the rendering
    of the summary all return, the regression performs the OLS call on the
    cleaned rows, logs R², and returns the summary text unchanged. *)
Theorem regression_success
    (fitted : Type) (sm_OLS_fit : list pyval → DataFrame → outcome fitted)
    (rsquared_4f summary_as_text : fitted → outcome string)
    (df : DataFrame) (model : fitted) (r2 text : string) :
  forallb (has_column df) required_cols = true →
  (30 ≤ len (model_df_of df))%nat →
  sm_OLS_fit (fit_inputs (model_df_of df)).1 (fit_inputs (model_df_of df)).2 =
  Return model →
  rsquared_4f model = Return r2 →
  summary_as_text model = Return text →
  perform_linear_regression fitted sm_OLS_fit rsquared_4f summary_as_text df =
  ([OLSFit (fit_inputs (model_df_of df)).1 (fit_inputs (model_df_of df)).2;
    Log INFO ("Regressionsmodell erfolgreich berechnet. R²: " +:+ r2)],
   Return text).
Proof.
  intros Hs Hn Hfit Hr2 Hsum.
  rewrite (regression_run _ _ _ _ _ Hs).
  apply Nat.ltb_ge in Hn. rewrite Hn.
  pose proof (fit_cases fitted sm_OLS_fit rsquared_4f summary_as_text _
                (model_df_of_schema _ Hs)) as Hcases.
  cbv zeta in Hcases. rewrite Hfit, Hr2, Hsum in Hcases.
  rewrite Hcases. reflexivity.
Qed.

Lemma regression_success_witness :
  result (perform_linear_regression string sample_OLS_fit sample_rsquared_4f
            sample_summary_as_text perfect_df) =
  Return "OLS Regression Results".
Proof.
  rewrite (regression_success string sample_OLS_fit sample_rsquared_4f
             sample_summary_as_text perfect_df
             "OLS Regression Results" "1.0000" "OLS Regression Results");
    [reflexivity | reflexivity | vm_compute; lia
     | vm_compute; reflexivity | reflexivity | reflexivity].
Defined.

(** X11.  Only the three required columns count: two tables with the same
    index and the same score_ratio, price and average_playtime_forever
    columns get the same answer and the same log, whatever their other
    columns hold; a missing value in another column drops no row. *)
Theorem other_columns_do_not_matter
    (fitted : Type) (sm_OLS_fit : list pyval → DataFrame → outcome fitted)
    (rsquared_4f summary_as_text : fitted → outcome string)
    (df df' : DataFrame) :
  index df = index df' →
  (∀ c, c ∈ required_cols → column df c = column df' c) →
  perform_linear_regression fitted sm_OLS_fit rsquared_4f summary_as_text df =
  perform_linear_regression fitted sm_OLS_fit rsquared_4f summary_as_text df'.
Proof.
  intros Hidx Hcols. unfold perform_linear_regression.
  rewrite (forallb_has_column_ext df df' required_cols Hcols).
  assert (Hget : getitems df required_cols = getitems df' required_cols).
  { unfold getitems.
    rewrite (select_cols_ext (columns df) (columns df') required_cols Hcols).
    rewrite Hidx. reflexivity. }
  rewrite Hget. reflexivity.
Qed.

Lemma other_columns_do_not_matter_witness :
  perform_linear_regression string sample_OLS_fit sample_rsquared_4f
    sample_summary_as_text inf_df =
  perform_linear_regression string sample_OLS_fit sample_rsquared_4f
    sample_summary_as_text inf_df_bare.
Proof.
  apply other_columns_do_not_matter; [reflexivity|].
  intros c Hc. unfold required_cols in Hc.
  repeat (apply elem_of_cons in Hc as [->|Hc]); try reflexivity.
  inversion Hc.
Defined.

(** * Further properties of the dashboard's loading step *)

(** ** The tag helper on its own output *)

Lemma process_tags_safely_other literal_eval x :
  is_str x = false →
  process_tags_safely literal_eval x = mret (tags_list_of x).
Proof. intros H. destruct x; try reflexivity; discriminate. Qed.

Lemma process_tags_safely_returns_list literal_eval x v :
  result (process_tags_safely literal_eval x) = Return v → ∃ l, v = PyList l.
Proof.
  intros H. destruct x; try (injection H as <-; eexists; reflexivity).
  rewrite process_tags_safely_text in H.
  destruct (literal_eval s) as [w|e].
  - destruct w; injection H as <-; eexists; reflexivity.
  - destruct (bool_decide (exn_cls e ∈ [ValueError; SyntaxError]));
      [injection H as <-; eexists; reflexivity | discriminate].
Qed.

(** X12.  The tag helper is idempotent: whatever it returns, for any input
    and any behaviour of the literal parser, it returns unchanged when
    applied again, without consulting the parser. *)
Theorem tags_helper_idempotent
    (literal_eval literal_eval' : string → outcome pyval) (x v : pyval) :
  result (process_tags_safely literal_eval x) = Return v →
  process_tags_safely literal_eval' v = mret v.
Proof.
  intros [l ->]%process_tags_safely_returns_list. reflexivity.
Qed.

Lemma tags_helper_idempotent_witness :
  process_tags_safely (λ _, Raise (Exn TypeError "not consulted"))
    (PyList [PyStr "Action"; PyStr "Indie"]) =
  mret (PyList [PyStr "Action"; PyStr "Indie"]).
Proof.
  apply (tags_helper_idempotent sample_literal_eval _
           (PyStr "{'Action': 100, 'Indie': 50}")).
  reflexivity.
Defined.

(** X13.  The tag helper logs nothing, and it raises in one case only: the
    input is a text and the literal parser raises, on that text, an
    exception that is neither a [ValueError] nor a [SyntaxError]; that
    exception is the one that leaves the helper. *)
Theorem tags_helper_raises
    (literal_eval : string → outcome pyval) (x : pyval) (e : exn) :
  trace (process_tags_safely literal_eval x) = [] ∧
  (result (process_tags_safely literal_eval x) = Raise e ↔
   ∃ s, x = PyStr s ∧ literal_eval s = Raise e ∧
        exn_cls e ≠ ValueError ∧ exn_cls e ≠ SyntaxError).
Proof.
  destruct x;
    try (split; [reflexivity|];
         split; [discriminate | intros (? & ? & _); discriminate]).
  rewrite process_tags_safely_text.
  destruct (literal_eval s) as [w|e'] eqn:Hle.
  - split; [destruct w; reflexivity|].
    split; [destruct w; discriminate|].
    intros (s' & [= <-] & H & _). congruence.
  - destruct (bool_decide_reflect (exn_cls e' ∈ [ValueError; SyntaxError]))
      as [Hin|Hout].
    + split; [reflexivity|]. split; [discriminate|].
      intros (s' & [= <-] & H & Hv & Hs).
      rewrite Hle in H. injection H as ->.
      repeat (apply elem_of_cons in Hin as [Hin|Hin]); try contradiction.
      inversion Hin.
    + split; [reflexivity|]. split.
      * intros [= ->]. exists s. split; [reflexivity|]. split; [exact Hle|].
        split; intros Hc; apply Hout; rewrite Hc; by_computation.
      * intros (s' & [= <-] & H & _). rewrite Hle in H. injection H as ->.
        reflexivity.
Qed.

Lemma tags_helper_raises_witness :
  result (process_tags_safely sample_literal_eval (PyStr "{[]: 1}")) =
  Raise (Exn TypeError "unhashable type: 'list'").
Proof.
  apply (tags_helper_raises sample_literal_eval). exists "{[]: 1}".
  split; [reflexivity|]. split; [reflexivity|]. split; discriminate.
Defined.

(** ** The table of the dashboard *)

Lemma series_apply_tags literal_eval s :
  Forall (λ v, is_str v = false) s →
  series_apply (process_tags_safely literal_eval) s = mret (map tags_list_of s).
Proof.
  induction 1 as [|x s Hx _ IH]; [reflexivity|].
  cbn [series_apply map].
  rewrite (process_tags_safely_other _ _ Hx), bind_mret, IH, bind_mret.
  reflexivity.
Qed.

Lemma tags_lambda_not_str x : is_str (tags_lambda x) = false.
Proof. destruct x; reflexivity. Qed.

Lemma tags_list_of_tags_lambda x : tags_list_of (tags_lambda x) = tags_list_of x.
Proof. destruct x; reflexivity. Qed.

Lemma is_datetimelike_to_datetime pd s :
  is_datetimelike (to_datetime pd s) = true.
Proof.
  unfold is_datetimelike, to_datetime.
  induction s as [|v s IH]; [reflexivity|].
  cbn [map forallb]. destruct (pd v); exact IH.
Qed.

(** A converted column that the date accessor takes holds time stamps and
    NaT, cell by cell what [pd.to_datetime] reads. *)
Lemma datetimelike_as_objects pd s :
  is_datetimelike (as_objects pd s) = true → as_objects pd s = to_datetime pd s.
Proof.
  unfold is_datetimelike, as_objects, to_datetime.
  induction s as [|v s IH]; [reflexivity|].
  cbn [map forallb]. destruct (pd v); [discriminate|].
  intros H. rewrite (IH H). reflexivity.
Qed.

Lemma datetimelike_datetime_column lib pd s :
  is_datetimelike (datetime_column lib pd s) = true →
  datetime_column lib pd s = to_datetime pd s.
Proof.
  unfold datetime_column. destruct (mixed_offsets lib s); [|reflexivity].
  apply datetimelike_as_objects.
Qed.

Lemma is_datetimelike_datetime_column lib pd s :
  mixed_offsets lib s = false →
  is_datetimelike (datetime_column lib pd s) = true.
Proof.
  intros H. unfold datetime_column. rewrite H.
  apply is_datetimelike_to_datetime.
Qed.

Lemma length_to_datetime pd s : length (to_datetime pd s) = length s.
Proof. apply length_map. Qed.

Lemma table_tags_not_str lib pf pd recs df tags :
  table_of lib pf pd recs df → column df "tags" = Some tags →
  Forall (λ v, is_str v = false) tags.
Proof.
  intros Htab Htags. rewrite (table_tags _ _ _ _ _ Htab) in Htags.
  injection Htags as <-. destruct (supplies recs "tags").
  - apply Forall_fmap, Forall_forall. intros v _. apply tags_lambda_not_str.
  - apply Forall_replicate. reflexivity.
Qed.

Section DashboardLemmas.

Variable fs : string → option source.
Variable lib : pandas.
Variable parse_float : string → option float64.
Variable parse_datetime : pyval → option Z.
Variable literal_eval : string → outcome pyval.
Variable year_of : Z → Z.
Variable dt_accessor_error : exn.

(** The whole loading step: the run of the loader, and on its table the
    two added columns, when the date accessor takes the release dates. *)
Lemma load_and_clean_data_run :
  load_and_clean_data fs lib parse_float parse_datetime literal_eval year_of
    dt_accessor_error =
  (trace (prepare_dataframe fs lib parse_float parse_datetime DATA_PATH),
   match result (prepare_dataframe fs lib parse_float parse_datetime
                   DATA_PATH) with
   | Return df =>
       if is_datetimelike (default [] (column df "release_date"))
       then Return (dashboard_frame year_of df)
       else Raise dt_accessor_error
   | Raise e => Raise e
   end).
Proof.
  unfold load_and_clean_data.
  destruct (prepare_dataframe fs lib parse_float parse_datetime DATA_PATH)
    as [t [df|e]] eqn:E; [|reflexivity].
  assert (Hres : result (prepare_dataframe fs lib parse_float parse_datetime
                           DATA_PATH) = Return df) by (rewrite E; reflexivity).
  apply prepare_dataframe_table in Hres
    as (src & recs & _ & _ & _ & _ & _ & Htab).
  pose proof (table_tags _ _ _ _ _ Htab) as Htags.
  pose proof (table_genres _ _ _ _ _ Htab) as Hgenres.
  pose proof (table_release_date _ _ _ _ _ Htab) as Hdate.
  pose proof (table_tags_not_str _ _ _ _ _ _ Htab Htags) as Hshape.
  rewrite bind_Return. cbv zeta. cbn [trace result fst snd].
  rewrite (has_column_of_column _ _ _ Htags). cbn [negb].
  rewrite (has_column_of_column _ _ _ Hgenres). cbn [negb].
  unfold getitem.
  rewrite Htags, bind_mret.
  rewrite (series_apply_tags _ _ Hshape), bind_mret.
  rewrite (column_setitem_ne _ "tags_list" "release_date")
    by (intros ?; discriminate).
  rewrite Hdate, bind_mret.
  unfold dt_year. cbn [trace result fst snd default from_option id].
  destruct (is_datetimelike
              (datetime_column lib parse_datetime
                 (raw_column "release_date" recs))).
  - rewrite bind_mret. unfold dashboard_frame. rewrite Htags, Hdate.
    unfold mret, M_ret. cbn [fst snd default from_option id].
    rewrite app_nil_r. reflexivity.
  - rewrite bind_raise. unfold raise. cbn [fst snd].
    rewrite app_nil_r. reflexivity.
Qed.

End DashboardLemmas.

(** X14.  The loading step of the dashboard follows the loader: it logs
    what the loader logs and nothing more; when the loader raises, the same
    exception leaves the loading step; when the loader returns a table
    whose release dates are time stamps and NaT - as they are unless
    pandas finds mixed UTC offsets -, the loading step returns it with the
    same rows and every column unchanged, plus the two columns tags_list
    and year, each with one cell per row; on any other column of release
    dates the error of the date accessor leaves the loading step. *)
Theorem dashboard_load_follows_loader
    (fs : string → option source) (lib : pandas)
    (parse_float : string → option float64)
    (parse_datetime : pyval → option Z)
    (literal_eval : string → outcome pyval) (year_of : Z → Z)
    (dt_accessor_error : exn) :
  trace (load_and_clean_data fs lib parse_float parse_datetime literal_eval
           year_of dt_accessor_error) =
  trace (prepare_dataframe fs lib parse_float parse_datetime DATA_PATH) ∧
  (∀ e,
     result (prepare_dataframe fs lib parse_float parse_datetime DATA_PATH) =
     Raise e →
     result (load_and_clean_data fs lib parse_float parse_datetime
               literal_eval year_of dt_accessor_error) = Raise e) ∧
  (∀ df release_date,
     result (prepare_dataframe fs lib parse_float parse_datetime DATA_PATH) =
     Return df →
     column df "release_date" = Some release_date →
     (is_datetimelike release_date = true →
      ∃ df' tags_list year,
        result (load_and_clean_data fs lib parse_float parse_datetime
                  literal_eval year_of dt_accessor_error) = Return df' ∧
        index df' = index df ∧
        (∀ c, c ≠ "tags_list" → c ≠ "year" → column df' c = column df c) ∧
        column df' "tags_list" = Some tags_list ∧
        column df' "year" = Some year ∧
        length tags_list = len df ∧ length year = len df) ∧
     (is_datetimelike release_date = false →
      result (load_and_clean_data fs lib parse_float parse_datetime
                literal_eval year_of dt_accessor_error) =
      Raise dt_accessor_error) ∧
     (∀ src recs,
        fs DATA_PATH = Some src → source_records src = Some recs →
        mixed_offsets lib (raw_column "release_date" recs) = false →
        is_datetimelike release_date = true)).
Proof.
  rewrite load_and_clean_data_run. split; [reflexivity|]. split.
  - intros e ->. reflexivity.
  - intros df release_date Hdf Hcol. rewrite Hdf, Hcol.
    cbn [result snd default from_option id].
    apply prepare_dataframe_table in Hdf
      as (src & recs & Hfs & Hrecs & _ & _ & _ & Htab).
    split; [|split].
    + intros ->.
      eexists _, _, _. split; [reflexivity|]. unfold dashboard_frame.
      split; [reflexivity|]. split; [|split; [|split; [|split]]].
      * intros c Hc1 Hc2. rewrite !column_setitem_ne by congruence.
        reflexivity.
      * rewrite column_setitem_ne by (intros ?; discriminate).
        apply column_setitem_eq.
      * apply column_setitem_eq.
      * rewrite (table_tags _ _ _ _ _ Htab), (table_len _ _ _ _ _ Htab).
        cbn [default from_option id]. rewrite length_map.
        destruct (supplies recs "tags");
          [rewrite length_map; apply length_raw_column
          | apply length_replicate].
      * rewrite Hcol, (table_len _ _ _ _ _ Htab).
        cbn [default from_option id]. rewrite length_map.
        rewrite (table_release_date _ _ _ _ _ Htab) in Hcol.
        injection Hcol as <-.
        rewrite length_datetime_column. apply length_raw_column.
    + intros ->. reflexivity.
    + intros src' recs' Hfs' Hrecs' Hm.
      rewrite Hfs in Hfs'. injection Hfs' as <-.
      rewrite Hrecs in Hrecs'. injection Hrecs' as <-.
      rewrite (table_release_date _ _ _ _ _ Htab) in Hcol.
      injection Hcol as <-.
      apply is_datetimelike_datetime_column, Hm.
Qed.

Lemma dashboard_load_follows_loader_witness :
  ∃ df',
    result (load_and_clean_data dashboard_fs sample_pandas sample_parse_float
              sample_parse_datetime sample_literal_eval sample_year_of
              sample_dt_error) = Return df' ∧
    len df' = 3 ∧
    has_column df' "tags_list" = true ∧ has_column df' "year" = true.
Proof.
  destruct (dashboard_load_follows_loader dashboard_fs sample_pandas
              sample_parse_float sample_parse_datetime sample_literal_eval
              sample_year_of sample_dt_error) as (_ & _ & Hret).
  destruct (result (prepare_dataframe dashboard_fs sample_pandas
                      sample_parse_float sample_parse_datetime DATA_PATH))
    as [df|e] eqn:E; [|vm_compute in E; discriminate].
  destruct (Hret df (default [] (column df "release_date")) eq_refl)
    as (Hlike & _ & _).
  { vm_compute in E. injection E as <-. reflexivity. }
  destruct Hlike as (df' & tl & yr & Hload & Hidx & _ & Htl & Hyr & _).
  { vm_compute in E. injection E as <-. reflexivity. }
  exists df'. split; [exact Hload|]. split.
  - unfold len. rewrite Hidx. vm_compute in E. injection E as <-.
    reflexivity.
  - split; eapply has_column_of_column; eassumption.
Defined.

(** X15.  The two added columns, row by row: tags_list holds the keys of
    the record's tags when they are a mapping, the tags themselves when
    they are a list, and the empty list otherwise - a text included, which
    is never parsed because the loader has already replaced it; year holds
    the year of the release date, and NaN when the date could not be
    read. *)
Theorem dashboard_cells
    (fs : string → option source) (lib : pandas)
    (parse_float : string → option float64)
    (parse_datetime : pyval → option Z)
    (literal_eval : string → outcome pyval) (year_of : Z → Z)
    (dt_accessor_error : exn) (df' : DataFrame) :
  result (load_and_clean_data fs lib parse_float parse_datetime literal_eval
            year_of dt_accessor_error) = Return df' →
  ∃ src recs,
    fs DATA_PATH = Some src ∧ source_records src = Some recs ∧
    len df' = length recs ∧
    ∀ i r, recs !! i = Some r →
      cell df' "tags_list" i = Some (tags_list_of (raw_cell "tags" r)) ∧
      cell df' "year" i =
      Some (year_cell parse_datetime year_of (raw_cell "release_date" r)).
Proof.
  rewrite load_and_clean_data_run. cbn [result snd]. intros H.
  destruct (result (prepare_dataframe fs lib parse_float parse_datetime
                      DATA_PATH))
    as [df|e] eqn:Hdf; [|discriminate].
  destruct (is_datetimelike (default [] (column df "release_date")))
    eqn:Hlike; [|discriminate].
  injection H as <-.
  apply prepare_dataframe_table in Hdf
    as (src & recs & Hfs & Hrecs & _ & _ & _ & Htab).
  exists src, recs. split; [exact Hfs|]. split; [exact Hrecs|]. split.
  - exact (table_len _ _ _ _ _ Htab).
  - intros i r Hr. unfold cell, dashboard_frame. split.
    + rewrite column_setitem_ne by (intros ?; discriminate).
      rewrite column_setitem_eq. cbn [mbind option_bind].
      pose proof (row_tags _ _ _ _ _ Htab i r Hr) as Hcell.
      unfold cell in Hcell.
      destruct (column df "tags") as [tags|]; [|discriminate].
      cbn [mbind option_bind default from_option id] in Hcell |- *.
      rewrite list_lookup_fmap, Hcell. cbn [fmap option_fmap option_map].
      rewrite tags_list_of_tags_lambda. reflexivity.
    + rewrite (table_release_date _ _ _ _ _ Htab) in Hlike |- *.
      cbn [default from_option id] in Hlike.
      rewrite column_setitem_eq.
      rewrite (datetimelike_datetime_column _ _ _ Hlike).
      cbn [mbind option_bind default from_option id]. unfold to_datetime.
      rewrite !list_lookup_fmap, (lookup_raw_column _ _ _ _ Hr).
      cbn [fmap option_fmap option_map]. unfold year_cell.
      destruct (parse_datetime (raw_cell "release_date" r)); reflexivity.
Qed.

Lemma dashboard_cells_witness :
  ∃ df',
    result (load_and_clean_data text_tags_fs_dashboard sample_pandas
              sample_parse_float sample_parse_datetime sample_literal_eval
              sample_year_of sample_dt_error) = Return df' ∧
    cell df' "tags_list" 0 = Some (PyList []).
Proof.
  destruct (result (load_and_clean_data text_tags_fs_dashboard sample_pandas
                      sample_parse_float sample_parse_datetime
                      sample_literal_eval sample_year_of sample_dt_error))
    as [df'|e] eqn:E; [|vm_compute in E; discriminate].
  destruct (dashboard_cells text_tags_fs_dashboard sample_pandas
              sample_parse_float sample_parse_datetime sample_literal_eval
              sample_year_of sample_dt_error df' E)
    as (src & recs & Hfs & Hrecs & _ & Hrows).
  vm_compute in Hfs. injection Hfs as <-.
  vm_compute in Hrecs. injection Hrecs as <-.
  exists df'. split; [reflexivity|].
  destruct (Hrows 0 _ eq_refl) as [Htl _]. exact Htl.
Defined.

(** X16.  The loading step never consults the literal parser: its log and
    its outcome are the same whatever the parser would do, because the
    loader leaves only mappings and lists in the tags. *)
Theorem dashboard_load_parser_free
    (fs : string → option source) (lib : pandas)
    (parse_float : string → option float64)
    (parse_datetime : pyval → option Z)
    (literal_eval literal_eval' : string → outcome pyval) (year_of : Z → Z)
    (dt_accessor_error : exn) :
  load_and_clean_data fs lib parse_float parse_datetime literal_eval year_of
    dt_accessor_error =
  load_and_clean_data fs lib parse_float parse_datetime literal_eval' year_of
    dt_accessor_error.
Proof. rewrite !load_and_clean_data_run. reflexivity. Qed.

(** * Further properties of the download step *)

(** [ends_with] is the suffix test. *)
Lemma ends_with_spec suf s : ends_with suf s = true ↔ ∃ pre, s = pre +:+ suf.
Proof.
  induction s as [|a s IH]; cbn [ends_with].
  - rewrite orb_false_r, String.eqb_eq. split.
    + intros ->. exists "". reflexivity.
    + intros [pre H]. destruct pre; [exact (eq_sym H) | discriminate].
  - rewrite orb_true_iff, String.eqb_eq, IH. split.
    + intros [-> | [pre ->]]; [exists "" | exists (String a pre)]; reflexivity.
    + intros [[|b pre] H]; [left; exact (eq_sym H) | right].
      injection H as -> ->. exists pre. reflexivity.
Qed.

Lemma fs_of_cons k v l p :
  fs_of ((k, v) :: l) p = if decide (k = p) then Some v else fs_of l p.
Proof.
  unfold fs_of. cbn [list_find]. cbn [fst].
  destruct (decide (k = p)); [reflexivity|].
  destruct (list_find _ l) as [[i [k' v']]|]; reflexivity.
Qed.

Lemma length_append (s t : string) :
  String.length (s +:+ t) = (String.length s + String.length t)%nat.
Proof.
  induction s as [|a s IH]; [reflexivity|].
  change (String a s +:+ t) with (String a (s +:+ t)).
  cbn [String.length Nat.add]. f_equal. exact IH.
Qed.

Lemma target_folder_ne_path root : target_folder root ≠ target_path root.
Proof.
  unfold target_path. intros H. apply (f_equal String.length) in H.
  rewrite length_append in H. cbn in H. lia.
Qed.

Lemma files_made_ready root w : files (made_ready root w) = files w.
Proof. unfold made_ready. destruct (path_exists _ w); reflexivity. Qed.

Lemma scandir_made_ready root w : scandir (made_ready root w) = scandir w.
Proof. unfold made_ready. destruct (path_exists _ w); reflexivity. Qed.

Lemma copy_error_made_ready root w :
  copy_error (made_ready root w) = copy_error w.
Proof. unfold made_ready. destruct (path_exists _ w); reflexivity. Qed.

Lemma dirs_made_ready root w d :
  d ∈ dirs (made_ready root w) → d = target_folder root ∨ d ∈ dirs w.
Proof.
  unfold made_ready. destruct (path_exists _ w); [right; assumption|].
  cbn [dirs]. intros [->|H]%elem_of_cons; [left | right]; auto.
Qed.

Lemma target_path_made_ready root w :
  target_path root ∉ dirs w → target_path root ∉ dirs (made_ready root w).
Proof.
  intros H [Heq|Hin]%dirs_made_ready; [|exact (H Hin)].
  exact (target_folder_ne_path root (eq_sym Heq)).
Qed.


Lemma criticals_app t1 t2 : criticals (t1 ++ t2) = criticals t1 ++ criticals t2.
Proof. apply omap_app. Qed.

Lemma copies_app t1 t2 : copies (t1 ++ t2) = copies t1 ++ copies t2.
Proof. apply omap_app. Qed.

Lemma criticals_download_log root path b : criticals (download_log root path b) = [].
Proof. destruct b; reflexivity. Qed.

Lemma copies_download_log root path b : copies (download_log root path b) = [].
Proof. destruct b; reflexivity. Qed.

Section KaggleLemmas.

Variable root : string.

Lemma place_first_json_skip skipped rest w :
  Forall (λ e, is_json_file e = false) skipped →
  place_first_json root (skipped ++ rest) w = place_first_json root rest w.
Proof.
  induction 1 as [|e l He _ IH]; [reflexivity|].
  cbn [app place_first_json]. unfold is_json_file in He. rewrite He. exact IH.
Qed.


(** The first turn of the loop on an entry that is a JSON file. *)
Lemma place_first_json_first entry rest w :
  is_json_file entry = true →
  place_first_json root (entry :: rest) w =
  match fs_of (files w) (entry_path entry) with
  | None => (w, [], Raise (Exn FileNotFoundError (entry_path entry)))
  | Some content =>
      match copy_error w (entry_path entry) (target_path root) with
      | Some e => (w, [], Raise e)
      | None =>
          (mkWorld
             ((if bool_decide (target_path root ∈ dirs w)
               then target_path root +:+ "/" +:+ basename (entry_path entry)
               else target_path root, content) :: files w)
             (dirs w) (scandir w) (mkdir_error w) (copy_error w),
           [KCopy (entry_path entry) (target_path root);
            KLog K_INFO ("ETL-Abschluss: Datei bereitgestellt unter: "
                         +:+ target_path root)],
           Return true)
      end
  end.
Proof.
  intros Hj. cbn [place_first_json]. unfold is_json_file in Hj. rewrite Hj.
  unfold mbind, K_bind, copy2.
  destruct (fs_of (files w) (entry_path entry)); [|reflexivity].
  destruct (copy_error w (entry_path entry) (target_path root)); reflexivity.
Qed.

Lemma place_first_json_hit entry rest w content :
  is_json_file entry = true →
  fs_of (files w) (entry_path entry) = Some content →
  copy_error w (entry_path entry) (target_path root) = None →
  target_path root ∉ dirs w →
  place_first_json root (entry :: rest) w =
  (mkWorld ((target_path root, content) :: files w) (dirs w) (scandir w)
     (mkdir_error w) (copy_error w),
   [KCopy (entry_path entry) (target_path root);
    KLog K_INFO ("ETL-Abschluss: Datei bereitgestellt unter: "
                 +:+ target_path root)],
   Return true).
Proof.
  intros Hj Hc He Hd. rewrite (place_first_json_first _ _ _ Hj), Hc, He.
  rewrite bool_decide_eq_false_2 by exact Hd. reflexivity.
Qed.

(** The loop ends in one of three ways: nothing to copy, one copy with the
    target path as its destination, or a copy that raises. *)
Lemma place_first_json_cases entries w :
  place_first_json root entries w = (w, [], Return false) ∨
  (∃ src dst content,
     place_first_json root entries w =
     (mkWorld ((dst, content) :: files w) (dirs w) (scandir w)
        (mkdir_error w) (copy_error w),
      [KCopy src (target_path root);
       KLog K_INFO ("ETL-Abschluss: Datei bereitgestellt unter: "
                    +:+ target_path root)],
      Return true) ∧
     (target_path root ∉ dirs w → dst = target_path root)) ∨
  (∃ e, place_first_json root entries w = (w, [], Raise e)).
Proof.
  induction entries as [|entry rest IH]; [left; reflexivity|].
  destruct (is_json_file entry) eqn:Hj.
  - rewrite (place_first_json_first _ _ _ Hj).
    destruct (fs_of (files w) (entry_path entry)) as [content|];
      [|right; right; eexists; reflexivity].
    destruct (copy_error w (entry_path entry) (target_path root)) as [e|];
      [right; right; eexists; reflexivity|].
    right. left. eexists _, _, _. split; [reflexivity|].
    intros Hd. rewrite bool_decide_eq_false_2 by exact Hd. reflexivity.
  - change (entry :: rest) with ([entry] ++ rest).
    rewrite (place_first_json_skip [entry] rest w); [exact IH|].
    constructor; [exact Hj | constructor].
Qed.

(** What the loop leaves behind, and what it logs. *)
Lemma place_first_json_frame entries w :
  (target_path root ∉ dirs w →
   ∀ p, p ≠ target_path root →
        fs_of (files (place_first_json root entries w).1.1) p =
        fs_of (files w) p) ∧
  dirs (place_first_json root entries w).1.1 = dirs w ∧
  criticals (place_first_json root entries w).1.2 = [] ∧
  (copies (place_first_json root entries w).1.2 = [] ∨
   ∃ src, copies (place_first_json root entries w).1.2 =
          [(src, target_path root)]).
Proof.
  destruct (place_first_json_cases entries w)
    as [-> | [(src & dst & content & -> & Hdst) | (e & ->)]];
    cbn [fst snd files dirs].
  - repeat split; try reflexivity. left. reflexivity.
  - repeat split; try reflexivity.
    + intros Hd p Hp. rewrite (Hdst Hd), fs_of_cons.
      destruct (decide (target_path root = p)); [congruence | reflexivity].
    + right. exists src. reflexivity.
  - repeat split; try reflexivity. left. reflexivity.
Qed.

Variable dataset_download : string → world → world * outcome string.

Local Abbreviation fetch := (fetch_and_place_data (Some dataset_download) root).

(** The run after a download and a listing that both return, when the
    target folder is there or can be made. *)
Lemma fetch_run w w1 path entries :
  dataset_download dataset_handle w = (w1, Return path) →
  folder_error root w1 = None →
  scandir w1 path = Return entries →
  fetch w =
  match place_first_json root entries (made_ready root w1) with
  | (w3, t3, Return moved) =>
      (w3,
       download_log root path (path_exists (target_folder root) w1) ++ t3 ++
       (if moved then []
        else [KLog K_WARNING
                "Keine JSON-Datei im heruntergeladenen Paket gefunden."]),
       Return tt)
  | (w3, t3, Raise e) =>
      (w3,
       download_log root path (path_exists (target_folder root) w1) ++ t3 ++
       (if is_Exception (exn_cls e) then [KLog K_CRITICAL (critical_msg e)]
        else []),
       Raise e)
  end.
Proof.
  intros Hdl Hmk Hls.
  unfold fetch_and_place_data, k_try_except, mbind, K_bind, k_log, k_emit,
    os_scandir, mkdir, mret, K_ret, k_raise, made_ready, download_log.
  unfold folder_error in Hmk.
  rewrite Hdl.
  destruct (path_exists (target_folder root) w1) eqn:Hex; cbn [negb].
  - cbn [scandir]. rewrite Hls.
    destruct (place_first_json root entries w1) as [[w3 t3] [moved|e]].
    + destruct moved; cbn [negb]; reflexivity.
    + destruct (is_Exception (exn_cls e));
        cbn [app]; rewrite ?app_nil_r; reflexivity.
  - rewrite Hmk. cbn [scandir]. rewrite Hls.
    destruct (place_first_json root entries _) as [[w3 t3] [moved|e]].
    + destruct moved; cbn [negb]; reflexivity.
    + destruct (is_Exception (exn_cls e));
        cbn [app]; rewrite ?app_nil_r; reflexivity.
Qed.

Lemma fetch_download_fails w w1 e :
  dataset_download dataset_handle w = (w1, Raise e) →
  fetch w =
  (w1,
   [KLog K_INFO ("Initialisiere API-Download für: " +:+ dataset_handle);
    KDownload dataset_handle] ++
   (if is_Exception (exn_cls e) then [KLog K_CRITICAL (critical_msg e)]
    else []),
   Raise e).
Proof.
  intros Hdl.
  unfold fetch_and_place_data, k_try_except, mbind, K_bind, k_log, k_emit,
    k_raise.
  rewrite Hdl. destruct (is_Exception (exn_cls e)); reflexivity.
Qed.

Lemma fetch_folder_fails w w1 path e :
  dataset_download dataset_handle w = (w1, Return path) →
  folder_error root w1 = Some e →
  fetch w =
  (w1,
   [KLog K_INFO ("Initialisiere API-Download für: " +:+ dataset_handle);
    KDownload dataset_handle;
    KLog K_INFO
      ("Rohdaten erfolgreich im Cache zwischengespeichert: " +:+ path);
    KLog K_INFO ("Erstelle Zielverzeichnis: " +:+ target_folder root)] ++
   (if is_Exception (exn_cls e) then [KLog K_CRITICAL (critical_msg e)]
    else []),
   Raise e).
Proof.
  intros Hdl Hmk.
  unfold fetch_and_place_data, k_try_except, mbind, K_bind, k_log, k_emit,
    os_scandir, mkdir, mret, K_ret, k_raise.
  unfold folder_error in Hmk.
  rewrite Hdl.
  destruct (path_exists (target_folder root) w1); [discriminate|].
  cbn [negb]. rewrite Hmk.
  destruct (is_Exception (exn_cls e)); reflexivity.
Qed.

Lemma fetch_listing_fails w w1 path e :
  dataset_download dataset_handle w = (w1, Return path) →
  folder_error root w1 = None →
  scandir w1 path = Raise e →
  fetch w =
  (made_ready root w1,
   download_log root path (path_exists (target_folder root) w1) ++
   (if is_Exception (exn_cls e) then [KLog K_CRITICAL (critical_msg e)]
    else []),
   Raise e).
Proof.
  intros Hdl Hmk Hls.
  unfold fetch_and_place_data, k_try_except, mbind, K_bind, k_log, k_emit,
    os_scandir, mkdir, mret, K_ret, k_raise, made_ready, download_log.
  unfold folder_error in Hmk.
  rewrite Hdl.
  destruct (path_exists (target_folder root) w1) eqn:Hex; cbn [negb];
    rewrite ?Hmk; cbn [scandir]; rewrite Hls;
    destruct (is_Exception (exn_cls e)); reflexivity.
Qed.

(** The run of the step when the first JSON file of the package can be
    copied. *)
Lemma fetch_places w w1 path skipped entry rest content :
  dataset_download dataset_handle w = (w1, Return path) →
  folder_error root w1 = None →
  scandir w1 path = Return (skipped ++ entry :: rest) →
  Forall (λ e, is_json_file e = false) skipped →
  is_json_file entry = true →
  fs_of (files w1) (entry_path entry) = Some content →
  copy_error w1 (entry_path entry) (target_path root) = None →
  target_path root ∉ dirs w1 →
  fetch w =
  (mkWorld ((target_path root, content) :: files w1)
     (dirs (made_ready root w1)) (scandir w1)
     (mkdir_error (made_ready root w1)) (copy_error w1),
   download_log root path (path_exists (target_folder root) w1) ++
   [KCopy (entry_path entry) (target_path root);
    KLog K_INFO ("ETL-Abschluss: Datei bereitgestellt unter: "
                 +:+ target_path root)],
   Return tt).
Proof.
  intros Hdl Hmk Hls Hskip Hj Hc He Hd.
  rewrite (fetch_run _ _ _ _ Hdl Hmk Hls).
  rewrite (place_first_json_skip _ _ _ Hskip).
  rewrite (place_first_json_hit _ _ _ content Hj);
    rewrite ?files_made_ready, ?copy_error_made_ready;
    try assumption; [|apply target_path_made_ready; assumption].
  rewrite scandir_made_ready, app_nil_r. reflexivity.
Qed.

End KaggleLemmas.

(** ** Placing the file *)





(** ** Failures *)

(** X19.  A download that raises stops the step at once: nothing is
    listed, created or copied, the file system is as the download left it,
    and the exception leaves the step unchanged - after one message at
    CRITICAL with its text when it is an instance of [Exception], and
    without any message otherwise. *)
Theorem failed_download_is_reraised
    (dataset_download : string → world → world * outcome string)
    (root : string) (w w1 : world) (e : exn) :
  dataset_download dataset_handle w = (w1, Raise e) →
  fetch_and_place_data (Some dataset_download) root w =
  (w1,
   [KLog K_INFO ("Initialisiere API-Download für: " +:+ dataset_handle);
    KDownload dataset_handle] ++
   (if is_Exception (exn_cls e)
    then [KLog K_CRITICAL
            ("Kritischer Fehler bei der Datenbeschaffung: " +:+ exn_str e)]
    else []),
   Raise e).
Proof. apply fetch_download_fails. Qed.

Lemma failed_download_is_reraised_witness :
  fetch_and_place_data (Some failing_download) "/project" sample_world =
  (sample_world,
   [KLog K_INFO
      "Initialisiere API-Download für: fronkongames/steam-games-dataset";
    KDownload "fronkongames/steam-games-dataset";
    KLog K_CRITICAL
      "Kritischer Fehler bei der Datenbeschaffung: 401 - Unauthorized"],
   Raise (Exn ValueError "401 - Unauthorized")).
Proof.
  apply (failed_download_is_reraised failing_download "/project" sample_world
           sample_world (Exn ValueError "401 - Unauthorized")).
  reflexivity.
Defined.

(** X20.  Failures are reported exactly once: in every run of the step,
    with or without kagglehub, whatever the download and the file system
    do, the messages logged at CRITICAL are the single message of the
    exception that leaves the step, when one does and it is an instance of
    [Exception]; a run that returns logs none. *)
Theorem critical_log_iff_failure
    (kagglehub : option (string → world → world * outcome string))
    (root : string) (w : world) :
  criticals (fetch_and_place_data kagglehub root w).1.2 =
  match (fetch_and_place_data kagglehub root w).2 with
  | Raise e =>
      if is_Exception (exn_cls e)
      then ["Kritischer Fehler bei der Datenbeschaffung: " +:+ exn_str e]
      else []
  | Return _ => []
  end.
Proof.
  destruct kagglehub as [dataset_download|]; [|reflexivity].
  destruct (dataset_download dataset_handle w) as [w1 [path|e]] eqn:Hdl;
    [|rewrite (fetch_download_fails _ _ _ _ _ Hdl); cbn [fst snd];
      destruct (is_Exception (exn_cls e)); reflexivity].
  destruct (folder_error root w1) as [e|] eqn:Hmk;
    [rewrite (fetch_folder_fails _ _ _ _ _ _ Hdl Hmk); cbn [fst snd];
     destruct (is_Exception (exn_cls e)); reflexivity|].
  destruct (scandir w1 path) as [entries|e] eqn:Hls.
  - rewrite (fetch_run _ _ _ _ _ _ Hdl Hmk Hls).
    pose proof (place_first_json_frame root entries (made_ready root w1))
      as (_ & _ & Hcrit & _).
    destruct (place_first_json root entries (made_ready root w1))
      as [[w3 t3] [moved|e]]; cbn [fst snd] in Hcrit |- *;
      rewrite !criticals_app, criticals_download_log, Hcrit.
    + destruct moved; reflexivity.
    + destruct (is_Exception (exn_cls e)); reflexivity.
  - rewrite (fetch_listing_fails _ _ _ _ _ _ Hdl Hmk Hls). cbn [fst snd].
    rewrite criticals_app, criticals_download_log.
    destruct (is_Exception (exn_cls e)); reflexivity.
Qed.

(** X21.  The step writes one path only.  In every run in which
    data/games.json under the project root is not a directory, compared
    with the file system the download left (the initial one when kagglehub
    is missing): every other path has the content it had, the only
    directory that can be new is the target folder, and at most one copy
    is made, with that path as its destination. *)
Theorem only_target_is_written
    (kagglehub : option (string → world → world * outcome string))
    (root : string) (w : world) :
  target_path root ∉ dirs (downloaded kagglehub w) →
  (∀ p, p ≠ target_path root →
        fs_of (files (fetch_and_place_data kagglehub root w).1.1) p =
        fs_of (files (downloaded kagglehub w)) p) ∧
  (∀ d, d ∈ dirs (fetch_and_place_data kagglehub root w).1.1 →
        d = target_folder root ∨ d ∈ dirs (downloaded kagglehub w)) ∧
  (copies (fetch_and_place_data kagglehub root w).1.2 = [] ∨
   ∃ src, copies (fetch_and_place_data kagglehub root w).1.2 =
          [(src, target_path root)]).
Proof.
  destruct kagglehub as [dataset_download|]; cbn [downloaded]; intros Hd;
    [|split; [|split]; [reflexivity | right; assumption | left; reflexivity]].
  destruct (dataset_download dataset_handle w) as [w1 [path|e]] eqn:Hdl;
    cbn [fst] in Hd |- *;
    [|rewrite (fetch_download_fails _ _ _ _ _ Hdl); cbn [fst snd];
      split; [reflexivity|]; split; [right; assumption|];
      left; destruct (is_Exception (exn_cls e)); reflexivity].
  destruct (folder_error root w1) as [e|] eqn:Hmk;
    [rewrite (fetch_folder_fails _ _ _ _ _ _ Hdl Hmk); cbn [fst snd];
     split; [reflexivity|]; split; [right; assumption|];
     left; destruct (is_Exception (exn_cls e)); reflexivity|].
  destruct (scandir w1 path) as [entries|e] eqn:Hls.
  - rewrite (fetch_run _ _ _ _ _ _ Hdl Hmk Hls).
    pose proof (place_first_json_frame root entries (made_ready root w1))
      as (Hfiles & Hdirs & _ & Hcopies).
    specialize (Hfiles (target_path_made_ready _ _ Hd)).
    rewrite files_made_ready in Hfiles.
    assert (Hlog : ∀ t3 t4,
              copies t4 = [] →
              copies (download_log root path
                        (path_exists (target_folder root) w1) ++ t3 ++ t4) =
              copies t3).
    { intros t3 t4 H4.
      rewrite !copies_app, copies_download_log, H4, app_nil_r.
      reflexivity. }
    destruct (place_first_json root entries (made_ready root w1))
      as [[w3 t3] [moved|e]]; cbn [fst snd] in Hfiles, Hdirs, Hcopies |- *;
      (split; [exact Hfiles|]; split;
       [intros d Hin; rewrite Hdirs in Hin; exact (dirs_made_ready _ _ _ Hin)|]).
    + rewrite Hlog by (destruct moved; reflexivity). exact Hcopies.
    + rewrite Hlog by (destruct (is_Exception (exn_cls e)); reflexivity).
      exact Hcopies.
  - rewrite (fetch_listing_fails _ _ _ _ _ _ Hdl Hmk Hls). cbn [fst snd].
    rewrite files_made_ready. split; [reflexivity|]. split.
    + apply dirs_made_ready.
    + left. rewrite copies_app, copies_download_log.
      destruct (is_Exception (exn_cls e)); reflexivity.
Qed.

Lemma only_target_is_written_witness :
  fs_of (files (fetch_and_place_data (Some sample_download) "/project"
                  sample_world).1.1) "/cache/games_may2024.json" =
  Some odd_counts.
Proof.
  destruct (only_target_is_written (Some sample_download) "/project"
              sample_world) as [Hfiles _]; [by_computation|].
  rewrite Hfiles by discriminate. reflexivity.
Defined.

(** ** Download, then load *)

(** X22.  The two steps compose: after a run that places the first JSON
    file of the package, the loader pointed at data/games.json under the
    project root returns or raises exactly what it returns or raises when
    pointed at that package file itself, and never reports a missing
    file. *)
Theorem placed_file_feeds_loader
    (dataset_download : string → world → world * outcome string)
    (root : string) (w w1 : world) (path : string)
    (skipped rest : list dir_entry) (entry : dir_entry) (content : source)
    (lib : pandas) (parse_float : string → option float64)
    (parse_datetime : pyval → option Z) :
  dataset_download dataset_handle w = (w1, Return path) →
  (path_exists (target_folder root) w1 = false →
   mkdir_error w1 (target_folder root) = None) →
  scandir w1 path = Return (skipped ++ entry :: rest) →
  Forall (λ e, is_json_file e = false) skipped →
  is_json_file entry = true →
  fs_of (files w1) (entry_path entry) = Some content →
  copy_error w1 (entry_path entry) (target_path root) = None →
  target_path root ∉ dirs w1 →
  result (prepare_dataframe
            (fs_of (files (fetch_and_place_data (Some dataset_download)
                             root w).1.1))
            lib parse_float parse_datetime (target_path root)) =
  result (prepare_dataframe (fs_of (files w1))
            lib parse_float parse_datetime (entry_path entry)) ∧
  ∀ e, result (prepare_dataframe
                 (fs_of (files (fetch_and_place_data (Some dataset_download)
                                  root w).1.1))
                 lib parse_float parse_datetime (target_path root)) =
       Raise e →
       exn_cls e ≠ FileNotFoundError.
Proof.
  intros Hdl Hmk Hls Hskip Hj Hc He Hd.
  assert (Hmk' : folder_error root w1 = None).
  { unfold folder_error.
    destruct (path_exists (target_folder root) w1); [reflexivity|].
    apply Hmk. reflexivity. }
  rewrite (fetch_places _ _ _ _ _ _ _ _ _ Hdl Hmk' Hls Hskip Hj Hc He Hd).
  cbn [fst files].
  assert (Hplaced : fs_of ((target_path root, content) :: files w1)
                      (target_path root) = Some content).
  { rewrite fs_of_cons, decide_True by reflexivity. reflexivity. }
  split.
  - rewrite (prepare_dataframe_result _ _ _ _ _ content Hplaced).
    rewrite (prepare_dataframe_result _ _ _ _ _ content Hc). reflexivity.
  - intros e Hraise Hcls.
    pose proof (prepare_dataframe_raises _ _ _ _ _ _ _ Hplaced Hraise)
      as Hmem.
    rewrite Hcls in Hmem.
    repeat (apply elem_of_cons in Hmem as [Hmem|Hmem]; [discriminate|]).
    inversion Hmem.
Qed.

Lemma placed_file_feeds_loader_witness :
  ∃ df,
    result (prepare_dataframe
              (fs_of (files (fetch_and_place_data (Some sample_download)
                               "/project" sample_world).1.1))
              sample_pandas sample_parse_float sample_parse_datetime
              "/project/data/games.json") = Return df ∧
    len df = 3.
Proof.
  destruct (placed_file_feeds_loader sample_download "/project" sample_world
              sample_world "/cache"
              [mkEntry "README.md" "/cache/README.md" true;
               mkEntry "old.json" "/cache/old.json" false]
              [mkEntry "games_may2024.json" "/cache/games_may2024.json" true]
              (mkEntry "games.json" "/cache/games.json" true) test_data
              sample_pandas sample_parse_float sample_parse_datetime)
    as [Hsame _];
    [reflexivity | reflexivity | reflexivity
     | repeat constructor | reflexivity | reflexivity | reflexivity
     | by_computation |].
  change (target_path "/project") with "/project/data/games.json" in Hsame.
  rewrite Hsame.
  eexists. split; [vm_compute; reflexivity|]. reflexivity.
Defined.

(** * The table of the loader under the regression *)

Lemma len_model_df_of_columns df y p a :
  column df "score_ratio" = Some y → column df "price" = Some p →
  column df "average_playtime_forever" = Some a →
  length y = len df → length p = len df → length a = len df →
  len (model_df_of df) =
  length (filter (λ r, complete_row r = true) (zip y (zip p a))).
Proof.
  intros Hy Hp Ha Ly Lp La.
  rewrite (model_df_of_columns _ _ _ _ Hy Hp Ha).
  rewrite (row_mask_three _ _ _ y p a (len df)) by assumption.
  cbv zeta. rewrite <- keep_map_filter. unfold len. simpl.
  apply length_keep_same. rewrite !length_zip_with. unfold len in *. lia.
Qed.

(** Rows whose price and playtime are there are complete exactly when
    their score ratio is there. *)
Lemma filter_complete_imputed y p a :
  length p = length y → length a = length y →
  Forall (λ v, notna v = true) p → Forall (λ v, notna v = true) a →
  length (filter (λ r, complete_row r = true) (zip y (zip p a))) =
  length (filter (λ v, notna v = true) y).
Proof.
  revert p a. induction y as [|v y IH]; intros p a Lp La Fp Fa; [reflexivity|].
  destruct p as [|vp p], a as [|va a]; try discriminate.
  injection Lp as Lp. injection La as La.
  apply Forall_cons in Fp as [Hvp Fp]. apply Forall_cons in Fa as [Hva Fa].
  assert (Hc : complete_row (v, (vp, va)) = notna v).
  { unfold complete_row. cbn [fst snd]. rewrite Hvp, Hva.
    apply andb_true_r. }
  pose proof (IH p a Lp La Fp Fa) as IH'.
  change (zip (v :: y) (zip (vp :: p) (va :: a)))
    with ((v, (vp, va)) :: zip y (zip p a)).
  rewrite !filter_cons.
  destruct (decide (notna v = true)) as [E|E].
  - rewrite decide_True by (rewrite Hc; exact E).
    cbn [length]. rewrite IH'. reflexivity.
  - rewrite decide_False by (rewrite Hc; exact E). exact IH'.
Qed.

(** X23.  Loader and regression compose: the table of the loader always
    has score_ratio, and has price and average_playtime_forever exactly
    when some record of the source has them - without both the regression
    answers with the schema message.  With both, price and playtime have no
    missing cell, so the listwise deletion drops exactly the rows whose
    score ratio is NaN; when fewer than 30 rows have a score ratio the
    regression answers with the small-sample message and the count of
    these rows. *)
Theorem regression_on_the_loaders_table
    (fitted : Type) (sm_OLS_fit : list pyval → DataFrame → outcome fitted)
    (rsquared_4f summary_as_text : fitted → outcome string)
    (fs : string → option source) (lib : pandas)
    (parse_float : string → option float64)
    (parse_datetime : pyval → option Z) (path : string) (df : DataFrame) :
  result (prepare_dataframe fs lib parse_float parse_datetime path) =
    Return df →
  ∃ src recs score_ratio,
    fs path = Some src ∧ source_records src = Some recs ∧
    column df "score_ratio" = Some score_ratio ∧
    (supplies recs "price" && supplies recs "average_playtime_forever" = false →
     perform_linear_regression fitted sm_OLS_fit rsquared_4f summary_as_text
       df =
     ([Log ERROR schema_error_msg], Return schema_error_msg)) ∧
    (supplies recs "price" && supplies recs "average_playtime_forever" = true →
     len (model_df_of df) =
     length (filter (λ v, notna v = true) score_ratio) ∧
     ((length (filter (λ v, notna v = true) score_ratio) < 30)%nat →
      perform_linear_regression fitted sm_OLS_fit rsquared_4f summary_as_text
        df =
      ([Log WARNING
          (too_few_rows_warning
             (length (filter (λ v, notna v = true) score_ratio)))],
       Return sample_too_small_msg))).
Proof.
  intros (src & recs & Hfs & Hrecs & _ & _ & _ & Htab)%prepare_dataframe_table.
  pose proof (table_score_ratio _ _ _ _ _ Htab) as Hy.
  assert (Hp := table_numeric _ _ _ _ _ Htab "price").
  assert (Ha := table_numeric _ _ _ _ _ Htab "average_playtime_forever").
  specialize (Hp ltac:(by_computation)).
  specialize (Ha ltac:(by_computation)).
  eexists src, recs, _. split; [exact Hfs|]. split; [exact Hrecs|].
  split; [exact Hy|]. split.
  - intros [Hs|Hs]%andb_false_iff; rewrite Hs in *.
    + unfold perform_linear_regression.
      rewrite (forallb_has_column_missing _ _ "price"); [reflexivity | |].
      * by_computation.
      * unfold has_column. rewrite Hp. reflexivity.
    + unfold perform_linear_regression.
      rewrite (forallb_has_column_missing _ _ "average_playtime_forever");
        [reflexivity | |].
      * by_computation.
      * unfold has_column. rewrite Ha. reflexivity.
  - intros [Hsp Hsa]%andb_true_iff. rewrite Hsp in Hp. rewrite Hsa in Ha.
    assert (Hlen : len (model_df_of df) =
                   length (filter (λ v, notna v = true)
                             (ratio_of lib
                                (numeric_column parse_float
                                   (raw_column "positive" recs))
                                (total_of lib
                                   (numeric_column parse_float
                                      (raw_column "positive" recs))
                                   (numeric_column parse_float
                                      (raw_column "negative" recs)))))).
    { rewrite (len_model_df_of_columns _ _ _ _ Hy Hp Ha).
      - apply filter_complete_imputed;
          rewrite ?length_ratio_of, ?length_total_of, ?length_numeric_column,
            ?length_raw_column;
          try apply notna_numeric_column; lia.
      - rewrite (table_len _ _ _ _ _ Htab).
        rewrite length_ratio_of, ?length_total_of, ?length_numeric_column,
          ?length_raw_column; lia.
      - rewrite (table_len _ _ _ _ _ Htab), length_numeric_column.
        apply length_raw_column.
      - rewrite (table_len _ _ _ _ _ Htab), length_numeric_column.
        apply length_raw_column. }
    split; [exact Hlen|]. intros Hsmall.
    rewrite regression_run.
    + rewrite Hlen. apply Nat.ltb_lt in Hsmall. rewrite Hsmall. reflexivity.
    + cbn [forallb required_cols]. unfold has_column. rewrite Hy, Hp, Ha.
      reflexivity.
Qed.

Lemma regression_on_the_loaders_table_witness :
  ∃ df,
    result (prepare_dataframe test_fs sample_pandas sample_parse_float
              sample_parse_datetime "games.json") = Return df ∧
    perform_linear_regression string sample_OLS_fit sample_rsquared_4f
      sample_summary_as_text df =
    ([Log WARNING "Regression abgebrochen: Zu wenige Datenpunkte (3)."],
     Return sample_too_small_msg).
Proof.
  destruct (result (prepare_dataframe test_fs sample_pandas sample_parse_float
                      sample_parse_datetime "games.json")) as [df|e] eqn:E;
    [|vm_compute in E; discriminate].
  destruct (regression_on_the_loaders_table string sample_OLS_fit
              sample_rsquared_4f sample_summary_as_text test_fs
              sample_pandas sample_parse_float sample_parse_datetime
              "games.json" df E)
    as (src & recs & y & Hfs & Hrecs & Hy & _ & Hboth).
  vm_compute in Hfs. injection Hfs as <-.
  vm_compute in Hrecs. injection Hrecs as <-.
  destruct (Hboth eq_refl) as [_ Hsmall].
  vm_compute in E. injection E as <-.
  vm_compute in Hy. injection Hy as <-.
  eexists. split; [reflexivity|].
  apply Hsmall. vm_compute. lia.
Defined.
